(** * GMGN latency monitor: a shallow embedding and its checked properties

    The development follows the Python package [gmgn_monitor]:
    [utils.py] (chain names, latency), [metrics.py] (the three gauges),
    [stats.py] (the running statistics), [config.py] (the chain list),
    [gmgn_websocket.py] (the subscription requests, the two decoders, the
    listening loop and the reconnect loop).

    Conventions of the embedding.
    - A decoded JSON document is a [value]; a JSON object is an association
      list whose first binding of a key is the one a Python [dict] holds.
    - A JSON number is a finite number, an exact rational ([Q]): an int,
      or a double that is no NaN and no infinity.  Sums and products are
      taken exactly, in the order the code computes them.  What rounding
      and a NaN change is stated on doubles, in the module [binary64].
    - [float(s)] on a string is a parameter of the development; it may
      return an infinity or a NaN, as Python's does.
    - Strings are [string]; [str.lower] is the ASCII lower-casing.
    - [time.time()] reads a clock, a function of the number of readings
      made so far; its readings are times [datetime.fromtimestamp]
      accepts.
    - A Python exception is an [outcome] that carries the state reached
      when it was raised: mutations made before the [raise] stay. *)

From Stdlib Require Import Ascii String QArith Qround Qabs Lqa.
From Stdlib Require PrimFloat.
From stdpp Require Import gmap strings list fin_maps.

Open Scope Q_scope.
Open Scope string_scope.

(** ** Decoded JSON documents *)

#[warnings="-register-all"]
Inductive value : Type :=
| VNone
| VBool (b : bool)
| VNum (q : Q)
| VStr (s : string)
| VList (l : list value)
| VDict (d : list (string * value)).

Inductive exn : Type :=
| AttributeError
| TypeError
| KeyError
| OverflowError
| ValueError
| RecursionError
| UnicodeDecodeError.

(** [bool(v)] as Python's [not v] and [if v] see it. *)
Definition truthy (v : value) : bool :=
  match v with
  | VNone => false
  | VBool b => b
  | VNum q => negb (Qeq_bool q 0)
  | VStr s => negb (String.eqb s "")
  | VList l => match l with [] => false | _ :: _ => true end
  | VDict d => match d with [] => false | _ :: _ => true end
  end.

Fixpoint dict_get (k : string) (d : list (string * value)) : option value :=
  match d with
  | [] => None
  | (k', v) :: d' => if String.eqb k k' then Some v else dict_get k d'
  end.

(** [k in d] *)
Definition dict_has (k : string) (d : list (string * value)) : bool :=
  match dict_get k d with Some _ => true | None => false end.

(** [d.get(k, default)] *)
Definition dict_get_default (k : string) (default : value)
    (d : list (string * value)) : value :=
  match dict_get k d with Some v => v | None => default end.

(** [x < y] on numbers. *)
Definition Qltb (x y : Q) : bool := negb (Qle_bool y x).

(** [int(x)] on a float: truncation toward zero. *)
Definition py_int (x : Q) : Z := Z.quot (Qnum x) (Zpos (Qden x)).

(** A float as [float()] returns it: [float("inf")], [float("1e999")]
    and [float("nan")] do not raise. *)
Inductive pyfloat : Type :=
| Finite (q : Q)
| Infinity (negative : bool)
| NaN.

(** [int(x)] on such a float: [OverflowError] on an infinity,
    [ValueError] on a NaN. *)
Definition int_of_float (x : pyfloat) : exn + Z :=
  match x with
  | Finite q => inr (py_int q)
  | Infinity _ => inl OverflowError
  | NaN => inl ValueError
  end.

(** [x > 0] *)
Definition float_positive (x : pyfloat) : bool :=
  match x with
  | Finite q => Qltb 0 q
  | Infinity negative => negb negative
  | NaN => false
  end.

(** The least magnitude of an int that [float()] refuses with
    [OverflowError]: half-way between the largest double and 2^1024,
    which rounds to even, that is up. *)
Definition float_overflow_bound : Z := (2 ^ 1024 - 2 ^ 970)%Z.

(** [r] and then [k] on its value: the first exception decides. *)
Definition and_then {A B} (r : exn + A) (k : A -> exn + B) : exn + B :=
  match r with
  | inl e => inl e
  | inr a => k a
  end.

(** ** utils.py *)

Module utils.

Definition CHAIN_MAP : list (string * string) :=
  [ ("sol", "solana");
    ("bsc", "bnb");
    ("base", "base");
    ("eth", "ethereum");
    ("Solana", "solana");
    ("BNB Chain", "bnb");
    ("Base", "base");
    ("Ethereum", "ethereum") ].

Fixpoint chain_map_get (k : string) (m : list (string * string))
    : option string :=
  match m with
  | [] => None
  | (k', v) :: m' => if String.eqb k k' then Some v else chain_map_get k m'
  end.

Definition lower_ascii (c : ascii) : ascii :=
  let n := nat_of_ascii c in
  if (65 <=? n)%nat && (n <=? 90)%nat then ascii_of_nat (n + 32) else c.

(** [s.lower()] *)
Fixpoint lower (s : string) : string :=
  match s with
  | EmptyString => EmptyString
  | String c s' => String (lower_ascii c) (lower s')
  end.

(** [get_chain_name] on a string argument:
    [CHAIN_MAP.get(chain_code, chain_code.lower())]. *)
Definition normalize (chain_code : string) : string :=
  match chain_map_get chain_code CHAIN_MAP with
  | Some name => name
  | None => lower chain_code
  end.

(** [get_chain_name] on whatever the decoder hands it.  The default
    argument [chain_code.lower()] is evaluated before the lookup, so a
    value that is not a string raises [AttributeError]. *)
Definition get_chain_name (chain_code : value) : exn + string :=
  match chain_code with
  | VStr s => inr (normalize s)
  | _ => inl AttributeError
  end.

(** [now - server_timestamp]: defined on numbers (a bool is an int),
    [TypeError] on everything else. *)
Definition seconds_since (now : Q) (server_timestamp : value) : option Q :=
  match server_timestamp with
  | VNum t => Some (now - t)
  | VBool b => Some (now - (if b then 1 else 0))
  | _ => None
  end.

(** [calculate_latency], with the reading of [time.time()] as [now].
    [None] is Python's [None]. *)
Definition calculate_latency (now : Q) (server_timestamp : value)
    : option Q :=
  if negb (truthy server_timestamp) then None
  else
    match seconds_since now server_timestamp with
    | None => None (* except Exception: return None *)
    | Some d =>
        let latency_ms := d * 1000 in
        if Qltb latency_ms 0 || Qltb 120000 latency_ms then None
        else Some latency_ms
    end.

(** [safe_float(val)] with the default [0.0]; [float_of_str] is Python's
    [float] on a string, [None] when it raises [ValueError].  A number of
    a magnitude no double has is an int, on which [float] raises
    [OverflowError]; [safe_float] catches [ValueError] and [TypeError]
    only. *)
Definition safe_float (float_of_str : string -> option pyfloat)
    (val : value) : exn + pyfloat :=
  match val with
  | VNone => inr (Finite 0)
  | VBool b => inr (Finite (if b then 1 else 0))
  | VNum q =>
      if Qle_bool (inject_Z float_overflow_bound) (Qabs q)
      then inl OverflowError
      else inr (Finite q)
  | VStr s =>
      inr (match float_of_str s with Some x => x | None => Finite 0 end)
  | VList _ | VDict _ => inr (Finite 0) (* TypeError, caught *)
  end.

(** The four classes [format_latency_color] prints. *)
Inductive latency_class := Excellent | Good | Medium | Slow.

Definition format_latency_color (latency_ms : Q) : Z * latency_class :=
  if Qltb latency_ms 100 then (py_int latency_ms, Excellent)
  else if Qltb latency_ms 300 then (py_int latency_ms, Good)
  else if Qltb latency_ms 1000 then (py_int latency_ms, Medium)
  else (py_int latency_ms, Slow).

(** ["ot" in pool] followed by [pool["ot"]], for the first entry of a
    nested list: a dict gives its value or nothing; a string or a list
    holding ["ot"] passes the test and fails the subscript; null, a bool
    or a number fails the test. *)
Definition entry_ot (pool : value) : exn + value :=
  match pool with
  | VDict d =>
      match dict_get "ot" d with
      | Some v => inr v
      | None => inr VNone
      end
  | VStr s =>
      match String.index 0 "ot" s with
      | Some _ => inl TypeError
      | None => inr VNone
      end
  | VList l =>
      if existsb (fun x => match x with
                           | VStr s => String.eqb s "ot"
                           | _ => false
                           end) l
      then inl TypeError
      else inr VNone
  | VNone | VBool _ | VNum _ => inl TypeError
  end.

(** [extract_timestamp(data)]; [VNone] is Python's [None]. *)
Definition extract_timestamp (data : value) : exn + value :=
  if negb (truthy data) then inr VNone
  else
    match data with
    | VList (VDict item :: _) =>
        if dict_has "t" item && truthy (dict_get_default "t" VNone item)
        then inr (dict_get_default "t" VNone item)
        else if dict_has "ot" item
                && truthy (dict_get_default "ot" VNone item)
        then inr (dict_get_default "ot" VNone item)
        else
          match dict_get "p" item with
          | Some (VList (pool :: _)) => entry_ot pool
          | _ => inr VNone
          end
    | VDict d =>
        match dict_get "t" d with
        | Some t => inr t
        | None =>
            match dict_get "ot" d with
            | Some ot => inr ot
            | None => inr VNone
            end
        end
    | _ => inr VNone
    end.

End utils.

(** ** metrics.py *)

Module metrics.

(** The three module-level gauges; [None] until [init_metrics] has run.
    A gauge keeps the last value set for each label tuple. *)
Record Gauges : Type := mkGauges {
  _swap_latency : option (gmap string Q);
  _pool_discovery_latency : option (gmap (string * string) Q);
  _all_aggregator_latency : option (gmap (string * string) Q)
}.

Definition unset : Gauges := mkGauges None None None.

Definition init_metrics (_ : Gauges) : Gauges :=
  mkGauges (Some ∅) (Some ∅) (Some ∅).

(** [if g: g.labels(...).set(x)] *)
Definition gauge_set {K} `{Countable K} (labels : K) (x : Q)
    (g : option (gmap K Q)) : option (gmap K Q) :=
  match g with
  | Some m => Some (<[labels := x]> m)
  | None => None
  end.

(** The body of [record_latency] below its guard. *)
Definition set_swap_gauges (aggregator chain : string) (latency_ms : Q)
    (g : Gauges) : Gauges :=
  mkGauges (gauge_set chain latency_ms (_swap_latency g))
           (_pool_discovery_latency g)
           (gauge_set (aggregator, chain) latency_ms
              (_all_aggregator_latency g)).

Definition record_latency (aggregator chain : string) (latency_ms : Q)
    (g : Gauges) : Gauges :=
  if Qltb latency_ms 0 || Qltb 120000 latency_ms then g
  else set_swap_gauges aggregator chain latency_ms g.

(** The body of [record_pool_discovery_latency] below its guard. *)
Definition set_pool_gauges (aggregator chain : string) (latency_ms : Q)
    (g : Gauges) : Gauges :=
  mkGauges (_swap_latency g)
           (gauge_set (aggregator, chain) latency_ms
              (_pool_discovery_latency g))
           (gauge_set (aggregator, chain) latency_ms
              (_all_aggregator_latency g)).

Definition record_pool_discovery_latency (aggregator chain : string)
    (latency_ms : Q) (g : Gauges) : Gauges :=
  if Qltb latency_ms 0 || Qltb 120000 latency_ms then g
  else set_pool_gauges aggregator chain latency_ms g.

End metrics.

(** ** stats.py *)

Module stats.

(** A float that may be [float('inf')]. *)
Inductive ext : Type :=
| Inf
| Fin (q : Q).

(** One value of [by_chain]: the dict with the keys ['swap_count'],
    ['pool_count'] and ['total_latency']. *)
Record ChainStats : Type := mkChainStats {
  cs_swap_count : Z;
  cs_pool_count : Z;
  cs_total_latency : Q
}.

Record Statistics : Type := mkStatistics {
  swap_count : Z;
  pool_count : Z;
  total_swap_latency : Q;
  total_pool_latency : Q;
  min_swap_latency : ext;
  max_swap_latency : Q;
  min_pool_latency : ext;
  max_pool_latency : Q;
  by_chain : gmap string ChainStats
}.

(** [Statistics()] *)
Definition init : Statistics :=
  mkStatistics 0 0 0 0 Inf 0 Inf 0 ∅.

(** [min(a, b)] and [max(a, b)]: the first argument wins a tie. *)
Definition py_min (a : ext) (b : Q) : ext :=
  match a with
  | Inf => Fin b
  | Fin a' => if Qltb b a' then Fin b else Fin a'
  end.

Definition py_max (a b : Q) : Q := if Qltb a b then b else a.

Definition set_by_chain (m : gmap string ChainStats) (s : Statistics)
    : Statistics :=
  mkStatistics (swap_count s) (pool_count s) (total_swap_latency s)
    (total_pool_latency s) (min_swap_latency s) (max_swap_latency s)
    (min_pool_latency s) (max_pool_latency s) m.

(** The first statement of [update]: the global counters of the type. *)
Definition update_globals (event_type : string) (latency_ms : Q)
    (s : Statistics) : Statistics :=
  if String.eqb event_type "swap" then
    mkStatistics (swap_count s + 1) (pool_count s)
      (total_swap_latency s + latency_ms) (total_pool_latency s)
      (py_min (min_swap_latency s) latency_ms)
      (py_max (max_swap_latency s) latency_ms)
      (min_pool_latency s) (max_pool_latency s) (by_chain s)
  else if String.eqb event_type "pool" then
    mkStatistics (swap_count s) (pool_count s + 1)
      (total_swap_latency s) (total_pool_latency s + latency_ms)
      (min_swap_latency s) (max_swap_latency s)
      (py_min (min_pool_latency s) latency_ms)
      (py_max (max_pool_latency s) latency_ms) (by_chain s)
  else s.

Definition new_bucket : ChainStats := mkChainStats 0 0 0.

(** [if chain not in self.by_chain: self.by_chain[chain] = {...}] *)
Definition ensure_bucket (chain : string) (s : Statistics) : Statistics :=
  match by_chain s !! chain with
  | Some _ => s
  | None => set_by_chain (<[chain := new_bucket]> (by_chain s)) s
  end.

(** [bucket[key] += 1]; [None] is the [KeyError] of a missing key. *)
Definition bucket_incr (key : string) (b : ChainStats) : option ChainStats :=
  if String.eqb key "swap_count" then
    Some (mkChainStats (cs_swap_count b + 1) (cs_pool_count b)
            (cs_total_latency b))
  else if String.eqb key "pool_count" then
    Some (mkChainStats (cs_swap_count b) (cs_pool_count b + 1)
            (cs_total_latency b))
  else if String.eqb key "total_latency" then
    Some (mkChainStats (cs_swap_count b) (cs_pool_count b)
            (cs_total_latency b + 1))
  else None.

(** [bucket['total_latency'] += latency_ms] *)
Definition bucket_add_latency (latency_ms : Q) (b : ChainStats)
    : ChainStats :=
  mkChainStats (cs_swap_count b) (cs_pool_count b)
    (cs_total_latency b + latency_ms).

(** [Statistics.update].  The result pairs the exception raised, if any,
    with the object as the call leaves it. *)
Definition update (event_type chain : string) (latency_ms : Q)
    (s : Statistics) : option exn * Statistics :=
  let s1 := update_globals event_type latency_ms s in
  let s2 := ensure_bucket chain s1 in
  match by_chain s2 !! chain with
  | None => (Some KeyError, s2)
  | Some b =>
      match bucket_incr (event_type ++ "_count") b with
      | None => (Some KeyError, s2)
      | Some b' =>
          (None,
           set_by_chain
             (<[chain := bucket_add_latency latency_ms b']> (by_chain s2))
             s2)
      end
  end.

(** What [print_summary] computes and prints; it changes nothing. *)
Definition avg_swap (s : Statistics) : option Q :=
  if (0 <? swap_count s)%Z
  then Some (total_swap_latency s / inject_Z (swap_count s))
  else None.

Definition avg_pool (s : Statistics) : option Q :=
  if (0 <? pool_count s)%Z
  then Some (total_pool_latency s / inject_Z (pool_count s))
  else None.

Definition chain_total (b : ChainStats) : Z :=
  (cs_swap_count b + cs_pool_count b)%Z.

(** The line of one chain: its events and their mean latency; no line
    for a bucket without events. *)
Definition chain_line (b : ChainStats) : option (Z * Q) :=
  if (0 <? chain_total b)%Z
  then Some (chain_total b, cs_total_latency b / inject_Z (chain_total b))
  else None.

(** The sections shown, a section without events left out; the lines of
    the chains by chain name. *)
Record Summary : Type := mkSummary {
  sum_swaps : option (Z * Q * ext * Q);
  sum_pools : option (Z * Q * ext * Q);
  sum_chains : gmap string (Z * Q)
}.

Definition print_summary (s : Statistics) : Summary :=
  mkSummary
    (match avg_swap s with
     | Some a => Some (swap_count s, a, min_swap_latency s, max_swap_latency s)
     | None => None
     end)
    (match avg_pool s with
     | Some a => Some (pool_count s, a, min_pool_latency s, max_pool_latency s)
     | None => None
     end)
    (omap chain_line (by_chain s)).

(** The events counted over the buckets of [by_chain]. *)
Definition chains_events (s : Statistics) : Z :=
  map_fold (fun _ b acc => (acc + chain_total b)%Z) 0%Z (by_chain s).

End stats.

(** ** The same arithmetic on doubles *)

(** Python's [float] is the IEEE 754 binary64 format.  The modules above
    take numbers as exact rationals, which is what the code computes as
    long as no result is rounded and no operand is a NaN.  Where rounding
    or a NaN decides a property, the functions are taken here on the
    doubles themselves: a comparison with a NaN is false, a sum is
    rounded to the nearest double. *)
Module binary64.

Import PrimFloat.
Local Open Scope float_scope.

(** [not x]: a zero is falsy, a NaN is not. *)
Definition falsy (x : float) : bool := x =? 0.

(** [utils.calculate_latency] on a timestamp that is a float, as
    [json.loads] returns it for a number with a fraction or an exponent
    and for the literals [NaN] and [Infinity]; [now] is the reading of
    [time.time()]. *)
Definition calculate_latency (now server_timestamp : float)
    : option float :=
  if falsy server_timestamp then None
  else
    let latency_ms := (now - server_timestamp) * 1000 in
    if (latency_ms <? 0) || (120000 <? latency_ms) then None
    else Some latency_ms.

(** [0 <= x <= 120000] *)
Definition in_range (x : float) : bool := (0 <=? x) && (x <=? 120000).

Record Gauges : Type := mkGauges {
  _swap_latency : option (gmap string float);
  _pool_discovery_latency : option (gmap (string * string) float);
  _all_aggregator_latency : option (gmap (string * string) float)
}.

Definition init_metrics (_ : Gauges) : Gauges :=
  mkGauges (Some ∅) (Some ∅) (Some ∅).

Definition gauge_set {K} `{Countable K} (labels : K) (x : float)
    (g : option (gmap K float)) : option (gmap K float) :=
  match g with
  | Some m => Some (<[labels := x]> m)
  | None => None
  end.

(** [metrics.record_latency] *)
Definition record_latency (aggregator chain : string) (latency_ms : float)
    (g : Gauges) : Gauges :=
  if (latency_ms <? 0) || (120000 <? latency_ms) then g
  else
    mkGauges (gauge_set chain latency_ms (_swap_latency g))
             (_pool_discovery_latency g)
             (gauge_set (aggregator, chain) latency_ms
                (_all_aggregator_latency g)).

(** [metrics.record_pool_discovery_latency] *)
Definition record_pool_discovery_latency (aggregator chain : string)
    (latency_ms : float) (g : Gauges) : Gauges :=
  if (latency_ms <? 0) || (120000 <? latency_ms) then g
  else
    mkGauges (_swap_latency g)
             (gauge_set (aggregator, chain) latency_ms
                (_pool_discovery_latency g))
             (gauge_set (aggregator, chain) latency_ms
                (_all_aggregator_latency g)).

Record ChainStats : Type := mkChainStats {
  cs_swap_count : Z;
  cs_pool_count : Z;
  cs_total_latency : float
}.

(** [by_chain] keeps its keys in insertion order, as a [dict] does. *)
Record Statistics : Type := mkStatistics {
  swap_count : Z;
  pool_count : Z;
  total_swap_latency : float;
  total_pool_latency : float;
  min_swap_latency : float;
  max_swap_latency : float;
  min_pool_latency : float;
  max_pool_latency : float;
  by_chain : list (string * ChainStats)
}.

(** [Statistics()]; the int [0] a sum or a maximum starts from is the
    double [0.0] as soon as a float meets it. *)
Definition init : Statistics :=
  mkStatistics 0 0 0 0 infinity 0 infinity 0 [].

(** [min(a, b)] and [max(a, b)]: the second argument is taken when it is
    strictly below, strictly above, the first. *)
Definition py_min (a b : float) : float := if b <? a then b else a.

Definition py_max (a b : float) : float := if a <? b then b else a.

Fixpoint lookup (chain : string) (m : list (string * ChainStats))
    : option ChainStats :=
  match m with
  | [] => None
  | (k, b) :: m' => if String.eqb chain k then Some b else lookup chain m'
  end.

(** [m[chain] = b]: in place for a key that exists, at the end for a new
    one. *)
Fixpoint store (chain : string) (b : ChainStats)
    (m : list (string * ChainStats)) : list (string * ChainStats) :=
  match m with
  | [] => [(chain, b)]
  | (k, b0) :: m' =>
      if String.eqb chain k then (k, b) :: m'
      else (k, b0) :: store chain b m'
  end.

Definition new_bucket : ChainStats := mkChainStats 0 0 0.

Definition set_by_chain (m : list (string * ChainStats)) (s : Statistics)
    : Statistics :=
  mkStatistics (swap_count s) (pool_count s) (total_swap_latency s)
    (total_pool_latency s) (min_swap_latency s) (max_swap_latency s)
    (min_pool_latency s) (max_pool_latency s) m.

(** [Statistics.update]; the key [f'{event_type}_count'] exists for the
    two event types only. *)
Definition update (event_type chain : string) (latency_ms : float)
    (s : Statistics) : option exn * Statistics :=
  let s1 :=
    if String.eqb event_type "swap" then
      mkStatistics (swap_count s + 1) (pool_count s)
        (total_swap_latency s + latency_ms) (total_pool_latency s)
        (py_min (min_swap_latency s) latency_ms)
        (py_max (max_swap_latency s) latency_ms)
        (min_pool_latency s) (max_pool_latency s) (by_chain s)
    else if String.eqb event_type "pool" then
      mkStatistics (swap_count s) (pool_count s + 1)
        (total_swap_latency s) (total_pool_latency s + latency_ms)
        (min_swap_latency s) (max_swap_latency s)
        (py_min (min_pool_latency s) latency_ms)
        (py_max (max_pool_latency s) latency_ms) (by_chain s)
    else s in
  let m :=
    match lookup chain (by_chain s1) with
    | Some _ => by_chain s1
    | None => store chain new_bucket (by_chain s1)
    end in
  let b := default new_bucket (lookup chain m) in
  if String.eqb event_type "swap" then
    (None,
     set_by_chain
       (store chain
          (mkChainStats (cs_swap_count b + 1) (cs_pool_count b)
             (cs_total_latency b + latency_ms)) m) s1)
  else if String.eqb event_type "pool" then
    (None,
     set_by_chain
       (store chain
          (mkChainStats (cs_swap_count b) (cs_pool_count b + 1)
             (cs_total_latency b + latency_ms)) m) s1)
  else (Some KeyError, set_by_chain m s1).

(** A sequence of calls of [update] on one object. *)
Definition updates (calls : list (string * string * float))
    (s : Statistics) : Statistics :=
  fold_left
    (fun s c => snd (update (fst (fst c)) (snd (fst c)) (snd c) s))
    calls s.

(** The sums over the buckets, in the order of [by_chain]. *)
Definition chains_events (s : Statistics) : Z :=
  fold_left (fun acc kb => (acc + (cs_swap_count (snd kb)
                                   + cs_pool_count (snd kb)))%Z)
    (by_chain s) 0%Z.

Definition chains_latency (s : Statistics) : float :=
  fold_left (fun acc kb => acc + cs_total_latency (snd kb)) (by_chain s) 0.

(** The buckets add up to the global counters and sums, [==] on floats. *)
Definition chains_reconstruct (s : Statistics) : Prop :=
  chains_events s = (swap_count s + pool_count s)%Z /\
  (chains_latency s =? total_swap_latency s + total_pool_latency s) = true.

(** A clock reading, and three swaps on two chains. *)
Definition now0 : float := 1000.

#[warnings="-inexact-float"]
Definition drift_calls : list (string * string * float) :=
  [ ("swap", "solana", 0.1); ("swap", "bnb", 0.1); ("swap", "solana", 1.1) ].

End binary64.

(** ** config.py *)

Module config.

Record Config : Type := mkConfig {
  debug : bool;
  metrics_port : Z;
  chains : list string
}.

(** [s.split(',')] *)
Fixpoint split_comma (s : string) : list string :=
  match s with
  | EmptyString => [EmptyString]
  | String c s' =>
      if Ascii.eqb c "," then EmptyString :: split_comma s'
      else
        match split_comma s' with
        | x :: xs => String c x :: xs
        | [] => [String c EmptyString]
        end
  end.

(** [c.isspace()] for a character below 256: the ASCII white space,
    the four separators 28 to 31, next line and no-break space. *)
Definition is_space (c : ascii) : bool :=
  let n := nat_of_ascii c in
  ((9 <=? n) && (n <=? 13) || (28 <=? n) && (n <=? 32)
   || (n =? 133) || (n =? 160))%nat.

(** [s.lstrip()], [s.rstrip()], [s.strip()] *)
Fixpoint lstrip (s : string) : string :=
  match s with
  | EmptyString => EmptyString
  | String c s' => if is_space c then lstrip s' else s
  end.

Fixpoint rstrip (s : string) : string :=
  match s with
  | EmptyString => EmptyString
  | String c s' =>
      match rstrip s' with
      | EmptyString => if is_space c then EmptyString
                       else String c EmptyString
      | r => String c r
      end
  end.

Definition strip (s : string) : string := rstrip (lstrip s).

(** [[c.strip() for c in chains_str.split(',') if c.strip()]] *)
Fixpoint stripped_nonempty (parts : list string) : list string :=
  match parts with
  | [] => []
  | c :: parts' =>
      if negb (String.eqb (strip c) "")
      then strip c :: stripped_nonempty parts'
      else stripped_nonempty parts'
  end.

Definition parse_chains (chains_str : string) : list string :=
  stripped_nonempty (split_comma chains_str).

(** [Config.load()], the environment as [getenv] (after [load_dotenv]) and
    [int] on a string as [int_of_str]; [None] is the [ValueError] of a
    port that is no integer. *)
Definition load (getenv : string -> option string)
    (int_of_str : string -> option Z) : option Config :=
  let debug :=
    String.eqb (utils.lower (default "true" (getenv "DEBUG"))) "true" in
  match int_of_str (default "2113" (getenv "METRICS_PORT")) with
  | None => None
  | Some port =>
      Some (mkConfig debug port
              (parse_chains (default "sol,bsc,base" (getenv "CHAINS"))))
  end.

End config.

(** ** gmgn_websocket.py: the subscription requests *)

(** [create_subscription(channel, chain)], with [uuid_hex] for
    [uuid.uuid4().hex]. *)
Definition create_subscription (uuid_hex : string) (channel chain : string)
    : value :=
  VDict [ ("action", VStr "subscribe");
          ("channel", VStr channel);
          ("f", VStr "w");
          ("id", VStr (substring 0 16 uuid_hex));
          ("data", VList [VDict [("chain", VStr chain)]]);
          ("access_token", VNone);
          ("retry", VNone) ].

(** The requests the reconnect loop sends for the configured chains, in
    order; [uuids n] is the hex of the [n]-th uuid drawn and [k] the
    number of uuids drawn before. *)
Fixpoint subscriptions (uuids : nat -> string) (k : nat)
    (chains : list string) : list value :=
  match chains with
  | [] => []
  | chain :: chains' =>
      create_subscription (uuids k) "new_pair_update" chain
      :: create_subscription (uuids (S k)) "new_pool_info" chain
      :: subscriptions uuids (S (S k)) chains'
  end.

(** ** gmgn_websocket.py: what the handlers print and call *)

(** A printed line, by the values that are formatted into it. *)
Inductive line : Type :=
| DebugUnknownChain (trade : value)
| DebugEvmAddress (prefix : string)
| DebugExchange (lc_ex : value)
| DebugRawTimestamp (raw : value) (receive_time : Q) (lag : Z)
| SwapRich (receive_time : Q) (chain : string) (symbol addr_short : value)
    (price_val mc_val vol_val : pyfloat) (buy_val sell_val : Z)
    (server_time : value) (lag : Z * utils.latency_class)
| SwapMinimal (receive_time : Q) (chain : string) (addr_short : value)
    (server_time : value) (lag : Z * utils.latency_class)
| PoolLine (receive_time : Q) (chain : string) (symbol name exchange : value)
    (pool_short : value) (liq_val price_val mc_val : pyfloat)
    (holder_val : Z)
    (pool_open_time : value) (lag : Z * utils.latency_class)
| DebugParseFailure
| DebugNoChannel (data : value)
| AckReceived
| ConnectionClosedLine
| HandlerErrorLine (e : exn)
| Connecting
| ConnectionErrorLine
| Reconnecting (delay : Z)
| Stopped.

(** The calls a handler makes on its collaborators, in program order. *)
Inductive Event : Type :=
| CallCalculateLatency (server_timestamp : value) (result : option Q)
| CallRecordLatency (aggregator chain : string) (latency_ms : Q)
| CallRecordPoolDiscovery (aggregator chain : string) (latency_ms : Q)
| CallStatsUpdate (event_type chain : string) (latency_ms : Q)
| CallPrintSummary (shown : stats.Summary)
| Print (l : line).

(** The mutable state the handlers share: the gauges of [metrics], the
    [Statistics] object, the number of clock readings made, and the log of
    calls. *)
Record World : Type := mkWorld {
  gauges : metrics.Gauges;
  stats_obj : stats.Statistics;
  ticks : nat;
  trace : list Event
}.

Inductive outcome (A : Type) : Type :=
| Ok (a : A) (w : World)
| Raised (e : exn) (w : World).
Arguments Ok {A} a w.
Arguments Raised {A} e w.

Definition world_of {A} (r : outcome A) : World :=
  match r with
  | Ok _ w => w
  | Raised _ w => w
  end.

Definition M (A : Type) : Type := World -> outcome A.

Definition ret {A} (a : A) : M A := fun w => Ok a w.

Definition raise {A} (e : exn) : M A := fun w => Raised e w.

Definition bind {A B} (m : M A) (k : A -> M B) : M B :=
  fun w =>
    match m w with
    | Ok a w' => k a w'
    | Raised e w' => Raised e w'
    end.

Notation "'let*' x ':=' m 'in' k" := (bind m (fun x => k))
  (at level 10, x name, m at level 100, k at level 200).
Notation "'run' m 'then' k" := (bind m (fun _ => k))
  (at level 10, m at level 100, k at level 200).

Definition lift {A} (r : exn + A) : M A :=
  match r with
  | inl e => raise e
  | inr a => ret a
  end.

Definition emit (e : Event) : M unit :=
  fun w => Ok tt (mkWorld (gauges w) (stats_obj w) (ticks w) (trace w ++ [e])).

Definition print (l : line) : M unit := emit (Print l).

Definition when (b : bool) (m : M unit) : M unit :=
  if b then m else ret tt.

(** [for x in xs: body(x)]; an exception leaves the loop. *)
Fixpoint for_each {A} (body : A -> M unit) (xs : list A) : M unit :=
  match xs with
  | [] => ret tt
  | x :: xs' => run body x then for_each body xs'
  end.

(** [metrics.record_latency(...)] *)
Definition record_latency (aggregator chain : string) (latency_ms : Q)
    : M unit :=
  fun w =>
    Ok tt (mkWorld
             (metrics.record_latency aggregator chain latency_ms (gauges w))
             (stats_obj w) (ticks w)
             (trace w ++ [CallRecordLatency aggregator chain latency_ms])).

(** [metrics.record_pool_discovery_latency(...)] *)
Definition record_pool_discovery_latency (aggregator chain : string)
    (latency_ms : Q) : M unit :=
  fun w =>
    Ok tt (mkWorld
             (metrics.record_pool_discovery_latency aggregator chain
                latency_ms (gauges w))
             (stats_obj w) (ticks w)
             (trace w
                ++ [CallRecordPoolDiscovery aggregator chain latency_ms])).

(** [stats_obj.update(...)] *)
Definition stats_update (event_type chain : string) (latency_ms : Q)
    : M unit :=
  fun w =>
    let w' s := mkWorld (gauges w) s (ticks w)
                  (trace w ++ [CallStatsUpdate event_type chain latency_ms]) in
    match stats.update event_type chain latency_ms (stats_obj w) with
    | (None, s) => Ok tt (w' s)
    | (Some e, s) => Raised e (w' s)
    end.

(** [stats_obj.print_summary()] *)
Definition print_summary : M unit :=
  fun w => emit (CallPrintSummary (stats.print_summary (stats_obj w))) w.

(** [v == s] for a string literal [s]. *)
Definition is_str (s : string) (v : value) : bool :=
  match v with
  | VStr s' => String.eqb s' s
  | _ => false
  end.

(** [v.get(k, default)]: only a dict has [get]. *)
Definition py_get (k : string) (default : value) (v : value) : M value :=
  match v with
  | VDict d => ret (dict_get_default k default d)
  | _ => raise AttributeError
  end.

(** [s[:n]] on a string. *)
Fixpoint str_take (n : nat) (s : string) : string :=
  match n, s with
  | S n', String c s' => String c (str_take n' s')
  | _, _ => EmptyString
  end.

(** [a.startswith(p)]: only a string has [startswith]. *)
Definition startswith (p : string) (a : value) : M bool :=
  match a with
  | VStr s => ret (String.prefix p s)
  | _ => raise AttributeError
  end.

(** [a[:8] if len(a) > 8 else a] *)
Definition short8 (a : value) : M value :=
  match a with
  | VStr s =>
      ret (if (8 <? String.length s)%nat then VStr (str_take 8 s) else a)
  | VList l => ret (if (8 <? length l)%nat then VList (firstn 8 l) else a)
  | VDict d => if (8 <? length d)%nat then raise TypeError else ret a
  | VNone | VBool _ | VNum _ => raise TypeError
  end.

(** The values [for x in v] goes through. *)
Fixpoint chars (s : string) : list value :=
  match s with
  | EmptyString => []
  | String c s' => VStr (String c EmptyString) :: chars s'
  end.

Definition iter (v : value) : M (list value) :=
  match v with
  | VList l => ret l
  | VStr s => ret (chars s)
  | VDict d => ret (map (fun kv => VStr (fst kv)) d)
  | VNone | VBool _ | VNum _ => raise TypeError
  end.

(** ** gmgn_websocket.py: the decoders and the two loops *)

Section Monitor.

(** [clock n] is what the [n]-th call of [time.time()] returns;
    [float_of_str s] is [float(s)], [None] on [ValueError]. *)
Variable clock : nat -> Q.
Variable float_of_str : string -> option pyfloat.

Definition time_time : M Q :=
  fun w =>
    Ok (clock (ticks w))
       (mkWorld (gauges w) (stats_obj w) (S (ticks w)) (trace w)).

(** [utils.calculate_latency(ts)]: the clock is read only past the first
    guard; the call and its result are logged. *)
Definition calculate_latency (server_timestamp : value) : M (option Q) :=
  let* result :=
    if truthy server_timestamp then
      let* now := time_time in
      ret (utils.calculate_latency now server_timestamp)
    else ret None in
  run emit (CallCalculateLatency server_timestamp result) then
  ret result.

Definition safe_float : value -> exn + pyfloat :=
  utils.safe_float float_of_str.

(** The conversions of [handle_swap_trade] below the debug line, in
    program order: [safe_float] on the price, the market cap and the
    volume, [int(safe_float(..))] on the two counts. *)
Definition swap_numbers (price market_cap volume_1h buys_1h sells_1h : value)
    : exn + (pyfloat * pyfloat * pyfloat * Z * Z) :=
  and_then (safe_float price) (fun price_val =>
  and_then (safe_float market_cap) (fun mc_val =>
  and_then (safe_float volume_1h) (fun vol_val =>
  and_then (and_then (safe_float buys_1h) int_of_float) (fun buy_val =>
  and_then (and_then (safe_float sells_1h) int_of_float) (fun sell_val =>
  inr (price_val, mc_val, vol_val, buy_val, sell_val)))))).

(** The conversions of [handle_new_pool], in program order; the volume
    is converted and not shown. *)
Definition pool_numbers
    (price market_cap volume_1h holder_count initial_liquidity : value)
    : exn + (pyfloat * pyfloat * Z * pyfloat) :=
  and_then (safe_float price) (fun price_val =>
  and_then (safe_float market_cap) (fun mc_val =>
  and_then (safe_float volume_1h) (fun _ =>
  and_then (and_then (safe_float holder_count) int_of_float)
    (fun holder_val =>
  and_then (safe_float initial_liquidity) (fun liq_val =>
  inr (price_val, mc_val, holder_val, liq_val)))))).

(** The body of the loop of [handle_swap_trade]; [trade.get] raises
    [AttributeError] on a record that is not a dict. *)
Definition swap_step (receive_time : Q) (debug : bool) (trade : value)
    : M unit :=
  match trade with
  | VDict d =>
      let symbol := dict_get_default "s" (VStr "UNKNOWN") d in
      let address := dict_get_default "a" (VStr "") d in
      let price := dict_get_default "p" (VNum 0) d in
      let market_cap := dict_get_default "mc" (VNum 0) d in
      let volume_1h := dict_get_default "v1h" (VNum 0) d in
      let buys_1h := dict_get_default "b1h" (VNum 0) d in
      let sells_1h := dict_get_default "s1h" (VNum 0) d in
      let chain_raw :=
        dict_get_default "c" (dict_get_default "n" (VStr "unknown") d) d in
      run when (is_str "unknown" chain_raw && debug)
            (run print (DebugUnknownChain trade) then
             let* evm := startswith "0x" address in
             when evm
               (run print (DebugEvmAddress
                             (match address with
                              | VStr a => str_take 10 a
                              | _ => ""
                              end)) then
                when (dict_has "lc_ex" d)
                  (print (DebugExchange
                            (dict_get_default "lc_ex" VNone d))))) then
      let* chain := lift (utils.get_chain_name chain_raw) in
      let server_time := dict_get_default "t" VNone d in
      let* latency := calculate_latency server_time in
      match latency with
      | None => ret tt (* continue *)
      | Some latency =>
          run record_latency "gmgn" chain latency then
          run stats_update "swap" chain latency then
          let* addr_short := short8 address in
          run when debug
                (print (DebugRawTimestamp server_time receive_time
                          (py_int latency))) then
          let* numbers :=
            lift (swap_numbers price market_cap volume_1h buys_1h
                    sells_1h) in
          let '(price_val, mc_val, vol_val, buy_val, sell_val) := numbers in
          if float_positive mc_val || float_positive vol_val then
            print (SwapRich receive_time chain symbol addr_short price_val
                     mc_val vol_val buy_val sell_val server_time
                     (utils.format_latency_color latency))
          else
            print (SwapMinimal receive_time chain addr_short server_time
                     (utils.format_latency_color latency))
      end
  | _ => raise AttributeError
  end.

(** [handle_swap_trade(data, receive_time, stats_obj, debug)].  A truthy
    [data] without [len] raises [TypeError], as does iterating over it. *)
Definition handle_swap_trade (data : value) (receive_time : Q)
    (debug : bool) : M unit :=
  if negb (truthy data) then ret tt
  else
    let* trades := iter data in
    for_each (swap_step receive_time debug) trades.

(** The body of the inner loop of [handle_new_pool]. *)
Definition pool_step (receive_time : Q) (debug : bool) (chain : string)
    (open_time : value) (pool : value) : M unit :=
  match pool with
  | VDict d =>
      let exchange := dict_get_default "ex" (VStr "unknown") d in
      let pool_addr := dict_get_default "pa" (VStr "") d in
      let initial_liquidity := dict_get_default "il" (VStr "0") d in
      let pool_open_time := dict_get_default "ot" open_time d in
      let token_info := dict_get_default "bti" (VDict []) d in
      let* symbol := py_get "s" (VStr "UNKNOWN") token_info in
      let* name := py_get "n" (VStr "Unknown") token_info in
      let* price := py_get "p" (VNum 0) token_info in
      let* market_cap := py_get "mc" (VNum 0) token_info in
      let* volume_1h := py_get "v1h" (VNum 0) token_info in
      let* holder_count := py_get "hc" (VNum 0) token_info in
      let* latency := calculate_latency pool_open_time in
      match latency with
      | None => ret tt (* continue *)
      | Some latency =>
          run record_pool_discovery_latency "gmgn" chain latency then
          run stats_update "pool" chain latency then
          let* pool_short := short8 pool_addr in
          run when debug
                (print (DebugRawTimestamp pool_open_time receive_time
                          (py_int latency))) then
          let* numbers :=
            lift (pool_numbers price market_cap volume_1h holder_count
                    initial_liquidity) in
          let '(price_val, mc_val, holder_val, liq_val) := numbers in
          print (PoolLine receive_time chain symbol name exchange
                   pool_short liq_val price_val mc_val holder_val
                   pool_open_time (utils.format_latency_color latency))
      end
  | _ => raise AttributeError
  end.

(** The body of the outer loop of [handle_new_pool]. *)
Definition pool_event_step (receive_time : Q) (debug : bool)
    (pool_event : value) : M unit :=
  match pool_event with
  | VDict d =>
      let chain_raw :=
        dict_get_default "c" (dict_get_default "n" (VStr "unknown") d) d in
      let* chain := lift (utils.get_chain_name chain_raw) in
      let p := dict_get_default "p" (VList []) d in
      let pools :=
        if negb (truthy p) && dict_has "pa" d then VList [pool_event]
        else p in
      let open_time := dict_get_default "ot" VNone d in
      let* entries := iter pools in
      for_each (pool_step receive_time debug chain open_time) entries
  | _ => raise AttributeError
  end.

(** [handle_new_pool(data, receive_time, stats_obj, debug)] *)
Definition handle_new_pool (data : value) (receive_time : Q)
    (debug : bool) : M unit :=
  if negb (truthy data) then ret tt
  else
    let* events := iter data in
    for_each (pool_event_step receive_time debug) events.

(** A frame received on the socket: [json.loads] raises
    [JSONDecodeError] on it, raises another exception ([RecursionError]
    on a document nested too deep, [UnicodeDecodeError] on a binary frame
    that is no UTF text), or decodes it. *)
Inductive message : Type :=
| BadJson
| Unloadable (e : exn)
| Json (data : value).

(** The body of the loop of [listen_to_gmgn], after
    [message_count += 1]; [message_count] is the incremented counter. *)
Definition listen_step (message_count : Z) (debug : bool) (m : message)
    : M unit :=
  let* receive_time := time_time in
  match m with
  | BadJson => when debug (print DebugParseFailure) (* continue *)
  | Unloadable e => raise e (* not a [JSONDecodeError]: not caught here *)
  | Json data =>
      let* channel := py_get "channel" VNone data in
      let* payload := py_get "data" VNone data in
      if negb (truthy channel) then
        when debug (print (DebugNoChannel data)) (* continue *)
      else if is_str "ack" channel then
        print AckReceived (* continue *)
      else
        run (if is_str "new_pair_update" channel then
               handle_swap_trade payload receive_time debug
             else if is_str "new_pool_info" channel then
               handle_new_pool payload receive_time debug
             else ret tt) then
        when (message_count mod 50 =? 0)%Z print_summary
  end.

(** The loop of [listen_to_gmgn] on the frames the connection delivers
    before it closes, from the counter value [message_count]. *)
Fixpoint listen_loop (message_count : Z) (debug : bool)
    (frames : list message) : M unit :=
  match frames with
  | [] => ret tt
  | m :: frames' =>
      run listen_step (message_count + 1) debug m then
      listen_loop (message_count + 1) debug frames'
  end.

(** [listen_to_gmgn]: both [except] clauses print and return.
    [closed_with_error] tells whether the iteration ended with
    [ConnectionClosed] raised. *)
Definition listen_to_gmgn (debug : bool) (frames : list message)
    (closed_with_error : bool) (w : World) : World :=
  match listen_loop 0 debug frames w with
  | Ok _ w' =>
      if closed_with_error
      then world_of (print ConnectionClosedLine w')
      else w'
  | Raised e w' => world_of (print (HandlerErrorLine e) w')
  end.

(** One turn of the reconnect loop, as the environment decides it: the
    connection attempt fails before the subscriptions are all sent, or the
    monitor listens until the connection is gone. *)
Inductive attempt : Type :=
| Fails
| Listens (frames : list message) (closed_with_error : bool).

Record turn : Type := mkTurn {
  what : attempt;
  stop_after_try : bool;   (* [stop_event.is_set()] below the [try] *)
  stop_after_sleep : bool  (* [stop_event.is_set()] at the [while] *)
}.

Record Monitor : Type := mkMonitor {
  reconnect_delay : Z;
  slept : list Z;          (* the arguments of [asyncio.sleep], in order *)
  world : World;
  stopped : bool           (* the loop was left and the final summary shown *)
}.

Definition max_reconnect_delay : Z := 60.

(** Below the loop: the final summary. *)
Definition shutdown (m : Monitor) : Monitor :=
  mkMonitor (reconnect_delay m) (slept m)
    (world_of ((run print_summary then print Stopped) (world m))) true.

(** The [while] loop of [run_gmgn_monitor] over the turns observed. *)
Fixpoint run_loop (debug : bool) (turns : list turn) (m : Monitor)
    : Monitor :=
  match turns with
  | [] => m
  | t :: turns' =>
      let w0 := world_of (print Connecting (world m)) in
      let m1 :=
        match what t with
        | Fails =>
            mkMonitor (reconnect_delay m) (slept m)
              (world_of (print ConnectionErrorLine w0)) false
        | Listens frames closed_with_error =>
            mkMonitor 5 (slept m)
              (listen_to_gmgn debug frames closed_with_error w0) false
        end in
      if stop_after_try t then shutdown m1
      else
        let w1 := world_of (print (Reconnecting (reconnect_delay m1))
                              (world m1)) in
        let m2 :=
          mkMonitor (Z.min (reconnect_delay m1 * 2) max_reconnect_delay)
            (slept m1 ++ [reconnect_delay m1]) w1 false in
        if stop_after_sleep t then shutdown m2
        else run_loop debug turns' m2
  end.

(** [run_gmgn_monitor]: a fresh [Statistics], the delay 5, then the loop;
    [stop_at_start] is the first test of the [while]. *)
Definition run_gmgn_monitor (debug : bool) (g : metrics.Gauges)
    (stop_at_start : bool) (turns : list turn) : Monitor :=
  let m0 := mkMonitor 5 [] (mkWorld g stats.init 0 []) false in
  if stop_at_start then shutdown m0 else run_loop debug turns m0.

(** ** Notions the properties are stated with *)

(** The validity range of a latency, in milliseconds. *)
Definition in_range (l : Q) : Prop := 0 <= l /\ l <= 120000.

(** [l] is a value [utils.calculate_latency] returned. *)
Definition passed_filter (l : Q) : Prop :=
  exists now ts, utils.calculate_latency now ts = Some l.

(** Idempotence of the chain normalizer at one input. *)
Definition normalize_idempotent_at (x : string) : Prop :=
  utils.normalize (utils.normalize x) = utils.normalize x.

(** A sequence of calls [update(event_type, chain, latency_ms)] on one
    [Statistics] object, exceptions swallowed. *)
Definition updates (calls : list (string * string * Q))
    (s : stats.Statistics) : stats.Statistics :=
  fold_left
    (fun s c => snd (stats.update (fst (fst c)) (snd (fst c)) (snd c) s))
    calls s.

(** The latencies of the calls of one event type, in call order. *)
Fixpoint latencies_of (event_type : string)
    (calls : list (string * string * Q)) : list Q :=
  match calls with
  | [] => []
  | c :: calls' =>
      if String.eqb (fst (fst c)) event_type
      then snd c :: latencies_of event_type calls'
      else latencies_of event_type calls'
  end.

(** The numbers [ls] added up from 0 in their order, as a running total
    accumulates them. *)
Definition py_sum (ls : list Q) : Q := fold_left Qplus ls 0.

(** The bucket of a chain after a call of type ["swap"], or else
    ["pool"], with latency [l]. *)
Definition bumped (event_type : string) (l : Q) (b : stats.ChainStats)
    : stats.ChainStats :=
  if String.eqb event_type "swap" then
    stats.mkChainStats (stats.cs_swap_count b + 1) (stats.cs_pool_count b)
      (stats.cs_total_latency b + l)
  else
    stats.mkChainStats (stats.cs_swap_count b) (stats.cs_pool_count b + 1)
      (stats.cs_total_latency b + l).

(** The counts of the buckets add up to the global counts. *)
Definition counts_reconstruct (s : stats.Statistics) : Prop :=
  stats.chains_events s = (stats.swap_count s + stats.pool_count s)%Z.

(** The event type of a call is one of the two the monitor uses. *)
Definition known_type (c : string * string * Q) : Prop :=
  fst (fst c) = "swap" \/ fst (fst c) = "pool".

(** The events a decoder may add to the log: a printed line, a call of
    [calculate_latency], or a call of a sink or of the aggregator with a
    latency [calculate_latency] returned. *)
Inductive from_handler : Event -> Prop :=
| fh_print l : from_handler (Print l)
| fh_calc ts o : from_handler (CallCalculateLatency ts o)
| fh_record a c l : passed_filter l -> from_handler (CallRecordLatency a c l)
| fh_pool a c l :
    passed_filter l -> from_handler (CallRecordPoolDiscovery a c l)
| fh_update t c l : passed_filter l -> from_handler (CallStatsUpdate t c l).

(** A computation that only appends events satisfying [ok] to the log,
    and whose result, when it returns, satisfies [post]. *)
Definition appends {A} (ok : Event -> Prop) (post : A -> Prop) (m : M A)
    : Prop :=
  forall w,
    (exists evs,
       trace (world_of (m w)) = (trace w ++ evs)%list /\ Forall ok evs) /\
    (forall a w', m w = Ok a w' -> post a).

(** A computation that appends to the log a list of events satisfying
    [shape]. *)
Definition logs {A} (shape : list Event -> Prop) (m : M A) : Prop :=
  forall w,
    exists evs,
      trace (world_of (m w)) = (trace w ++ evs)%list /\ shape evs.

Definition is_print (e : Event) : Prop :=
  match e with
  | Print _ => True
  | _ => False
  end.

(** An event that may follow the call of [calculate_latency] that
    returned [l]: a printed line, or a call of a sink or of the aggregator
    with [l]. *)
Definition carries (l : Q) (e : Event) : Prop :=
  match e with
  | CallRecordLatency _ _ l' | CallRecordPoolDiscovery _ _ l'
  | CallStatsUpdate _ _ l' => l' = l
  | Print _ => True
  | CallCalculateLatency _ _ | CallPrintSummary _ => False
  end.

(** The log of one record of a batch: lines only, when decoding stops
    before the latency is computed; lines, then the one call of
    [calculate_latency], which found the timestamp invalid; or lines, the
    one call of [calculate_latency], then lines and calls of the sink and
    of the aggregator with the latency it returned. *)
Inductive record_log : list Event -> Prop :=
| rl_stopped evs : Forall is_print evs -> record_log evs
| rl_invalid pre ts :
    Forall is_print pre ->
    record_log (pre ++ [CallCalculateLatency ts None])%list
| rl_valid pre ts l post :
    Forall is_print pre -> passed_filter l -> Forall (carries l) post ->
    record_log (pre ++ CallCalculateLatency ts (Some l) :: post)%list.

(** The log of a decoder: the logs of the records it went through. *)
Definition decoder_log (evs : list Event) : Prop :=
  exists blocks, evs = concat blocks /\ Forall record_log blocks.

Definition any {A} : A -> Prop := fun _ => True.

(** The number of summaries rendered in a log. *)
Fixpoint summaries (tr : list Event) : nat :=
  match tr with
  | [] => 0
  | CallPrintSummary _ :: tr' => S (summaries tr')
  | _ :: tr' => summaries tr'
  end.

(** The sink functions store the value given: their guard lets it
    through. *)
Definition sink_stores_at (aggregator chain : string) (l : Q)
    (g : metrics.Gauges) : Prop :=
  metrics.record_latency aggregator chain l g =
    metrics.set_swap_gauges aggregator chain l g /\
  metrics.record_pool_discovery_latency aggregator chain l g =
    metrics.set_pool_gauges aggregator chain l g.

(** What holds of a latency that reaches a sink or the aggregator. *)
Definition reached_ok (e : Event) : Prop :=
  match e with
  | CallRecordLatency a c l | CallRecordPoolDiscovery a c l =>
      passed_filter l /\ in_range l /\ forall g, sink_stores_at a c l g
  | CallStatsUpdate _ _ l => passed_filter l /\ in_range l
  | CallCalculateLatency _ _ | CallPrintSummary _ | Print _ => True
  end.

(** A frame that gets past the [continue]s of the listening loop: it
    decodes to a dict with a truthy channel other than ["ack"]. *)
Definition reaches_check (m : message) : bool :=
  match m with
  | Json (VDict d) =>
      let channel := dict_get_default "channel" VNone d in
      truthy channel && negb (is_str "ack" channel)
  | _ => false
  end.

(** A frame handed to the swap decoder or to the pool decoder. *)
Definition dispatched (m : message) : bool :=
  match m with
  | Json (VDict d) =>
      let channel := dict_get_default "channel" VNone d in
      is_str "new_pair_update" channel || is_str "new_pool_info" channel
  | _ => false
  end.

Fixpoint count_dispatched (frames : list message) : nat :=
  match frames with
  | [] => 0
  | m :: frames' =>
      ((if dispatched m then 1 else 0) + count_dispatched frames')%nat
  end.

(** The frames at which the loop renders a summary, the counter being
    [message_count] before the first of them: those that reach the check
    at a position that is a multiple of 50, every frame counted. *)
Fixpoint summary_points (message_count : Z) (frames : list message) : nat :=
  match frames with
  | [] => 0
  | m :: frames' =>
      ((if reaches_check m && ((message_count + 1) mod 50 =? 0)%Z
        then 1 else 0)
       + summary_points (message_count + 1) frames')%nat
  end.

(** The frames the loop gets through from the world [w]: those before
    the first one whose handling raises. *)
Fixpoint completed (message_count : Z) (debug : bool)
    (frames : list message) (w : World) : list message :=
  match frames with
  | [] => []
  | m :: frames' =>
      match listen_step (message_count + 1) debug m w with
      | Ok _ w1 => m :: completed (message_count + 1) debug frames' w1
      | Raised _ _ => []
      end
  end.

(** The cadence as the specification words it: one summary for every 50
    frames handed to a decoder. *)
Definition cadence_as_stated (debug : bool) (frames : list message)
    (w : World) : Prop :=
  summaries (trace (listen_to_gmgn debug frames false w)) =
  (summaries (trace w) + count_dispatched frames / 50)%nat.

(** The delay slept after the [i]-th consecutive failure, counted
    from 0: 5 doubled [i] times, capped at 60. *)
Definition backoff (i : nat) : Z := Z.min (5 * 2 ^ Z.of_nat i) 60.

(** A turn in which the connection attempt fails and no shutdown is
    signalled. *)
Definition failure : turn := mkTurn Fails false false.

(** A turn in which the monitor reaches the listening loop, the
    connection goes away later, and no shutdown is signalled. *)
Definition listening (frames : list message) (closed_with_error : bool)
    : turn :=
  mkTurn (Listens frames closed_with_error) false false.

Definition no_stop (t : turn) : Prop :=
  stop_after_try t = false /\ stop_after_sleep t = false.

(** The two wire shapes of one pool: the batch item [wrapped] carries the
    list with the single entry [entry]; the batch item [bare] is the pool
    itself, with a pool address and no nested list.  They hold the same
    data when the chain fields, the entry fields and the open-time the
    entry ends up with agree. *)
Definition same_pool (wrapped entry bare : list (string * value)) : Prop :=
  dict_get "p" wrapped = Some (VList [VDict entry]) /\
  dict_get "p" bare = None /\
  dict_has "pa" bare = true /\
  dict_get "c" bare = dict_get "c" wrapped /\
  dict_get "n" bare = dict_get "n" wrapped /\
  dict_get "ex" bare = dict_get "ex" entry /\
  dict_get "pa" bare = dict_get "pa" entry /\
  dict_get "il" bare = dict_get "il" entry /\
  dict_get "bti" bare = dict_get "bti" entry /\
  dict_get_default "ot" VNone bare =
    dict_get_default "ot" (dict_get_default "ot" VNone wrapped) entry.

(** The open-time of an entry of a batch item: its own when it has the
    key, the batch item's otherwise. *)
Definition entry_open_time (pool_event entry : list (string * value))
    : value :=
  match dict_get "ot" entry with
  | Some own => own
  | None => dict_get_default "ot" VNone pool_event
  end.

(** The open-time of an entry as the specification words it: the
    entry's own when it supplies one, the batch item's when the entry has
    none, a null one included. *)
Definition open_time_as_stated (pool_event entry : list (string * value))
    : value :=
  match dict_get "ot" entry with
  | Some VNone | None => dict_get_default "ot" VNone pool_event
  | Some own => own
  end.

(** The run [r] of a pool entry from the world [w] took its latency from
    the timestamp [used]: [calculate_latency] is called on [used]; the
    sink and the aggregator receive the latency of [used] at the clock
    reading of [w], or nothing when it is invalid. *)
Definition latency_taken_from (used : value) (chain : string) (w : World)
    (r : outcome unit) : Prop :=
  match utils.calculate_latency (clock (ticks w)) used with
  | Some l =>
      exists rest,
        trace (world_of r) =
        (trace w
         ++ CallCalculateLatency used (Some l)
         :: CallRecordPoolDiscovery "gmgn" chain l
         :: CallStatsUpdate "pool" chain l :: rest)%list
  | None =>
      trace (world_of r) = (trace w ++ [CallCalculateLatency used None])%list
      /\ gauges (world_of r) = gauges w
      /\ stats_obj (world_of r) = stats_obj w
  end.

(** ** Concrete inputs *)

(** A clock that reads 1000 seconds at every call. *)
Definition clock0 : nat -> Q := fun _ => 1000.

(** [float] on the strings of the records below; [ValueError] on the
    others. *)
Definition float0 (s : string) : option pyfloat :=
  if String.eqb s "0.0042" then Some (Finite 0.0042)
  else if String.eqb s "12.5" then Some (Finite 12.5)
  else if String.eqb s "0" then Some (Finite 0)
  else if String.eqb s "inf" then Some (Infinity false)
  else if String.eqb s "nan" then Some NaN
  else None.

(** The gauges initialised, a fresh [Statistics], nothing logged. *)
Definition w0 : World :=
  mkWorld (metrics.init_metrics metrics.unset) stats.init 0 [].

(** A swap record stamped 50 ms before the clock reading. *)
Definition trade_foo : value :=
  VDict [ ("s", VStr "FOO"); ("a", VStr "0xabc123def456");
          ("p", VStr "0.0042"); ("mc", VNum 150000); ("v1h", VNum 5000);
          ("b1h", VNum 3); ("s1h", VNum 1); ("c", VStr "bsc");
          ("t", VNum 999.95) ].

(** The same record with a null chain. *)
Definition trade_null_chain : value :=
  VDict [ ("s", VStr "FOO"); ("a", VStr "0xabc123def456");
          ("p", VStr "0.0042"); ("mc", VNum 150000); ("v1h", VNum 5000);
          ("b1h", VNum 3); ("s1h", VNum 1); ("c", VNone);
          ("t", VNum 999.95) ].


(** The same record with a null address. *)
Definition trade_null_address : value :=
  VDict [ ("s", VStr "FOO"); ("a", VNone);
          ("p", VStr "0.0042"); ("mc", VNum 150000); ("v1h", VNum 5000);
          ("b1h", VNum 3); ("s1h", VNum 1); ("c", VStr "bsc");
          ("t", VNum 999.95) ].

Definition swap_frame (trades : list value) : message :=
  Json (VDict [ ("channel", VStr "new_pair_update");
                ("data", VList trades) ]).

(** 49 frames that fail to parse, then one swap frame. *)
Definition frames_49_bad_then_swap : list message :=
  (repeat BadJson 49 ++ [swap_frame [trade_foo]])%list.

(** 49 frames that fail to parse, then a swap frame whose record has a
    null chain. *)
Definition frames_49_bad_then_null_chain : list message :=
  (repeat BadJson 49 ++ [swap_frame [trade_null_chain]])%list.

(** 50 swap frames. *)
Definition frames_50_swaps : list message :=
  repeat (swap_frame [trade_foo]) 50.

(** A pool opened 2 s before the clock reading, in its two shapes. *)
Definition bar_token : value :=
  VDict [ ("s", VStr "BAR"); ("n", VStr "Bar Token"); ("p", VNum 0);
          ("mc", VNum 0); ("v1h", VNum 0); ("hc", VNum 0) ].

Definition pool_entry : list (string * value) :=
  [ ("ex", VStr "raydium"); ("pa", VStr "Addr123456789");
    ("il", VStr "12.5"); ("bti", bar_token) ].

Definition pool_wrapped : list (string * value) :=
  [ ("c", VStr "sol"); ("ot", VNum 998); ("p", VList [VDict pool_entry]) ].

Definition pool_bare : list (string * value) :=
  [ ("c", VStr "sol"); ("ot", VNum 998);
    ("ex", VStr "raydium"); ("pa", VStr "Addr123456789");
    ("il", VStr "12.5"); ("bti", bar_token) ].

(** The entry with a null open-time of its own, in a batch item opened
    2 s before the clock reading. *)
Definition pool_entry_null_ot : list (string * value) :=
  [ ("ex", VStr "raydium"); ("pa", VStr "Addr123456789");
    ("il", VStr "12.5"); ("ot", VNone); ("bti", bar_token) ].

Definition pool_wrapped_null_ot : list (string * value) :=
  [ ("c", VStr "sol"); ("ot", VNum 998);
    ("p", VList [VDict pool_entry_null_ot]) ].

(** An entry with an open-time of its own, 1 s before the clock
    reading. *)
Definition pool_entry_own : list (string * value) :=
  [ ("ex", VStr "raydium"); ("pa", VStr "Addr123456789");
    ("il", VStr "12.5"); ("ot", VNum 999); ("bti", bar_token) ].

Definition update_calls : list (string * string * Q) :=
  [ ("swap", "bnb", 50); ("pool", "solana", 2000); ("swap", "base", 150);
    ("swap", "bnb", 100) ].

(** ** Further notions: the statistics *)

(** The calls on one chain, as event type and latency, in call order. *)
Fixpoint calls_on (chain : string) (calls : list (string * string * Q))
    : list (string * Q) :=
  match calls with
  | [] => []
  | c :: calls' =>
      if String.eqb (snd (fst c)) chain
      then (fst (fst c), snd c) :: calls_on chain calls'
      else calls_on chain calls'
  end.

(** How many of the calls [cs] have the event type [event_type]. *)
Fixpoint count_type (event_type : string) (cs : list (string * Q)) : Z :=
  match cs with
  | [] => 0
  | c :: cs' =>
      ((if String.eqb (fst c) event_type then 1 else 0)
       + count_type event_type cs')%Z
  end.

(** The bucket the calls [cs] on a chain make of a fresh one. *)
Definition bucket_of (cs : list (string * Q)) : stats.ChainStats :=
  stats.mkChainStats (count_type "swap" cs) (count_type "pool" cs)
    (py_sum (map snd cs)).

(** The calls [cs] on a chain applied to its bucket [b]. *)
Definition bucket_fold (cs : list (string * Q)) (b : stats.ChainStats)
    : stats.ChainStats :=
  fold_left (fun b c => bumped (fst c) (snd c) b) cs b.

(** The extrema kept for the latencies [ls] of one event type: the
    minimum is one of them, the maximum is one of them or the initial 0,
    each latency lies between the two. *)
Definition extrema_ok (ls : list Q) (mn : stats.ext) (mx : Q) : Prop :=
  exists m,
    mn = stats.Fin m /\
    In m ls /\ (mx = 0 \/ In mx ls) /\ 0 <= mx /\
    (forall l, In l ls -> m <= l /\ l <= mx).

(** ** Further notions: the gauges *)

(** The last value set on a gauge for a label tuple; [None] when the gauge
    is not initialised or the labels never were set. *)
Definition swap_gauge (g : metrics.Gauges) (chain : string) : option Q :=
  match metrics._swap_latency g with
  | Some m => m !! chain
  | None => None
  end.

Definition pool_gauge (g : metrics.Gauges) (aggregator chain : string)
    : option Q :=
  match metrics._pool_discovery_latency g with
  | Some m => m !! (aggregator, chain)
  | None => None
  end.

Definition combined_gauge (g : metrics.Gauges) (aggregator chain : string)
    : option Q :=
  match metrics._all_aggregator_latency g with
  | Some m => m !! (aggregator, chain)
  | None => None
  end.

(** [init_metrics] has run: the three gauges exist. *)
Definition initialised (g : metrics.Gauges) : Prop :=
  is_Some (metrics._swap_latency g) /\
  is_Some (metrics._pool_discovery_latency g) /\
  is_Some (metrics._all_aggregator_latency g).

(** ** Further notions: the decoders *)

(** The chain field of a record: ['c'], else ['n'], else ["unknown"]. *)
Definition chain_raw_of (d : list (string * value)) : value :=
  dict_get_default "c" (dict_get_default "n" (VStr "unknown") d) d.


Definition entry_numbers (ti d : list (string * value))
    : exn + (pyfloat * pyfloat * Z * pyfloat) :=
  pool_numbers (dict_get_default "p" (VNum 0) ti)
    (dict_get_default "mc" (VNum 0) ti) (dict_get_default "v1h" (VNum 0) ti)
    (dict_get_default "hc" (VNum 0) ti) (dict_get_default "il" (VStr "0") d).



(** What a pool entry with the valid latency [l] logs before its
    conversions: the call of [calculate_latency], of the sink, of the
    aggregator, and the debug line. *)
Definition pool_calls (debug : bool) (receive_time : Q) (chain : string)
    (used : value) (l : Q) : list Event :=
  [ CallCalculateLatency used (Some l);
    CallRecordPoolDiscovery "gmgn" chain l;
    CallStatsUpdate "pool" chain l ]
  ++ (if debug
      then [Print (DebugRawTimestamp used receive_time (py_int l))]
      else []).

(** The record printed for the pool entry [d] with the token block [ti]
    and the pool address [a]. *)
Definition pool_line (receive_time : Q) (chain : string) (used : value)
    (l : Q) (d ti : list (string * value)) (a : string)
    (numbers : pyfloat * pyfloat * Z * pyfloat) : line :=
  let '(price_val, mc_val, holder_val, liq_val) := numbers in
  PoolLine receive_time chain
    (dict_get_default "s" (VStr "UNKNOWN") ti)
    (dict_get_default "n" (VStr "Unknown") ti)
    (dict_get_default "ex" (VStr "unknown") d)
    (if (8 <? String.length a)%nat then VStr (str_take 8 a) else VStr a)
    liq_val price_val mc_val holder_val used
    (utils.format_latency_color l).





(** A relation between the world before a computation and the world it
    leaves, on return or on exception. *)
Definition keeps {A} (R : World -> World -> Prop) (m : M A) : Prop :=
  forall w, R w (world_of (m w)).

(** The pool side of the shared state: the pool-discovery gauge and the
    pool counters of the aggregator. *)
Definition pool_side (w : World)
    : option (gmap (string * string) Q) * Z * Q * stats.ext * Q :=
  (metrics._pool_discovery_latency (gauges w),
   stats.pool_count (stats_obj w), stats.total_pool_latency (stats_obj w),
   stats.min_pool_latency (stats_obj w),
   stats.max_pool_latency (stats_obj w)).

(** The swap side: the swap gauge and the swap counters. *)
Definition swap_side (w : World)
    : option (gmap string Q) * Z * Q * stats.ext * Q :=
  (metrics._swap_latency (gauges w),
   stats.swap_count (stats_obj w), stats.total_swap_latency (stats_obj w),
   stats.min_swap_latency (stats_obj w),
   stats.max_swap_latency (stats_obj w)).

Definition same_pool_side (w w' : World) : Prop := pool_side w' = pool_side w.

Definition same_swap_side (w w' : World) : Prop := swap_side w' = swap_side w.

(** Nothing is taken back: the event counts and the clock readings do
    not decrease, the log is extended, the chains keep their bucket and
    the gauges their label tuples. *)
Definition grows (w w' : World) : Prop :=
  (stats.swap_count (stats_obj w) <= stats.swap_count (stats_obj w'))%Z /\
  (stats.pool_count (stats_obj w) <= stats.pool_count (stats_obj w'))%Z /\
  (ticks w <= ticks w')%nat /\
  (exists evs, trace w' = (trace w ++ evs)%list) /\
  (forall chain,
     is_Some (stats.by_chain (stats_obj w) !! chain) ->
     is_Some (stats.by_chain (stats_obj w') !! chain)) /\
  (forall c, is_Some (swap_gauge (gauges w) c) ->
             is_Some (swap_gauge (gauges w') c)) /\
  (forall a c, is_Some (pool_gauge (gauges w) a c) ->
               is_Some (pool_gauge (gauges w') a c)) /\
  (forall a c, is_Some (combined_gauge (gauges w) a c) ->
               is_Some (combined_gauge (gauges w') a c)).

(** ** Further notions: the loops *)

(** The delays the reconnect loop can hold. *)
Definition valid_delay (d : Z) : Prop :=
  d = 5%Z \/ d = 10%Z \/ d = 20%Z \/ d = 40%Z \/ d = 60%Z.

(** A turn at which a shutdown is seen. *)
Definition stops (t : turn) : Prop :=
  stop_after_try t = true \/ stop_after_sleep t = true.

(** ** Further notions: configuration and subscriptions *)

Fixpoint has_comma (s : string) : bool :=
  match s with
  | EmptyString => false
  | String c s' => Ascii.eqb c "," || has_comma s'
  end.

(** A subscription request for [channel] and [chain] whose identifier
    is cut from the uuid hex [h]: the fields of the request, the
    identifier being the first 16 characters of [h]. *)
Definition request_for (h channel chain : string) (r : value) : Prop :=
  exists d id,
    r = VDict d /\
    dict_get "action" d = Some (VStr "subscribe") /\
    dict_get "channel" d = Some (VStr channel) /\
    dict_get "f" d = Some (VStr "w") /\
    dict_get "id" d = Some (VStr id) /\
    dict_get "data" d = Some (VList [VDict [("chain", VStr chain)]]) /\
    dict_get "access_token" d = Some VNone /\
    dict_get "retry" d = Some VNone /\
    String.prefix id h = true /\
    String.length id = Nat.min 16 (String.length h).

(** A chain code as the configuration keeps it: not empty, no white
    space around it, no comma in it. *)
Definition clean_chain (c : string) : Prop :=
  c <> "" /\ config.strip c = c /\ has_comma c = false.

(** [','.join(parts)] *)
Definition join_comma (parts : list string) : string :=
  String.concat "," parts.

(** * Properties *)

(** ** Comparisons on [Q] *)

Lemma Qltb_true (x y : Q) : Qltb x y = true <-> x < y.
Proof using.
  unfold Qltb. rewrite negb_true_iff. split.
  - intros H. apply Qnot_le_lt. intros Hle.
    apply Qle_bool_iff in Hle. congruence.
  - intros H. destruct (Qle_bool y x) eqn:E; [|reflexivity].
    apply Qle_bool_iff in E. exfalso. exact (Qlt_not_le _ _ H E).
Qed.

Lemma Qltb_false (x y : Q) : Qltb x y = false <-> y <= x.
Proof using.
  unfold Qltb. rewrite negb_false_iff. apply Qle_bool_iff.
Qed.

Lemma filter_guard_false (l : Q) :
  Qltb l 0 || Qltb 120000 l = false <-> in_range l.
Proof using.
  unfold in_range. rewrite orb_false_iff, !Qltb_false. tauto.
Qed.

Lemma filter_guard_true (l : Q) :
  Qltb l 0 || Qltb 120000 l = true <-> l < 0 \/ 120000 < l.
Proof using.
  rewrite orb_true_iff, !Qltb_true. tauto.
Qed.

(** ** The latency calculator *)

Lemma calculate_latency_num (now origin : Q) :
  utils.calculate_latency now (VNum origin) =
  if Qeq_bool origin 0 then None
  else if Qltb ((now - origin) * 1000) 0
          || Qltb 120000 ((now - origin) * 1000)
       then None
       else Some ((now - origin) * 1000).
Proof using.
  unfold utils.calculate_latency. simpl.
  destruct (Qeq_bool origin 0); reflexivity.
Qed.

(** C1: [calculate_latency] returns [(now - origin) * 1000] when the
    origin is a non-zero number and that value lies in [0, 120000];
    it returns [None] when the value is negative or above 120000, and
    whenever the origin is zero, null, or absent from the record. *)
Theorem C1_calculate_latency (now origin : Q) :
  let latency_ms := (now - origin) * 1000 in
  (~ origin == 0 -> 0 <= latency_ms /\ latency_ms <= 120000 ->
     utils.calculate_latency now (VNum origin) = Some latency_ms) /\
  (latency_ms < 0 \/ 120000 < latency_ms ->
     utils.calculate_latency now (VNum origin) = None) /\
  (origin == 0 -> utils.calculate_latency now (VNum origin) = None) /\
  utils.calculate_latency now VNone = None /\
  (forall d, dict_get "t" d = None ->
     utils.calculate_latency now (dict_get_default "t" VNone d) = None).
Proof using.
  intros latency_ms. rewrite calculate_latency_num. fold latency_ms.
  repeat split.
  - intros Hnz Hr. destruct (Qeq_bool origin 0) eqn:E.
    + apply Qeq_bool_iff in E. contradiction.
    + apply filter_guard_false in Hr. rewrite Hr. reflexivity.
  - intros Hout. apply filter_guard_true in Hout. rewrite Hout.
    destruct (Qeq_bool origin 0); reflexivity.
  - intros Hz. apply Qeq_bool_iff in Hz. rewrite Hz. reflexivity.
  - intros d Hd. unfold dict_get_default. rewrite Hd. reflexivity.
Qed.

Lemma calculate_latency_in_range (now : Q) (ts : value) (l : Q) :
  utils.calculate_latency now ts = Some l -> in_range l.
Proof using.
  unfold utils.calculate_latency.
  destruct (negb (truthy ts)); [discriminate|].
  destruct (utils.seconds_since now ts) as [d|]; [|discriminate].
  destruct (Qltb (d * 1000) 0 || Qltb 120000 (d * 1000)) eqn:E;
    [discriminate|].
  intros [= <-]. apply filter_guard_false. exact E.
Qed.

(** ** The chain normalizer *)

Lemma lower_ascii_idempotent (c : ascii) :
  utils.lower_ascii (utils.lower_ascii c) = utils.lower_ascii c.
Proof using.
  destruct c as [[] [] [] [] [] [] [] []]; reflexivity.
Qed.

Lemma lower_idempotent (s : string) :
  utils.lower (utils.lower s) = utils.lower s.
Proof using.
  induction s as [|c s IH]; simpl.
  - reflexivity.
  - rewrite lower_ascii_idempotent, IH. reflexivity.
Qed.

(** A string that [lower] changes is not a value of [lower]. *)
Lemma lower_image (x s : string) :
  utils.lower s <> s -> utils.lower x <> s.
Proof using.
  intros Hs Hx. apply Hs. rewrite <- Hx. apply lower_idempotent.
Qed.

Lemma chain_map_keys (x name : string) :
  utils.chain_map_get x utils.CHAIN_MAP = Some name ->
  x = "sol" \/ x = "bsc" \/ x = "base" \/ x = "eth" \/
  x = "Solana" \/ x = "BNB Chain" \/ x = "Base" \/ x = "Ethereum".
Proof using.
  unfold utils.CHAIN_MAP. simpl.
  repeat match goal with
  | |- context [String.eqb x ?k] =>
      destruct (String.eqb_spec x k) as [->|_];
        [clear clock float_of_str; tauto|]
  end.
  discriminate.
Qed.

Lemma normalize_key_idempotent (x name : string) :
  utils.chain_map_get x utils.CHAIN_MAP = Some name ->
  normalize_idempotent_at x.
Proof using.
  intros H. apply chain_map_keys in H. unfold normalize_idempotent_at.
  destruct H as [->|[->|[->|[->|[->|[->|[->| ->]]]]]]]; reflexivity.
Qed.

Lemma normalize_lower_idempotent (x : string) :
  utils.chain_map_get x utils.CHAIN_MAP = None ->
  utils.lower x <> "sol" -> utils.lower x <> "bsc" ->
  utils.lower x <> "eth" ->
  normalize_idempotent_at x.
Proof using.
  intros Hx Hsol Hbsc Heth. unfold normalize_idempotent_at.
  unfold utils.normalize at 2 3. rewrite Hx.
  unfold utils.normalize.
  destruct (utils.chain_map_get (utils.lower x) utils.CHAIN_MAP)
    as [name|] eqn:E.
  - pose proof (chain_map_keys _ _ E) as K.
    destruct K as [K|[K|[K|[K|[K|[K|[K|K]]]]]]];
      try contradiction;
      try (exfalso; revert K; apply lower_image; discriminate).
    rewrite K in E |- *. simpl in E. congruence.
  - apply lower_idempotent.
Qed.

(** C9, as the code has it: [get_chain_name] is total on strings; it
    returns the table's name for a key of the table and the lower-cased
    input otherwise; and normalizing twice is normalizing once for every
    input that is a key of the table or whose lower-cased form is none of
    the short codes [sol], [bsc], [eth]. *)
Theorem C9_normalize_total_idempotent (x : string) :
  utils.get_chain_name (VStr x) = inr (utils.normalize x) /\
  (forall name, utils.chain_map_get x utils.CHAIN_MAP = Some name ->
     utils.normalize x = name) /\
  (utils.chain_map_get x utils.CHAIN_MAP = None ->
     utils.normalize x = utils.lower x) /\
  (is_Some (utils.chain_map_get x utils.CHAIN_MAP) \/
   (utils.lower x <> "sol" /\ utils.lower x <> "bsc" /\
    utils.lower x <> "eth") ->
   normalize_idempotent_at x).
Proof using.
  split; [reflexivity|]. split; [|split].
  - intros name H. unfold utils.normalize. rewrite H. reflexivity.
  - intros H. unfold utils.normalize. rewrite H. reflexivity.
  - intros [[name H]|(Hsol & Hbsc & Heth)].
    + exact (normalize_key_idempotent _ _ H).
    + destruct (utils.chain_map_get x utils.CHAIN_MAP) as [name|] eqn:E.
      * exact (normalize_key_idempotent _ _ E).
      * exact (normalize_lower_idempotent _ E Hsol Hbsc Heth).
Qed.

(** ** The statistics aggregator *)

Lemma string_length_app (s t : string) :
  String.length (s ++ t) = (String.length s + String.length t)%nat.
Proof using.
  induction s as [|c s IH]; simpl; [reflexivity|]. rewrite IH. reflexivity.
Qed.

Lemma string_app_inv_tail (s1 s2 t : string) :
  s1 ++ t = s2 ++ t -> s1 = s2.
Proof using.
  revert s2. induction s1 as [|c s1 IH]; intros [|c' s2] H; simpl in H.
  - reflexivity.
  - apply (f_equal String.length) in H.
    rewrite !string_length_app in H. simpl in H. lia.
  - apply (f_equal String.length) in H. simpl in H.
    rewrite !string_length_app in H. simpl in H. lia.
  - injection H as -> H. f_equal. apply IH. exact H.
Qed.

Lemma count_key_eqb (x y : string) :
  String.eqb (x ++ "_count") (y ++ "_count") = String.eqb x y.
Proof using.
  destruct (String.eqb_spec x y) as [->|Hne].
  - apply String.eqb_refl.
  - apply String.eqb_neq. intros H. apply Hne.
    exact (string_app_inv_tail _ _ _ H).
Qed.

Lemma count_key_not_total (x : string) :
  String.eqb (x ++ "_count") "total_latency" = false.
Proof using.
  apply String.eqb_neq. intros H.
  pose proof (f_equal String.length H) as L.
  rewrite string_length_app in L. simpl in L.
  do 8 (destruct x as [|? x]; simpl in L; try lia).
  discriminate H.
Qed.

(** The key [f'{event_type}_count'] exists for the two event types only. *)
Lemma bucket_incr_count_key (event_type : string) (b : stats.ChainStats) :
  stats.bucket_incr (event_type ++ "_count") b =
  if String.eqb event_type "swap" then
    Some (stats.mkChainStats (stats.cs_swap_count b + 1)
            (stats.cs_pool_count b) (stats.cs_total_latency b))
  else if String.eqb event_type "pool" then
    Some (stats.mkChainStats (stats.cs_swap_count b)
            (stats.cs_pool_count b + 1) (stats.cs_total_latency b))
  else None.
Proof using.
  unfold stats.bucket_incr.
  change "swap_count" with ("swap" ++ "_count").
  change "pool_count" with ("pool" ++ "_count").
  rewrite !count_key_eqb, count_key_not_total. reflexivity.
Qed.

Lemma ensure_bucket_lookup (chain : string) (s : stats.Statistics) :
  stats.by_chain (stats.ensure_bucket chain s) !! chain =
  Some (default stats.new_bucket (stats.by_chain s !! chain)).
Proof using.
  unfold stats.ensure_bucket.
  destruct (stats.by_chain s !! chain) as [b|] eqn:E; simpl.
  - exact E.
  - apply lookup_insert_eq.
Qed.

Lemma update_globals_by_chain (event_type : string) (l : Q)
    (s : stats.Statistics) :
  stats.by_chain (stats.update_globals event_type l s) = stats.by_chain s.
Proof using.
  unfold stats.update_globals.
  destruct (String.eqb event_type "swap"); [reflexivity|].
  destruct (String.eqb event_type "pool"); reflexivity.
Qed.

Lemma set_by_chain_ensure (m : gmap string stats.ChainStats)
    (chain : string) (s : stats.Statistics) :
  stats.set_by_chain m (stats.ensure_bucket chain s) = stats.set_by_chain m s.
Proof using.
  unfold stats.ensure_bucket.
  destruct (stats.by_chain s !! chain); reflexivity.
Qed.

Lemma insert_ensure_bucket (chain : string) (b : stats.ChainStats)
    (s : stats.Statistics) :
  <[chain := b]> (stats.by_chain (stats.ensure_bucket chain s)) =
  <[chain := b]> (stats.by_chain s).
Proof using.
  unfold stats.ensure_bucket.
  destruct (stats.by_chain s !! chain); simpl; [reflexivity|].
  apply insert_insert_eq.
Qed.

(** [update] on one of the two event types returns normally. *)
Lemma update_known (event_type chain : string) (l : Q)
    (s : stats.Statistics) :
  event_type = "swap" \/ event_type = "pool" ->
  stats.update event_type chain l s =
  (None,
   stats.set_by_chain
     (<[chain := bumped event_type l
                   (default stats.new_bucket (stats.by_chain s !! chain))]>
        (stats.by_chain s))
     (stats.update_globals event_type l s)).
Proof using.
  intros Hty. unfold stats.update.
  rewrite ensure_bucket_lookup, bucket_incr_count_key.
  rewrite update_globals_by_chain.
  destruct Hty as [-> | ->]; simpl;
    rewrite set_by_chain_ensure, insert_ensure_bucket,
      update_globals_by_chain; reflexivity.
Qed.

(** [update] on any other event type raises [KeyError] below the
    creation of the bucket. *)
Lemma update_unknown (event_type chain : string) (l : Q)
    (s : stats.Statistics) :
  event_type <> "swap" -> event_type <> "pool" ->
  stats.update event_type chain l s =
  (Some KeyError, stats.ensure_bucket chain s).
Proof using.
  intros Hs Hp. unfold stats.update.
  rewrite ensure_bucket_lookup, bucket_incr_count_key.
  unfold stats.update_globals.
  apply String.eqb_neq in Hs. apply String.eqb_neq in Hp.
  rewrite Hs, Hp. reflexivity.
Qed.

(** C10: [update] changes the global swap counters only for the event
    type ["swap"] and the global pool counters only for ["pool"]; for any
    other event type it raises [KeyError] with the global counters as they
    were and the bucket of an unseen chain created; for the two event
    types it returns normally. *)
Theorem C10_update_frame (event_type chain : string) (l : Q)
    (s : stats.Statistics) :
  let r := stats.update event_type chain l s in
  (event_type <> "swap" ->
     stats.swap_count (snd r) = stats.swap_count s /\
     stats.total_swap_latency (snd r) = stats.total_swap_latency s /\
     stats.min_swap_latency (snd r) = stats.min_swap_latency s /\
     stats.max_swap_latency (snd r) = stats.max_swap_latency s) /\
  (event_type <> "pool" ->
     stats.pool_count (snd r) = stats.pool_count s /\
     stats.total_pool_latency (snd r) = stats.total_pool_latency s /\
     stats.min_pool_latency (snd r) = stats.min_pool_latency s /\
     stats.max_pool_latency (snd r) = stats.max_pool_latency s) /\
  (event_type = "swap" ->
     fst r = None /\
     stats.swap_count (snd r) = (stats.swap_count s + 1)%Z /\
     stats.total_swap_latency (snd r) = stats.total_swap_latency s + l /\
     stats.min_swap_latency (snd r) =
       stats.py_min (stats.min_swap_latency s) l /\
     stats.max_swap_latency (snd r) =
       stats.py_max (stats.max_swap_latency s) l) /\
  (event_type = "pool" ->
     fst r = None /\
     stats.pool_count (snd r) = (stats.pool_count s + 1)%Z /\
     stats.total_pool_latency (snd r) = stats.total_pool_latency s + l /\
     stats.min_pool_latency (snd r) =
       stats.py_min (stats.min_pool_latency s) l /\
     stats.max_pool_latency (snd r) =
       stats.py_max (stats.max_pool_latency s) l) /\
  (event_type <> "swap" -> event_type <> "pool" ->
     fst r = Some KeyError /\
     stats.by_chain (snd r) !! chain =
       Some (default stats.new_bucket (stats.by_chain s !! chain)) /\
     (forall other, other <> chain ->
        stats.by_chain (snd r) !! other = stats.by_chain s !! other)).
Proof using.
  clear clock float_of_str. intros r. subst r.
  destruct (String.eqb_spec event_type "swap") as [->|Hs];
    [|destruct (String.eqb_spec event_type "pool") as [->|Hp]].
  - rewrite update_known by tauto. simpl.
    repeat split; try congruence; intros; congruence.
  - rewrite update_known by tauto. simpl.
    repeat split; try congruence; intros; congruence.
  - rewrite update_unknown by assumption. simpl.
    unfold stats.ensure_bucket.
    destruct (stats.by_chain s !! chain) as [b|] eqn:E; simpl;
      repeat split; try congruence; intros; try congruence.
    + apply lookup_insert_eq.
    + apply lookup_insert_ne. congruence.
Qed.

Lemma chains_events_insert (m : gmap string stats.ChainStats)
    (chain : string) (b : stats.ChainStats) :
  map_fold (fun _ b acc => (acc + stats.chain_total b)%Z) 0%Z
    (<[chain := b]> m) =
  (map_fold (fun _ b acc => (acc + stats.chain_total b)%Z) 0%Z m
   - stats.chain_total (default stats.new_bucket (m !! chain))
   + stats.chain_total b)%Z.
Proof using.
  destruct (m !! chain) as [b0|] eqn:E; simpl.
  - rewrite <- insert_delete_eq.
    rewrite map_fold_insert_L; [|intros; lia|apply lookup_delete_eq].
    rewrite (map_fold_delete_L _ _ chain b0 m); [|intros; lia|exact E].
    generalize (stats.chain_total b) (stats.chain_total b0).
    match goal with |- context [map_fold ?f ?z ?d] =>
      generalize (map_fold f z d) end.
    intros; lia.
  - rewrite map_fold_insert_L; [|intros; lia|exact E].
    change (stats.chain_total stats.new_bucket) with 0%Z.
    generalize (stats.chain_total b).
    match goal with |- context [map_fold ?f ?z ?d] =>
      generalize (map_fold f z d) end.
    intros; lia.
Qed.

Lemma counts_reconstruct_init : counts_reconstruct stats.init.
Proof using. reflexivity. Qed.

Lemma counts_reconstruct_update (event_type chain : string) (l : Q)
    (s : stats.Statistics) :
  counts_reconstruct s ->
  counts_reconstruct (snd (stats.update event_type chain l s)).
Proof using.
  unfold counts_reconstruct, stats.chains_events. intros H.
  destruct (String.eqb_spec event_type "swap") as [->|Hs];
    [|destruct (String.eqb_spec event_type "pool") as [->|Hp]].
  - rewrite update_known by (left; reflexivity). simpl.
    rewrite chains_events_insert, H. unfold stats.chain_total. simpl. lia.
  - rewrite update_known by (right; reflexivity). simpl.
    rewrite chains_events_insert, H. unfold stats.chain_total. simpl. lia.
  - rewrite update_unknown by assumption. unfold stats.ensure_bucket.
    destruct (stats.by_chain s !! chain) as [b|] eqn:E; [exact H|].
    simpl. rewrite chains_events_insert, E, H. simpl.
    unfold stats.chain_total. simpl. lia.
Qed.

Lemma updates_counts_reconstruct (calls : list (string * string * Q))
    (s : stats.Statistics) :
  counts_reconstruct s -> counts_reconstruct (updates calls s).
Proof using.
  revert s. induction calls as [|[[ty chain] l] calls IH]; intros s Hs;
    simpl.
  - exact Hs.
  - apply IH. apply counts_reconstruct_update. exact Hs.
Qed.

(** The global counters and sums after a sequence of calls. *)
Lemma updates_globals (calls : list (string * string * Q))
    (s : stats.Statistics) :
  Forall known_type calls ->
  let s' := updates calls s in
  stats.swap_count s' =
    (stats.swap_count s + Z.of_nat (length (latencies_of "swap" calls)))%Z /\
  stats.pool_count s' =
    (stats.pool_count s + Z.of_nat (length (latencies_of "pool" calls)))%Z /\
  stats.total_swap_latency s' =
    fold_left Qplus (latencies_of "swap" calls) (stats.total_swap_latency s)
  /\
  stats.total_pool_latency s' =
    fold_left Qplus (latencies_of "pool" calls) (stats.total_pool_latency s).
Proof using.
  intros Hk. revert s.
  induction Hk as [|[[ty chain] l] calls Hty _ IH]; intros s; simpl.
  - repeat split; lia.
  - specialize (IH (snd (stats.update ty chain l s))).
    unfold known_type in Hty. simpl in Hty.
    rewrite update_known in IH by exact Hty. simpl in IH.
    rewrite update_known by exact Hty. simpl.
    destruct IH as (I1 & I2 & I3 & I4).
    destruct Hty as [-> | ->]; simpl in *;
      rewrite I1, I2, I3, I4; repeat split; lia.
Qed.

(** ** What the decoders add to the log *)

Section Appends.

Context (ok : Event -> Prop).

Lemma appends_ret {A} (post : A -> Prop) (a : A) :
  post a -> appends ok post (ret a).
Proof.
  intros Ha w. split.
  - exists []. split; [symmetry; apply app_nil_r|constructor].
  - intros a' w' [= <- _]. exact Ha.
Qed.

Lemma appends_raise {A} (post : A -> Prop) (e : exn) :
  appends ok post (raise e).
Proof.
  intros w. split.
  - exists []. split; [symmetry; apply app_nil_r|constructor].
  - intros a' w' [=].
Qed.

Lemma appends_bind {A B} (mid : A -> Prop) (post : B -> Prop)
    (m : M A) (k : A -> M B) :
  appends ok mid m -> (forall a, mid a -> appends ok post (k a)) ->
  appends ok post (bind m k).
Proof.
  intros Hm Hk w. unfold bind.
  destruct (Hm w) as [(evs & Ht & Hevs) Hpost].
  destruct (m w) as [a w1|e w1] eqn:E; simpl in Ht.
  - destruct (Hk a (Hpost a w1 eq_refl) w1) as [(evs' & Ht' & Hevs') Hp'].
    split; [|exact Hp'].
    exists (evs ++ evs')%list. split.
    + rewrite Ht', Ht. symmetry. apply app_assoc.
    + apply Forall_app. split; assumption.
  - split; [|intros a w' [=]]. exists evs. split; assumption.
Qed.

Lemma appends_emit (e : Event) : ok e -> appends ok any (emit e).
Proof.
  intros He w. split.
  - exists [e]. split; [reflexivity|]. constructor; [exact He|constructor].
  - intros; exact I.
Qed.

Lemma appends_print (l : line) : ok (Print l) -> appends ok any (print l).
Proof. apply appends_emit. Qed.

Lemma appends_lift {A} (r : exn + A) : appends ok any (lift r).
Proof.
  destruct r; [apply appends_raise|apply appends_ret; exact I].
Qed.

Lemma appends_when (b : bool) (m : M unit) :
  appends ok any m -> appends ok any (when b m).
Proof.
  intros Hm. destruct b; [exact Hm|apply appends_ret; exact I].
Qed.

Lemma appends_for_each {A} (body : A -> M unit) (xs : list A) :
  (forall x, appends ok any (body x)) -> appends ok any (for_each body xs).
Proof.
  intros Hb. induction xs as [|x xs IH]; simpl.
  - apply appends_ret. exact I.
  - eapply appends_bind; [apply Hb|]. intros _ _. exact IH.
Qed.

Lemma appends_record_latency (a c : string) (l : Q) :
  ok (CallRecordLatency a c l) -> appends ok any (record_latency a c l).
Proof.
  intros Hl w. split; [|intros; exact I].
  exists [CallRecordLatency a c l]. split; [reflexivity|].
  constructor; [exact Hl|constructor].
Qed.

Lemma appends_record_pool (a c : string) (l : Q) :
  ok (CallRecordPoolDiscovery a c l) ->
  appends ok any (record_pool_discovery_latency a c l).
Proof.
  intros Hl w. split; [|intros; exact I].
  exists [CallRecordPoolDiscovery a c l]. split; [reflexivity|].
  constructor; [exact Hl|constructor].
Qed.

Lemma appends_stats_update (t c : string) (l : Q) :
  ok (CallStatsUpdate t c l) -> appends ok any (stats_update t c l).
Proof.
  intros Hl w. split; [|intros; exact I].
  exists [CallStatsUpdate t c l]. split.
  - unfold stats_update.
    destruct (stats.update t c l (stats_obj w)) as [[e|] s]; reflexivity.
  - constructor; [exact Hl|constructor].
Qed.

Lemma appends_py_get (k : string) (dflt v : value) :
  appends ok any (py_get k dflt v).
Proof.
  destruct v; try apply appends_raise. apply appends_ret. exact I.
Qed.

Lemma appends_startswith (p : string) (a : value) :
  appends ok any (startswith p a).
Proof.
  destruct a; try apply appends_raise. apply appends_ret. exact I.
Qed.

Lemma appends_short8 (a : value) : appends ok any (short8 a).
Proof.
  destruct a; simpl; try apply appends_raise;
    try (apply appends_ret; exact I).
  destruct (8 <? length d)%nat; [apply appends_raise|].
  apply appends_ret. exact I.
Qed.

Lemma appends_iter (v : value) : appends ok any (iter v).
Proof.
  destruct v; try apply appends_raise; apply appends_ret; exact I.
Qed.

End Appends.

(** One call of [calculate_latency]: it returns what the pure function
    gives at the clock reading of the world, and logs the call. *)
Lemma calculate_latency_run (ts : value) (w : World) :
  exists n,
    calculate_latency ts w =
    Ok (utils.calculate_latency (clock (ticks w)) ts)
       (mkWorld (gauges w) (stats_obj w) n
          (trace w
           ++ [CallCalculateLatency ts
                 (utils.calculate_latency (clock (ticks w)) ts)])).
Proof.
  unfold calculate_latency, utils.calculate_latency.
  destruct (truthy ts); simpl.
  - exists (S (ticks w)). reflexivity.
  - exists (ticks w). reflexivity.
Qed.

Lemma appends_calculate_latency (ok : Event -> Prop) (ts : value) :
  (forall o, ok (CallCalculateLatency ts o)) ->
  appends ok (fun o => forall l, o = Some l -> passed_filter l)
    (calculate_latency ts).
Proof.
  intros Hok w. destruct (calculate_latency_run ts w) as (n & ->).
  split.
  - eexists. split; [reflexivity|]. constructor; [apply Hok|constructor].
  - intros o w' [= <- _] l Hl. exists (clock (ticks w)), ts. exact Hl.
Qed.

Ltac appends_side :=
  solve [ exact I | reflexivity | constructor; eauto | simpl; eauto ].

Ltac appends_step :=
  first
    [ apply appends_raise
    | apply appends_print; appends_side
    | apply appends_lift
    | apply appends_py_get
    | apply appends_startswith
    | apply appends_short8
    | apply appends_iter
    | apply appends_calculate_latency; intros; appends_side
    | apply appends_record_latency; appends_side
    | apply appends_record_pool; appends_side
    | apply appends_stats_update; appends_side
    | apply appends_ret; exact I
    | apply appends_when
    | eapply appends_bind; [|intros ? ?]
    | match goal with
      | |- appends _ _ (if ?b then _ else _) => destruct b
      | |- appends _ _ (match ?o with Some _ => _ | None => _ end) =>
          destruct o
      | |- appends _ _ (match ?p with (_, _) => _ end) => destruct p
      end ].

Lemma swap_step_appends (receive_time : Q) (debug : bool) (trade : value) :
  appends from_handler any (swap_step receive_time debug trade).
Proof.
  destruct trade; try apply appends_raise.
  unfold swap_step. repeat appends_step.
Qed.

Lemma handle_swap_trade_appends (data : value) (receive_time : Q)
    (debug : bool) :
  appends from_handler any (handle_swap_trade data receive_time debug).
Proof.
  unfold handle_swap_trade. destruct (negb (truthy data)).
  - apply appends_ret. exact I.
  - eapply appends_bind; [apply appends_iter|]. intros trades _.
    apply appends_for_each. intros trade. apply swap_step_appends.
Qed.

Lemma pool_step_appends (receive_time : Q) (debug : bool) (chain : string)
    (open_time pool : value) :
  appends from_handler any
    (pool_step receive_time debug chain open_time pool).
Proof.
  destruct pool; try apply appends_raise.
  unfold pool_step. repeat appends_step.
Qed.

Lemma pool_event_step_appends (receive_time : Q) (debug : bool)
    (pool_event : value) :
  appends from_handler any (pool_event_step receive_time debug pool_event).
Proof.
  destruct pool_event; try apply appends_raise.
  unfold pool_event_step.
  eapply appends_bind; [apply appends_lift|]. intros chain _.
  eapply appends_bind; [apply appends_iter|]. intros entries _.
  apply appends_for_each. intros pool. apply pool_step_appends.
Qed.

Lemma handle_new_pool_appends (data : value) (receive_time : Q)
    (debug : bool) :
  appends from_handler any (handle_new_pool data receive_time debug).
Proof.
  unfold handle_new_pool. destruct (negb (truthy data)).
  - apply appends_ret. exact I.
  - eapply appends_bind; [apply appends_iter|]. intros events _.
    apply appends_for_each. intros ev. apply pool_event_step_appends.
Qed.

(** ** The log of one record, and of a batch *)

Lemma logs_raise {A} (shape : list Event -> Prop) (e : exn) :
  shape [] -> logs shape (@raise A e).
Proof.
  intros H w. exists []. split; [symmetry; apply app_nil_r|exact H].
Qed.

Lemma logs_ret {A} (shape : list Event -> Prop) (a : A) :
  shape [] -> logs shape (ret a).
Proof.
  intros H w. exists []. split; [symmetry; apply app_nil_r|exact H].
Qed.

(** A prefix that appends [ok] events, before a continuation whose log
    has the shape [shape]. *)
Lemma logs_bind {A B} (ok : Event -> Prop) (shape : list Event -> Prop)
    (mid : A -> Prop) (m : M A) (k : A -> M B) :
  (forall pre, Forall ok pre -> shape pre) ->
  (forall pre evs, Forall ok pre -> shape evs -> shape (pre ++ evs)%list) ->
  appends ok mid m -> (forall a, mid a -> logs shape (k a)) ->
  logs shape (bind m k).
Proof.
  intros Hstop Hpre Hm Hk w. unfold bind.
  destruct (Hm w) as [(pre & Ht & Hok) Hpost].
  destruct (m w) as [a w1|e w1]; simpl in Ht.
  - destruct (Hk a (Hpost a w1 eq_refl) w1) as (evs & Ht' & Hs).
    exists (pre ++ evs)%list. split.
    + rewrite Ht', Ht. symmetry. apply app_assoc.
    + apply Hpre; assumption.
  - exists pre. split; [exact Ht|]. apply Hstop. exact Hok.
Qed.

Lemma record_log_prepend (pre evs : list Event) :
  Forall is_print pre -> record_log evs -> record_log (pre ++ evs)%list.
Proof.
  intros Hp [evs' He|pre' ts Hp'|pre' ts l post Hp' Hl Hpost].
  - apply rl_stopped. apply Forall_app. split; assumption.
  - rewrite app_assoc. apply rl_invalid. apply Forall_app. split; assumption.
  - rewrite app_assoc. apply rl_valid; [|assumption|assumption].
    apply Forall_app. split; assumption.
Qed.

(** Lines, then the rest of the record. *)
Lemma logs_record_bind {A B} (mid : A -> Prop) (m : M A) (k : A -> M B) :
  appends is_print mid m -> (forall a, mid a -> logs record_log (k a)) ->
  logs record_log (bind m k).
Proof.
  apply logs_bind.
  - intros pre Hp. apply rl_stopped. exact Hp.
  - apply record_log_prepend.
Qed.

(** The call of [calculate_latency] and what follows it. *)
Lemma logs_record_latency (ts : value) (rest : Q -> M unit) :
  (forall l, passed_filter l -> appends (carries l) any (rest l)) ->
  logs record_log
    (bind (calculate_latency ts)
       (fun latency =>
          match latency with
          | None => ret tt
          | Some latency => rest latency
          end)).
Proof.
  intros Hrest w. unfold bind.
  destruct (calculate_latency_run ts w) as (n & ->).
  destruct (utils.calculate_latency (clock (ticks w)) ts) as [l|] eqn:E.
  - assert (Hl : passed_filter l) by (exists (clock (ticks w)), ts; exact E).
    match goal with
    | |- context [rest l ?w1] =>
        destruct (Hrest l Hl w1) as [(post & Ht & Hpost) _]
    end.
    exists ([CallCalculateLatency ts (Some l)] ++ post)%list. split.
    + rewrite Ht. simpl. rewrite <- app_assoc. reflexivity.
    + apply (rl_valid [] ts l post); [constructor|exact Hl|exact Hpost].
  - exists [CallCalculateLatency ts None]. split; [reflexivity|].
    apply (rl_invalid [] ts). constructor.
Qed.

Lemma swap_step_record_log (receive_time : Q) (debug : bool)
    (trade : value) :
  logs record_log (swap_step receive_time debug trade).
Proof.
  destruct trade;
    try (apply logs_raise; apply rl_stopped; constructor).
  unfold swap_step.
  eapply logs_record_bind; [repeat appends_step|]. intros _ _.
  eapply logs_record_bind; [apply appends_lift|]. intros chain _.
  apply logs_record_latency. intros l Hl. repeat appends_step.
Qed.

Lemma pool_step_record_log (receive_time : Q) (debug : bool)
    (chain : string) (open_time pool : value) :
  logs record_log (pool_step receive_time debug chain open_time pool).
Proof.
  destruct pool;
    try (apply logs_raise; apply rl_stopped; constructor).
  unfold pool_step.
  do 6 (eapply logs_record_bind; [apply appends_py_get|]; intros ? _).
  apply logs_record_latency. intros l Hl. repeat appends_step.
Qed.

Lemma decoder_log_nil : decoder_log [].
Proof. exists []. split; [reflexivity|constructor]. Qed.

Lemma decoder_log_app (evs1 evs2 : list Event) :
  decoder_log evs1 -> decoder_log evs2 -> decoder_log (evs1 ++ evs2)%list.
Proof.
  intros (b1 & -> & H1) (b2 & -> & H2). exists (b1 ++ b2)%list. split.
  - symmetry. apply concat_app.
  - apply Forall_app. split; assumption.
Qed.

Lemma decoder_log_record (evs : list Event) :
  record_log evs -> decoder_log evs.
Proof.
  intros H. exists [evs]. split.
  - simpl. symmetry. apply app_nil_r.
  - constructor; [exact H|constructor].
Qed.

Lemma logs_for_each {A} (body : A -> M unit) (xs : list A) :
  (forall x, logs decoder_log (body x)) ->
  logs decoder_log (for_each body xs).
Proof.
  intros Hb. induction xs as [|x xs IH]; simpl.
  - apply logs_ret. apply decoder_log_nil.
  - intros w. unfold bind. destruct (Hb x w) as (evs & Ht & Hs).
    destruct (body x w) as [[] w1|e w1]; simpl in Ht.
    + destruct (IH w1) as (evs' & Ht' & Hs').
      exists (evs ++ evs')%list. split.
      * rewrite Ht', Ht. symmetry. apply app_assoc.
      * apply decoder_log_app; assumption.
    + exists evs. split; assumption.
Qed.

(** A prefix that logs nothing, before a continuation. *)
Lemma logs_silent_bind {A B} (shape : list Event -> Prop) (m : M A)
    (k : A -> M B) :
  shape [] ->
  appends (fun _ => False) any m -> (forall a, logs shape (k a)) ->
  logs shape (bind m k).
Proof.
  intros Hnil Hm Hk.
  apply (logs_bind (fun _ => False) shape any).
  - intros [|e pre] H; [exact Hnil|]. inversion H as [|? ? []].
  - intros [|e pre] evs H Hs; [exact Hs|]. inversion H as [|? ? []].
  - exact Hm.
  - intros a _. apply Hk.
Qed.

Lemma handle_swap_trade_log (data : value) (receive_time : Q)
    (debug : bool) :
  logs decoder_log (handle_swap_trade data receive_time debug).
Proof.
  unfold handle_swap_trade. destruct (negb (truthy data)).
  - apply logs_ret. apply decoder_log_nil.
  - apply logs_silent_bind;
      [apply decoder_log_nil|apply appends_iter|].
    intros trades. apply logs_for_each. intros trade w.
    destruct (swap_step_record_log receive_time debug trade w)
      as (evs & Ht & Hs).
    exists evs. split; [exact Ht|]. apply decoder_log_record. exact Hs.
Qed.

Lemma pool_event_step_log (receive_time : Q) (debug : bool)
    (pool_event : value) :
  logs decoder_log (pool_event_step receive_time debug pool_event).
Proof.
  destruct pool_event;
    try (apply logs_raise; apply decoder_log_nil).
  unfold pool_event_step.
  apply logs_silent_bind; [apply decoder_log_nil|apply appends_lift|].
  intros chain.
  apply logs_silent_bind; [apply decoder_log_nil|apply appends_iter|].
  intros entries. apply logs_for_each. intros pool w.
  destruct (pool_step_record_log receive_time debug chain
              (dict_get_default "ot" VNone d) pool w) as (evs & Ht & Hs).
  exists evs. split; [exact Ht|]. apply decoder_log_record. exact Hs.
Qed.

Lemma handle_new_pool_log (data : value) (receive_time : Q)
    (debug : bool) :
  logs decoder_log (handle_new_pool data receive_time debug).
Proof.
  unfold handle_new_pool. destruct (negb (truthy data)).
  - apply logs_ret. apply decoder_log_nil.
  - apply logs_silent_bind;
      [apply decoder_log_nil|apply appends_iter|].
    intros events. apply logs_for_each. intros ev.
    apply pool_event_step_log.
Qed.

(** ** The validity filter, upstream and at the sinks *)

Lemma passed_filter_in_range (l : Q) : passed_filter l -> in_range l.
Proof.
  intros (now & ts & H). exact (calculate_latency_in_range _ _ _ H).
Qed.

Lemma in_range_sink_stores (a c : string) (l : Q) (g : metrics.Gauges) :
  in_range l -> sink_stores_at a c l g.
Proof.
  intros Hl. apply filter_guard_false in Hl.
  unfold sink_stores_at, metrics.record_latency,
    metrics.record_pool_discovery_latency.
  rewrite Hl. split; reflexivity.
Qed.

Lemma carries_reached_ok (l : Q) (e : Event) :
  passed_filter l -> carries l e -> reached_ok e.
Proof.
  intros Hl. pose proof (passed_filter_in_range _ Hl) as Hr.
  destruct e as [ts o|a c l'|a c l'|t c l'|shown|ln]; simpl.
  - intros [].
  - intros ->. split; [exact Hl|]. split; [exact Hr|].
    intros g. apply in_range_sink_stores. exact Hr.
  - intros ->. split; [exact Hl|]. split; [exact Hr|].
    intros g. apply in_range_sink_stores. exact Hr.
  - intros ->. split; [exact Hl|exact Hr].
  - intros [].
  - intros _. exact I.
Qed.

Lemma is_print_reached_ok (e : Event) : is_print e -> reached_ok e.
Proof. destruct e; simpl; intros []; exact I. Qed.

Lemma record_log_reached_ok (evs : list Event) :
  record_log evs -> Forall reached_ok evs.
Proof.
  intros [evs' He|pre ts Hp|pre ts l post Hp Hl Hpost].
  - eapply Forall_impl; [exact He|]. apply is_print_reached_ok.
  - apply Forall_app. split.
    + eapply Forall_impl; [exact Hp|]. apply is_print_reached_ok.
    + constructor; [exact I|constructor].
  - apply Forall_app. split.
    + eapply Forall_impl; [exact Hp|]. apply is_print_reached_ok.
    + constructor; [exact I|].
      eapply Forall_impl; [exact Hpost|].
      intros e. apply carries_reached_ok. exact Hl.
Qed.

Lemma decoder_log_reached_ok (evs : list Event) :
  decoder_log evs -> Forall reached_ok evs.
Proof.
  intros (blocks & -> & H).
  induction H as [|b blocks Hb _ IH]; simpl; [constructor|].
  apply Forall_app. split; [|exact IH].
  apply record_log_reached_ok. exact Hb.
Qed.

(** On timestamps that are finite numbers: the log a decoder adds is made
    of the logs of its records; in the log of a record every call of a
    sink or of the aggregator comes after the one call of
    [calculate_latency] of that record and carries the latency it
    returned, a value in [0, 120000].  The sinks test the same bounds
    again, so for such a value their rejecting branch is not taken. *)
Lemma finite_latency_filtered_upstream (data : value) (receive_time : Q)
    (debug : bool) (w : World) :
  (exists evs,
     trace (world_of (handle_swap_trade data receive_time debug w)) =
       (trace w ++ evs)%list /\
     decoder_log evs /\ Forall reached_ok evs) /\
  (exists evs,
     trace (world_of (handle_new_pool data receive_time debug w)) =
       (trace w ++ evs)%list /\
     decoder_log evs /\ Forall reached_ok evs) /\
  (forall l a c g, passed_filter l -> in_range l /\ sink_stores_at a c l g)
  /\
  (forall l a c g,
     (in_range l -> sink_stores_at a c l g) /\
     (~ in_range l ->
        metrics.record_latency a c l g = g /\
        metrics.record_pool_discovery_latency a c l g = g)).
Proof.
  split; [|split; [|split]].
  - destruct (handle_swap_trade_log data receive_time debug w)
      as (evs & Ht & Hs).
    exists evs. split; [exact Ht|]. split; [exact Hs|].
    apply decoder_log_reached_ok. exact Hs.
  - destruct (handle_new_pool_log data receive_time debug w)
      as (evs & Ht & Hs).
    exists evs. split; [exact Ht|]. split; [exact Hs|].
    apply decoder_log_reached_ok. exact Hs.
  - intros l a c g Hl. pose proof (passed_filter_in_range _ Hl) as Hr.
    split; [exact Hr|]. apply in_range_sink_stores. exact Hr.
  - intros l a c g. split; [apply in_range_sink_stores|].
    intros Hout.
    unfold metrics.record_latency, metrics.record_pool_discovery_latency.
    destruct (Qltb l 0 || Qltb 120000 l) eqn:E; [split; reflexivity|].
    apply filter_guard_false in E. contradiction.
Qed.

(** ** The cadence of the summaries *)

Lemma summaries_app (tr1 tr2 : list Event) :
  summaries (tr1 ++ tr2)%list = (summaries tr1 + summaries tr2)%nat.
Proof.
  induction tr1 as [|e tr1 IH]; simpl; [reflexivity|].
  destruct e; simpl; rewrite IH; reflexivity.
Qed.

Lemma summaries_from_handler (evs : list Event) :
  Forall from_handler evs -> summaries evs = 0%nat.
Proof.
  induction 1 as [|e evs He _ IH]; simpl; [reflexivity|].
  destruct He; exact IH.
Qed.

Lemma appends_no_summary {A} (m : M A) (w : World) :
  appends from_handler any m ->
  summaries (trace (world_of (m w))) = summaries (trace w).
Proof.
  intros Hm. destruct (Hm w) as [(evs & Ht & Hevs) _].
  rewrite Ht, summaries_app, (summaries_from_handler _ Hevs). lia.
Qed.

Lemma bind_ok_inv {A B} (m : M A) (k : A -> M B) (w w' : World) (b : B) :
  bind m k w = Ok b w' ->
  exists a w1, m w = Ok a w1 /\ k a w1 = Ok b w'.
Proof.
  unfold bind. destruct (m w) as [a w1|e w1]; [|discriminate].
  intros H. exists a, w1. split; [reflexivity|exact H].
Qed.

Lemma when_print_summaries (b : bool) (l : line) (w w' : World) :
  when b (print l) w = Ok tt w' ->
  summaries (trace w') = summaries (trace w).
Proof.
  destruct b; simpl; intros [= <-]; simpl; [|reflexivity].
  rewrite summaries_app. simpl. lia.
Qed.

(** One frame: a summary is rendered when the frame reaches the check
    and the counter, this frame included, is a multiple of 50. *)
Lemma listen_step_summaries (message_count : Z) (debug : bool)
    (m : message) (w w' : World) :
  listen_step message_count debug m w = Ok tt w' ->
  summaries (trace w') =
  (summaries (trace w)
   + (if reaches_check m && (message_count mod 50 =? 0)%Z then 1 else 0))%nat.
Proof.
  unfold listen_step. intros H.
  apply bind_ok_inv in H as (rt & w1 & Ht & H).
  injection Ht as <- <-.
  destruct m as [|e|data]; simpl reaches_check.
  - apply when_print_summaries in H. simpl in *. lia.
  - discriminate H.
  - destruct data; try discriminate H. simpl in H.
    change (bind (ret ?a) ?k ?w) with (k a w) in H. simpl in H.
    unfold bind, ret in H.
    set (channel := dict_get_default "channel" VNone d) in *.
    destruct (truthy channel); simpl in *.
    + destruct (is_str "ack" channel); simpl in *.
      * injection H as <-. simpl. rewrite summaries_app. simpl. lia.
      * match type of H with
        | context [match ?h ?w0 with _ => _ end] =>
            assert (Hh : appends from_handler any h)
        end.
        { destruct (is_str "new_pair_update" channel);
            [apply handle_swap_trade_appends|].
          destruct (is_str "new_pool_info" channel);
            [apply handle_new_pool_appends|].
          apply appends_ret. exact I. }
        match type of H with
        | context [match ?h ?w0 with _ => _ end] =>
            pose proof (appends_no_summary h w0 Hh) as Hs;
            destruct (h w0) as [[] w2|e w2]; [|discriminate H]
        end.
        simpl in Hs.
        destruct (message_count mod 50 =? 0)%Z; simpl in H.
        -- injection H as <-. simpl. rewrite summaries_app, Hs. simpl. lia.
        -- injection H as <-. lia.
    + apply when_print_summaries in H. simpl in *. lia.
Qed.

Lemma summary_points_all (frames : list message) (message_count : Z) :
  (0 <= message_count)%Z ->
  forallb reaches_check frames = true ->
  Z.of_nat (summary_points message_count frames) =
  ((message_count + Z.of_nat (length frames)) / 50 - message_count / 50)%Z.
Proof.
  revert message_count.
  induction frames as [|m frames IH]; intros c Hc Hall.
  - simpl. rewrite Z.add_0_r. lia.
  - simpl in Hall. apply andb_true_iff in Hall as [Hm Hall].
    cbn [summary_points length]. rewrite Hm. simpl andb.
    rewrite Nat2Z.inj_add, (IH (c + 1)%Z) by (lia || exact Hall).
    rewrite Nat2Z.inj_succ.
    destruct ((c + 1) mod 50 =? 0)%Z eqn:E.
    + apply Z.eqb_eq in E. change (Z.of_nat 1) with 1%Z.
      Z.div_mod_to_equations. lia.
    + apply Z.eqb_neq in E. change (Z.of_nat 0) with 0%Z.
      Z.div_mod_to_equations. lia.
Qed.

(** A frame whose handling raises renders no summary. *)
Lemma listen_step_raised_summaries (message_count : Z) (debug : bool)
    (m : message) (w w' : World) (e : exn) :
  listen_step message_count debug m w = Raised e w' ->
  summaries (trace w') = summaries (trace w).
Proof.
  unfold listen_step. unfold bind at 1. cbn [time_time].
  destruct m as [|e0|data].
  - destruct debug; discriminate.
  - intros [= _ <-]. reflexivity.
  - destruct data; try (intros [= _ <-]; reflexivity).
    cbn [py_get]. unfold bind at 1 2. cbn [ret].
    set (channel := dict_get_default "channel" VNone d).
    destruct (truthy channel); cbn [negb].
    + destruct (is_str "ack" channel); [discriminate|].
      match goal with
      | |- bind ?h _ ?w0 = _ -> _ =>
          assert (Hh : appends from_handler any h);
          [|pose proof (appends_no_summary h w0 Hh) as Hs;
            unfold bind; destruct (h w0) as [[] w2|e2 w2]]
      end.
      * destruct (is_str "new_pair_update" channel);
          [apply handle_swap_trade_appends|].
        destruct (is_str "new_pool_info" channel);
          [apply handle_new_pool_appends|].
        apply appends_ret. exact I.
      * destruct (message_count mod 50 =? 0)%Z; discriminate.
      * intros [= _ <-]. exact Hs.
    + destruct debug; discriminate.
Qed.

Lemma listen_loop_completed (debug : bool) (frames : list message)
    (message_count : Z) (w : World) :
  let r := listen_loop message_count debug frames w in
  summaries (trace (world_of r)) =
    (summaries (trace w)
     + summary_points message_count
         (completed message_count debug frames w))%nat /\
  (forall w', r = Ok tt w' ->
     completed message_count debug frames w = frames) /\
  (forall e w', r = Raised e w' ->
     exists m rest,
       frames = (completed message_count debug frames w ++ m :: rest)%list).
Proof.
  revert message_count w.
  induction frames as [|m frames IH]; intros message_count w; cbn zeta.
  - simpl. split; [lia|]. split; [reflexivity|discriminate].
  - cbn [listen_loop completed]. unfold bind.
    destruct (listen_step (message_count + 1) debug m w) as [[] w1|e w1]
      eqn:E.
    + destruct (IH (message_count + 1)%Z w1) as (I1 & I2 & I3).
      cbn zeta in I1, I2, I3.
      apply listen_step_summaries in E.
      split; [|split].
      * rewrite I1, E. cbn [summary_points]. lia.
      * intros w' H. rewrite (I2 w' H). reflexivity.
      * intros e w' H. destruct (I3 e w' H) as (m' & rest & Hf).
        exists m', rest. cbn [app]. f_equal. exact Hf.
    + apply listen_step_raised_summaries in E.
      split; [|split].
      * cbn [world_of summary_points]. lia.
      * discriminate.
      * intros e' w' _. exists m, frames. reflexivity.
Qed.

(** C4, as the code has it: the counter counts every frame received,
    and the loop renders a summary at the frames that reach the check
    (decoded, with a truthy channel other than ["ack"], handled without
    an exception) while the counter is a multiple of 50; frames that fail
    to parse, lack a channel or are acks render none.  A frame whose
    handling raises ends the loop: it renders nothing and no frame behind
    it is received.  When every frame reaches the check, that is one
    summary for every 50 frames. *)
Theorem C4_summary_cadence (debug : bool) (frames : list message)
    (closed_with_error : bool) (w : World) :
  let r := listen_loop 0 debug frames w in
  let done := completed 0 debug frames w in
  summaries (trace (world_of r)) =
    (summaries (trace w) + summary_points 0 done)%nat /\
  summaries (trace (listen_to_gmgn debug frames closed_with_error w)) =
    (summaries (trace w) + summary_points 0 done)%nat /\
  (forall w', r = Ok tt w' -> done = frames) /\
  (forall e w', r = Raised e w' ->
     exists m rest, frames = (done ++ m :: rest)%list) /\
  (forall w', r = Ok tt w' -> forallb reaches_check frames = true ->
     Z.of_nat (summaries (trace w')) =
       (Z.of_nat (summaries (trace w)) + Z.of_nat (length frames) / 50)%Z).
Proof.
  cbn zeta.
  destruct (listen_loop_completed debug frames 0 w) as (G & Hok & Hraised).
  cbn zeta in G, Hok, Hraised.
  split; [exact G|]. split; [|split; [exact Hok|split; [exact Hraised|]]].
  - unfold listen_to_gmgn.
    destruct (listen_loop 0 debug frames w) as [[] w1|e w1];
      cbn [world_of] in G.
    + destruct closed_with_error; [|exact G].
      cbn. rewrite summaries_app, G. simpl. lia.
    + cbn. rewrite summaries_app, G. simpl. lia.
  - intros w' H Hall. rewrite H in G. cbn [world_of] in G.
    rewrite (Hok w' H) in G.
    rewrite G, Nat2Z.inj_add.
    rewrite (summary_points_all frames 0) by (lia || exact Hall).
    rewrite Z.add_0_l. change (0 / 50)%Z with 0%Z. rewrite Z.sub_0_r.
    reflexivity.
Qed.

(** ** The reconnect backoff *)

Lemma backoff_succ (k : nat) :
  Z.min (backoff k * 2) max_reconnect_delay = backoff (S k).
Proof.
  unfold backoff, max_reconnect_delay.
  rewrite Nat2Z.inj_succ, Z.pow_succ_r by lia. lia.
Qed.

Lemma backoff_capped (i : nat) : (4 <= i)%nat -> backoff i = 60%Z.
Proof.
  intros Hi. unfold backoff.
  assert (2 ^ 4 <= 2 ^ Z.of_nat i)%Z by (apply Z.pow_le_mono_r; lia).
  change (2 ^ 4)%Z with 16%Z in *. lia.
Qed.

Lemma run_loop_app (debug : bool) (turns1 turns2 : list turn)
    (m : Monitor) :
  Forall no_stop turns1 ->
  run_loop debug (turns1 ++ turns2)%list m =
  run_loop debug turns2 (run_loop debug turns1 m).
Proof.
  intros H. revert m.
  induction H as [|t turns1 [Ht1 Ht2] _ IH]; intros m; simpl.
  - reflexivity.
  - rewrite Ht1, Ht2. apply IH.
Qed.

Lemma run_loop_failures (debug : bool) (n k : nat) (m : Monitor) :
  reconnect_delay m = backoff k ->
  slept (run_loop debug (repeat failure n) m) =
    (slept m ++ map backoff (seq k n))%list /\
  reconnect_delay (run_loop debug (repeat failure n) m) =
    backoff (k + n).
Proof.
  revert k m. induction n as [|n IH]; intros k m Hd; simpl.
  - rewrite app_nil_r, Nat.add_0_r. split; [reflexivity|exact Hd].
  - match goal with
    | |- context [run_loop debug _ ?m2] =>
        destruct (IH (S k) m2) as [IH1 IH2]
    end.
    { simpl. rewrite Hd. apply backoff_succ. }
    rewrite IH1, IH2. simpl. rewrite Hd, <- app_assoc.
    split; [reflexivity|]. f_equal. lia.
Qed.

Lemma run_loop_listening (debug : bool) (frames : list message)
    (closed : bool) (m : Monitor) :
  slept (run_loop debug [listening frames closed] m) =
    (slept m ++ [backoff 0])%list /\
  reconnect_delay (run_loop debug [listening frames closed] m) = backoff 1.
Proof.
  simpl. split; reflexivity.
Qed.

(** C5: from the start, consecutive failures sleep 5, 10, 20, 40, 60,
    60, 60, ...; and after any turns without shutdown, one turn that
    reaches the listening loop makes the next sleep 5 again, the failures
    after it 10, 20, 40, 60, ... *)
Theorem C5_backoff_sequence (debug : bool) (g : metrics.Gauges)
    (history : list turn) (frames : list message) (closed : bool)
    (n : nat) :
  Forall no_stop history ->
  slept (run_gmgn_monitor debug g false (repeat failure n)) =
    map backoff (seq 0 n) /\
  map backoff (seq 0 7) = [5; 10; 20; 40; 60; 60; 60]%Z /\
  (forall i, (4 <= i)%nat -> backoff i = 60%Z) /\
  slept (run_gmgn_monitor debug g false
           (history ++ listening frames closed :: repeat failure n)%list) =
    (slept (run_gmgn_monitor debug g false history)
     ++ map backoff (seq 0 (S n)))%list.
Proof.
  intros Hh. unfold run_gmgn_monitor.
  split; [|split; [reflexivity|split; [exact backoff_capped|]]].
  - destruct (run_loop_failures debug n 0
                (mkMonitor 5 [] (mkWorld g stats.init 0 []) false)
                eq_refl) as [H _].
    exact H.
  - rewrite run_loop_app by exact Hh.
    change (listening frames closed :: repeat failure n)
      with ([listening frames closed] ++ repeat failure n)%list.
    rewrite run_loop_app
      by (constructor; [split; reflexivity|constructor]).
    match goal with
    | |- context [run_loop debug [listening frames closed] ?m] =>
        destruct (run_loop_listening debug frames closed m) as [L1 L2];
        destruct (run_loop_failures debug n 1
                    (run_loop debug [listening frames closed] m) L2)
          as [F1 _]
    end.
    rewrite F1, L1, <- app_assoc. reflexivity.
Qed.

(** ** One record through a decoder *)

Lemma bind_ok {A B} (m : M A) (k : A -> M B) (w w1 : World) (a : A) :
  m w = Ok a w1 -> bind m k w = k a w1.
Proof. intros H. unfold bind. rewrite H. reflexivity. Qed.

Lemma bind_raised {A B} (m : M A) (k : A -> M B) (w w1 : World) (e : exn) :
  m w = Raised e w1 -> bind m k w = Raised e w1.
Proof. intros H. unfold bind. rewrite H. reflexivity. Qed.












Lemma stats_update_known (event_type chain : string) (l : Q) (w : World) :
  event_type = "swap" \/ event_type = "pool" ->
  stats_update event_type chain l w =
  Ok tt (mkWorld (gauges w)
           (snd (stats.update event_type chain l (stats_obj w)))
           (ticks w)
           (trace w ++ [CallStatsUpdate event_type chain l])).
Proof.
  intros Hty. unfold stats_update. rewrite update_known by exact Hty.
  reflexivity.
Qed.

(** One call of [calculate_latency], with the clock readings it makes. *)
Lemma calculate_latency_eq (ts : value) (w : World) :
  calculate_latency ts w =
  Ok (utils.calculate_latency (clock (ticks w)) ts)
     (mkWorld (gauges w) (stats_obj w)
        (if truthy ts then S (ticks w) else ticks w)
        (trace w
         ++ [CallCalculateLatency ts
               (utils.calculate_latency (clock (ticks w)) ts)])).
Proof.
  unfold calculate_latency, utils.calculate_latency.
  destruct (truthy ts); reflexivity.
Qed.


(** A pool entry whose token block is a dict and whose pool address is a
    string, step by step: what it logs, what it leaves in the gauges and
    in the statistics, and how it ends. *)
Lemma pool_step_run (receive_time : Q) (debug : bool) (chain : string)
    (open_time : value) (d ti : list (string * value)) (a : string)
    (w : World) :
  dict_get_default "bti" (VDict []) d = VDict ti ->
  dict_get_default "pa" (VStr "") d = VStr a ->
  let used := dict_get_default "ot" open_time d in
  let ticked := if truthy used then S (ticks w) else ticks w in
  pool_step receive_time debug chain open_time (VDict d) w =
  match utils.calculate_latency (clock (ticks w)) used with
  | None =>
      Ok tt (mkWorld (gauges w) (stats_obj w) ticked
               (trace w ++ [CallCalculateLatency used None]))
  | Some l =>
      let g := metrics.set_pool_gauges "gmgn" chain l (gauges w) in
      let s := snd (stats.update "pool" chain l (stats_obj w)) in
      let tr := (trace w ++ pool_calls debug receive_time chain used l)%list in
      match entry_numbers ti d with
      | inl e => Raised e (mkWorld g s ticked tr)
      | inr numbers =>
          Ok tt (mkWorld g s ticked
                   (tr ++ [Print (pool_line receive_time chain used l d ti a
                                    numbers)]))
      end
  end.
Proof.
  intros Hbti Ha used ticked. unfold pool_step. rewrite Hbti, Ha.
  cbn [py_get].
  do 6 (erewrite (bind_ok (ret _)) by reflexivity).
  rewrite (bind_ok _ _ _ _ _ (calculate_latency_eq _ w)).
  fold used ticked.
  destruct (utils.calculate_latency (clock (ticks w)) used) as [l|] eqn:EL;
    [|reflexivity].
  pose proof (calculate_latency_in_range _ _ _ EL) as Hr.
  erewrite (bind_ok (record_pool_discovery_latency _ _ _)) by reflexivity.
  erewrite (bind_ok (stats_update _ _ _))
    by (apply stats_update_known; right; reflexivity).
  cbn [short8]. erewrite (bind_ok (ret _)) by reflexivity.
  fold (entry_numbers ti d).
  destruct (in_range_sink_stores "gmgn" chain l (gauges w) Hr) as [_ Hg].
  cbn [gauges stats_obj ticks trace]. rewrite Hg.
  unfold pool_calls, pool_line.
  destruct debug; cbn [when];
    destruct (entry_numbers ti d) as [e|[[[price_val mc_val] holder_val]
                                         liq_val]];
    cbn [lift]; unfold bind, print, emit, raise, ret;
    cbn [gauges stats_obj ticks trace];
    repeat rewrite <- app_assoc; reflexivity.
Qed.

(** ** The pool decoder: wire shapes and open-times *)

Lemma pool_step_same_fields (receive_time : Q) (debug : bool)
    (chain : string) (ot1 ot2 : value) (d1 d2 : list (string * value)) :
  dict_get "ex" d1 = dict_get "ex" d2 ->
  dict_get "pa" d1 = dict_get "pa" d2 ->
  dict_get "il" d1 = dict_get "il" d2 ->
  dict_get "bti" d1 = dict_get "bti" d2 ->
  dict_get_default "ot" ot1 d1 = dict_get_default "ot" ot2 d2 ->
  pool_step receive_time debug chain ot1 (VDict d1) =
  pool_step receive_time debug chain ot2 (VDict d2).
Proof.
  intros Hex Hpa Hil Hbti Hot. unfold pool_step. rewrite Hot.
  unfold dict_get_default. rewrite Hex, Hpa, Hil, Hbti. reflexivity.
Qed.

Lemma dict_get_default_twice (k : string) (dflt : value)
    (d : list (string * value)) :
  dict_get_default k (dict_get_default k dflt d) d =
  dict_get_default k dflt d.
Proof.
  unfold dict_get_default. destruct (dict_get k d); reflexivity.
Qed.

Lemma for_each_ext_at {A} (f : A -> M unit) (x y : A)
    (pre post : list A) :
  (forall w, f x w = f y w) ->
  forall w,
    for_each f (pre ++ x :: post)%list w =
    for_each f (pre ++ y :: post)%list w.
Proof.
  intros Hxy. induction pre as [|a pre IH]; intros w; simpl; unfold bind.
  - rewrite Hxy. reflexivity.
  - destruct (f a w) as [[] w1|e w1]; [apply IH|reflexivity].
Qed.

Lemma for_each_singleton {A} (f : A -> M unit) (x : A) (w : World) :
  for_each f [x] w = bind (f x) (fun _ => ret tt) w.
Proof. reflexivity. Qed.

Lemma pool_event_step_same_pool (receive_time : Q) (debug : bool)
    (wrapped entry bare : list (string * value)) (w : World) :
  same_pool wrapped entry bare ->
  pool_event_step receive_time debug (VDict wrapped) w =
  pool_event_step receive_time debug (VDict bare) w.
Proof.
  intros (Hp & Hnp & Hpa & Hc & Hn & Hex & Hpa' & Hil & Hbti & Hot).
  unfold pool_event_step.
  replace (dict_get_default "c" (dict_get_default "n" (VStr "unknown") bare)
             bare)
    with (dict_get_default "c"
            (dict_get_default "n" (VStr "unknown") wrapped) wrapped)
    by (unfold dict_get_default; rewrite Hc, Hn; reflexivity).
  unfold bind.
  destruct (lift (utils.get_chain_name _) w) as [chain w1|e w1];
    [|reflexivity].
  replace (dict_get_default "p" (VList []) wrapped)
    with (VList [VDict entry])
    by (unfold dict_get_default; rewrite Hp; reflexivity).
  replace (dict_get_default "p" (VList []) bare) with (VList [])
    by (unfold dict_get_default; rewrite Hnp; reflexivity).
  rewrite Hpa. cbn [truthy negb andb iter]. unfold bind, ret.
  rewrite !for_each_singleton.
  rewrite (pool_step_same_fields receive_time debug chain
             (dict_get_default "ot" VNone wrapped)
             (dict_get_default "ot" VNone bare) entry bare);
    try (symmetry; assumption).
  - reflexivity.
  - rewrite dict_get_default_twice. symmetry. exact Hot.
Qed.

Lemma handle_new_pool_single (x : value) (receive_time : Q) (debug : bool)
    (w : World) :
  handle_new_pool (VList [x]) receive_time debug w =
  bind (pool_event_step receive_time debug x) (fun _ => ret tt) w.
Proof. reflexivity. Qed.

Lemma entry_open_time_default (pool_event entry : list (string * value)) :
  dict_get_default "ot" (dict_get_default "ot" VNone pool_event) entry =
  entry_open_time pool_event entry.
Proof using.
  unfold entry_open_time, dict_get_default.
  destruct (dict_get "ot" entry); reflexivity.
Qed.

(** C7: a batch item in the wrapped-list shape and the bare pool holding
    the same data decode alike: wherever either stands in a batch,
    [handle_new_pool] ends in the same outcome.  And both are decoded:
    for an entry with a string chain field, a dict token block, a string
    pool address, numeric fields that convert and an open-time that gives
    the valid latency [l], either shape calls [calculate_latency], the
    sink and the aggregator once with [l] on the normalized chain, prints
    the record made of the entry's fields, and leaves the gauges set and
    the statistics updated. *)
Theorem C7_pool_shapes_agree (receive_time : Q) (debug : bool)
    (wrapped entry bare : list (string * value))
    (before after : list value) (w : World) :
  same_pool wrapped entry bare ->
  handle_new_pool (VList (before ++ VDict wrapped :: after)%list)
    receive_time debug w =
  handle_new_pool (VList (before ++ VDict bare :: after)%list)
    receive_time debug w /\
  (forall c ti a l numbers w0,
     chain_raw_of wrapped = VStr c ->
     dict_get_default "bti" (VDict []) entry = VDict ti ->
     dict_get_default "pa" (VStr "") entry = VStr a ->
     utils.calculate_latency (clock (ticks w0))
       (entry_open_time wrapped entry) = Some l ->
     entry_numbers ti entry = inr numbers ->
     let chain := utils.normalize c in
     let used := entry_open_time wrapped entry in
     exists w',
       handle_new_pool (VList [VDict wrapped]) receive_time debug w0
         = Ok tt w' /\
       handle_new_pool (VList [VDict bare]) receive_time debug w0
         = Ok tt w' /\
       trace w' =
         (trace w0 ++ pool_calls debug receive_time chain used l
          ++ [Print (pool_line receive_time chain used l entry ti a
                       numbers)])%list /\
       gauges w' = metrics.set_pool_gauges "gmgn" chain l (gauges w0) /\
       stats_obj w' = snd (stats.update "pool" chain l (stats_obj w0))).
Proof.
  intros Hsame. split.
  - unfold handle_new_pool.
    assert (T : forall x, truthy (VList (before ++ x :: after)%list) = true)
      by (intros x; destruct before; reflexivity).
    rewrite !T. cbn [negb iter]. unfold bind, ret.
    apply for_each_ext_at. intros w0.
    exact (pool_event_step_same_pool _ _ _ _ _ w0 Hsame).
  - intros c ti a l numbers w0 Hc Hbti Ha Hl Hn chain used.
    rewrite !handle_new_pool_single. unfold bind.
    rewrite <- (pool_event_step_same_pool receive_time debug wrapped entry
                  bare w0 Hsame).
    destruct Hsame as (Hp & _).
    cut (exists w',
           pool_event_step receive_time debug (VDict wrapped) w0 = Ok tt w'
           /\ trace w' =
               (trace w0 ++ pool_calls debug receive_time chain used l
                ++ [Print (pool_line receive_time chain used l entry ti a
                             numbers)])%list
           /\ gauges w' = metrics.set_pool_gauges "gmgn" chain l (gauges w0)
           /\ stats_obj w' =
               snd (stats.update "pool" chain l (stats_obj w0))).
    { intros (w' & E & H). exists w'. rewrite E.
      split; [reflexivity|]. split; [reflexivity|exact H]. }
    subst chain used.
    unfold pool_event_step. unfold chain_raw_of in Hc. rewrite Hc.
    cbn [utils.get_chain_name lift].
    erewrite (bind_ok (ret _)) by reflexivity.
    replace (dict_get_default "p" (VList []) wrapped)
      with (VList [VDict entry])
      by (unfold dict_get_default; rewrite Hp; reflexivity).
    cbn [truthy negb andb iter].
    erewrite (bind_ok (ret _)) by reflexivity.
    rewrite for_each_singleton.
    unfold bind at 1.
    rewrite (pool_step_run receive_time debug (utils.normalize c)
               (dict_get_default "ot" VNone wrapped) entry ti a w0 Hbti Ha).
    rewrite entry_open_time_default, Hl. cbn zeta. rewrite Hn.
    eexists. split; [reflexivity|].
    cbn [trace gauges stats_obj]. rewrite <- app_assoc.
    repeat split.
Qed.

Lemma stats_update_trace (t c : string) (l : Q) (w : World) :
  trace (world_of (stats_update t c l w)) =
  (trace w ++ [CallStatsUpdate t c l])%list.
Proof.
  unfold stats_update.
  destruct (stats.update t c l (stats_obj w)) as [[e|] s]; reflexivity.
Qed.

Lemma pool_step_latency (receive_time : Q) (debug : bool) (chain : string)
    (open_time : value) (entry ti : list (string * value)) (w : World) :
  dict_get_default "bti" (VDict []) entry = VDict ti ->
  latency_taken_from (dict_get_default "ot" open_time entry) chain w
    (pool_step receive_time debug chain open_time (VDict entry) w).
Proof.
  intros Hbti. unfold pool_step. rewrite Hbti.
  cbn [py_get]. unfold bind at 1 2 3 4 5 6 7. cbn [ret].
  set (used := dict_get_default "ot" open_time entry).
  destruct (calculate_latency_run used w) as (n & ->).
  unfold latency_taken_from.
  destruct (utils.calculate_latency (clock (ticks w)) used) as [l|].
  - unfold bind at 1.
    cbn [record_pool_discovery_latency gauges stats_obj ticks trace].
    match goal with
    | |- context [bind (stats_update ?t ?c ?l0) ?k ?w2] =>
        assert (Hk : forall u, appends (fun _ => True) any (k u))
          by (intros; repeat appends_step);
        pose proof (stats_update_trace t c l0 w2) as Hu;
        unfold bind at 1;
        destruct (stats_update t c l0 w2) as [[] w3|e w3];
        cbn [world_of trace] in Hu |- *
    end.
    + destruct (Hk tt w3) as [(evs & Ht & _) _].
      exists evs. rewrite Ht, Hu, <- !app_assoc. reflexivity.
    + exists []. rewrite Hu, <- !app_assoc. reflexivity.
  - cbn [world_of trace gauges stats_obj]. repeat split.
Qed.

(** C8, as the code has it: in a batch item with a nested list, every
    entry is decoded with the batch item's open-time as default, and the
    latency of an entry is taken from the entry's own ['ot'] when the
    entry has the key, from the batch item's when it has not.  An own
    value that is falsy, null included, is used all the same: the entry
    is skipped, whatever the batch item's open-time. *)
Theorem C8_open_time_inherit_override (receive_time : Q) (debug : bool)
    (pool_event entry : list (string * value)) (c : string)
    (entries : list value) (w : World) :
  dict_get_default "c" (dict_get_default "n" (VStr "unknown") pool_event)
    pool_event = VStr c ->
  dict_get "p" pool_event = Some (VList entries) ->
  In (VDict entry) entries ->
  (exists ti, dict_get_default "bti" (VDict []) entry = VDict ti) ->
  let chain := utils.normalize c in
  let open_time := dict_get_default "ot" VNone pool_event in
  pool_event_step receive_time debug (VDict pool_event) w =
    for_each (pool_step receive_time debug chain open_time) entries w /\
  (forall own w0, dict_get "ot" entry = Some own ->
     latency_taken_from own chain w0
       (pool_step receive_time debug chain open_time (VDict entry) w0)) /\
  (forall w0, dict_get "ot" entry = None ->
     latency_taken_from open_time chain w0
       (pool_step receive_time debug chain open_time (VDict entry) w0)) /\
  (forall own w0, dict_get "ot" entry = Some own -> truthy own = false ->
     let r := pool_step receive_time debug chain open_time (VDict entry)
                w0 in
     trace (world_of r) = (trace w0 ++ [CallCalculateLatency own None])%list
     /\ gauges (world_of r) = gauges w0
     /\ stats_obj (world_of r) = stats_obj w0).
Proof.
  intros Hc Hp Hin [ti Hbti] chain open_time.
  assert (L : forall w0,
            latency_taken_from (dict_get_default "ot" open_time entry)
              chain w0
              (pool_step receive_time debug chain open_time (VDict entry)
                 w0))
    by (intros w0;
        exact (pool_step_latency receive_time debug chain open_time entry
                 ti w0 Hbti)).
  split; [|split; [|split]].
  - unfold pool_event_step. rewrite Hc.
    replace (dict_get_default "p" (VList []) pool_event)
      with (VList entries)
      by (unfold dict_get_default; rewrite Hp; reflexivity).
    destruct entries as [|e0 entries]; [destruct Hin|]. reflexivity.
  - intros own w0 H. specialize (L w0).
    unfold dict_get_default in L at 1. rewrite H in L. exact L.
  - intros w0 H. specialize (L w0).
    unfold dict_get_default in L at 1. rewrite H in L. exact L.
  - intros own w0 H Hf. specialize (L w0).
    unfold dict_get_default in L at 1. rewrite H in L.
    unfold latency_taken_from in L.
    replace (utils.calculate_latency (clock (ticks w0)) own)
      with (@None Q) in L
      by (unfold utils.calculate_latency; rewrite Hf; reflexivity).
    exact L.
Qed.

(** ** The statistics aggregator: buckets, extrema, summary *)

Lemma updates_app (calls1 calls2 : list (string * string * Q))
    (s : stats.Statistics) :
  updates (calls1 ++ calls2)%list s = updates calls2 (updates calls1 s).
Proof using. apply fold_left_app. Qed.

Lemma bucket_fold_closed (cs : list (string * Q)) (b : stats.ChainStats) :
  Forall (fun c => fst c = "swap" \/ fst c = "pool") cs ->
  bucket_fold cs b =
  stats.mkChainStats
    (stats.cs_swap_count b + count_type "swap" cs)
    (stats.cs_pool_count b + count_type "pool" cs)
    (fold_left Qplus (map snd cs) (stats.cs_total_latency b)).
Proof using.
  intros H. revert b.
  induction H as [|[ty l] cs Hty _ IH]; intros [ns np tl]; simpl.
  - f_equal; lia.
  - unfold bucket_fold in IH. rewrite IH. simpl in Hty.
    destruct Hty as [-> | ->]; simpl; f_equal; lia.
Qed.

Lemma by_chain_updates (calls : list (string * string * Q))
    (chain : string) (s : stats.Statistics) :
  Forall known_type calls ->
  stats.by_chain (updates calls s) !! chain =
  match calls_on chain calls with
  | [] => stats.by_chain s !! chain
  | cs =>
      Some (bucket_fold cs
              (default stats.new_bucket (stats.by_chain s !! chain)))
  end.
Proof using.
  intros H. revert s.
  induction H as [|[[ty ch] l] calls Hty _ IH]; intros s; simpl.
  - reflexivity.
  - rewrite IH. unfold known_type in Hty. simpl in Hty.
    rewrite update_known by exact Hty. simpl.
    destruct (String.eqb_spec ch chain) as [->|Hne].
    + rewrite lookup_insert_eq. simpl.
      destruct (calls_on chain calls); reflexivity.
    + rewrite lookup_insert_ne by exact Hne.
      destruct (calls_on chain calls); reflexivity.
Qed.

Lemma calls_on_known (chain : string) (calls : list (string * string * Q)) :
  Forall known_type calls ->
  Forall (fun c => fst c = "swap" \/ fst c = "pool") (calls_on chain calls).
Proof using.
  induction 1 as [|[[ty ch] l] calls Hty _ IH]; simpl; [constructor|].
  destruct (String.eqb ch chain); [|exact IH].
  constructor; [exact Hty|exact IH].
Qed.

Lemma by_chain_fresh (calls : list (string * string * Q)) (chain : string) :
  Forall known_type calls ->
  stats.by_chain (updates calls stats.init) !! chain =
  match calls_on chain calls with
  | [] => None
  | cs => Some (bucket_of cs)
  end.
Proof using.
  intros H. rewrite by_chain_updates by exact H.
  pose proof (calls_on_known chain calls H) as K.
  destruct (calls_on chain calls) as [|c cs]; [reflexivity|].
  rewrite bucket_fold_closed by exact K. reflexivity.
Qed.

(** X1: after calls of the two event types on a fresh [Statistics],
    [by_chain] has a bucket exactly for the chains that were passed, and
    the bucket of a chain holds the number of its swap calls, the number
    of its pool calls and the sum of its latencies in call order. *)
Theorem X1_bucket_contents (calls : list (string * string * Q))
    (chain : string) :
  Forall known_type calls ->
  stats.by_chain (updates calls stats.init) !! chain =
  match calls_on chain calls with
  | [] => None
  | cs => Some (bucket_of cs)
  end.
Proof using.
  exact (by_chain_fresh calls chain).
Qed.

(** C6, as the code has it: after calls of the two event types on a
    fresh [Statistics], the mean [print_summary] shows for swaps is the
    running total of the swap latencies, added up in call order, over
    their number, likewise for pools; the counts of the buckets of
    [by_chain] add up to the global counts; and the total of a bucket is
    the running total of the latencies of its chain, added up in call
    order.  Nothing is said of the bucket totals added up over the
    chains: they are other groupings of the same sums. *)
Theorem C6_running_mean_and_chain_totals
    (calls : list (string * string * Q)) :
  Forall known_type calls ->
  let s := updates calls stats.init in
  let swaps := latencies_of "swap" calls in
  let pools := latencies_of "pool" calls in
  (swaps <> [] ->
     stats.avg_swap s =
       Some (py_sum swaps / inject_Z (Z.of_nat (length swaps)))) /\
  (pools <> [] ->
     stats.avg_pool s =
       Some (py_sum pools / inject_Z (Z.of_nat (length pools)))) /\
  stats.chains_events s = (stats.swap_count s + stats.pool_count s)%Z /\
  stats.total_swap_latency s = py_sum swaps /\
  stats.total_pool_latency s = py_sum pools /\
  (forall chain b,
     stats.by_chain s !! chain = Some b ->
     stats.cs_total_latency b = py_sum (map snd (calls_on chain calls))).
Proof using.
  intros Hk s swaps pools.
  destruct (updates_globals calls stats.init Hk) as (N1 & N2 & T1 & T2).
  fold s swaps pools in N1, N2, T1, T2. simpl in N1, N2, T1, T2.
  pose proof (updates_counts_reconstruct calls stats.init
                counts_reconstruct_init) as R1.
  fold s in R1.
  split; [|split; [|split; [exact R1|split; [exact T1|split;
                                                      [exact T2|]]]]].
  - intros Hne. unfold stats.avg_swap. rewrite N1, T1.
    destruct swaps; [congruence|]. reflexivity.
  - intros Hne. unfold stats.avg_pool. rewrite N2, T2.
    destruct pools; [congruence|]. reflexivity.
  - intros chain b Hb. subst s.
    rewrite (by_chain_fresh calls chain Hk) in Hb.
    destruct (calls_on chain calls) as [|c cs]; [discriminate|].
    injection Hb as <-. reflexivity.
Qed.

Lemma updates_extrema (calls : list (string * string * Q))
    (s : stats.Statistics) :
  Forall known_type calls ->
  let s' := updates calls s in
  stats.min_swap_latency s' =
    fold_left stats.py_min (latencies_of "swap" calls)
      (stats.min_swap_latency s) /\
  stats.max_swap_latency s' =
    fold_left stats.py_max (latencies_of "swap" calls)
      (stats.max_swap_latency s) /\
  stats.min_pool_latency s' =
    fold_left stats.py_min (latencies_of "pool" calls)
      (stats.min_pool_latency s) /\
  stats.max_pool_latency s' =
    fold_left stats.py_max (latencies_of "pool" calls)
      (stats.max_pool_latency s).
Proof using.
  intros Hk. revert s.
  induction Hk as [|[[ty chain] l] calls Hty _ IH]; intros s; simpl.
  - repeat split.
  - specialize (IH (snd (stats.update ty chain l s))).
    unfold known_type in Hty. simpl in Hty.
    rewrite update_known in IH by exact Hty. simpl in IH.
    rewrite update_known by exact Hty. simpl.
    destruct IH as (I1 & I2 & I3 & I4).
    destruct Hty as [-> | ->]; simpl in *;
      rewrite I1, I2, I3, I4; repeat split.
Qed.

Lemma py_min_fold (ls : list Q) (q : Q) :
  exists m,
    fold_left stats.py_min ls (stats.Fin q) = stats.Fin m /\
    (m = q \/ In m ls) /\ m <= q /\ (forall l, In l ls -> m <= l).
Proof using.
  revert q. induction ls as [|x ls IH]; intros q; simpl.
  - exists q. repeat split; [left; reflexivity|lra|intros l []].
  - destruct (Qltb x q) eqn:E.
    + apply Qltb_true in E. destruct (IH x) as (m & Hm & Hin & Hle & Hall).
      exists m. split; [exact Hm|]. split; [|split].
      * right. destruct Hin as [->|Hin]; [left; reflexivity|right; exact Hin].
      * lra.
      * intros l [<-|Hl]; [exact Hle|exact (Hall l Hl)].
    + apply Qltb_false in E. destruct (IH q) as (m & Hm & Hin & Hle & Hall).
      exists m. split; [exact Hm|]. split; [|split].
      * destruct Hin as [->|Hin]; [left; reflexivity|right; right; exact Hin].
      * exact Hle.
      * intros l [<-|Hl]; [lra|exact (Hall l Hl)].
Qed.

Lemma py_max_cases (q x : Q) :
  (stats.py_max q x = x /\ q < x) \/ (stats.py_max q x = q /\ x <= q).
Proof using.
  unfold stats.py_max. destruct (Qltb q x) eqn:E.
  - left. split; [reflexivity|]. apply Qltb_true. exact E.
  - right. split; [reflexivity|]. apply Qltb_false. exact E.
Qed.

Lemma py_max_fold (ls : list Q) (q : Q) :
  (fold_left stats.py_max ls q = q \/ In (fold_left stats.py_max ls q) ls)
  /\ q <= fold_left stats.py_max ls q
  /\ (forall l, In l ls -> l <= fold_left stats.py_max ls q).
Proof using.
  revert q. induction ls as [|x ls IH]; intros q.
  - simpl. repeat split; [left; reflexivity|lra|intros l []].
  - cbn [fold_left]. destruct (IH (stats.py_max q x)) as (Hin & Hle & Hall).
    set (mx := fold_left stats.py_max ls (stats.py_max q x)) in *.
    destruct (py_max_cases q x) as [[Hc Hlt]|[Hc Hge]]; rewrite Hc in *.
    + split; [|split].
      * right. destruct Hin as [->|Hin]; [left; reflexivity|right; exact Hin].
      * lra.
      * intros l [<-|Hl]; [exact Hle|exact (Hall l Hl)].
    + split; [|split].
      * destruct Hin as [Hin|Hin]; [left; exact Hin|right; right; exact Hin].
      * exact Hle.
      * intros l [<-|Hl]; [lra|exact (Hall l Hl)].
Qed.

Lemma extrema_of_fold (ls : list Q) :
  ls <> [] ->
  extrema_ok ls (fold_left stats.py_min ls stats.Inf)
    (fold_left stats.py_max ls 0).
Proof using.
  destruct ls as [|x ls]; [congruence|]. intros _.
  change (fold_left stats.py_min (x :: ls) stats.Inf)
    with (fold_left stats.py_min ls (stats.Fin x)).
  destruct (py_min_fold ls x) as (m & Hm & Hin & Hle & Hall).
  destruct (py_max_fold (x :: ls) 0) as (Min & Mle & Mall).
  set (mx := fold_left stats.py_max (x :: ls) 0) in *.
  clearbody mx.
  exists m.
  split; [exact Hm|].
  split; [destruct Hin as [->|Hin]; [left; reflexivity|right; exact Hin]|].
  split; [exact Min|]. split; [exact Mle|].
  intros l Hl. split; [|exact (Mall l Hl)].
  destruct Hl as [<-|Hl]; [exact Hle|exact (Hall l Hl)].
Qed.

(** X2: after calls of the two event types on a fresh [Statistics], for
    each event type with at least one call the minimum kept is one of its
    latencies, the maximum is one of them or the initial 0, and every
    latency lies between minimum and maximum; an event type without
    calls keeps [inf], 0 and no mean. *)
Theorem X2_extrema_kept (calls : list (string * string * Q)) :
  Forall known_type calls ->
  let s := updates calls stats.init in
  let swaps := latencies_of "swap" calls in
  let pools := latencies_of "pool" calls in
  (swaps <> [] ->
     extrema_ok swaps (stats.min_swap_latency s)
       (stats.max_swap_latency s)) /\
  (pools <> [] ->
     extrema_ok pools (stats.min_pool_latency s)
       (stats.max_pool_latency s)) /\
  (swaps = [] ->
     stats.min_swap_latency s = stats.Inf /\
     stats.max_swap_latency s = 0 /\ stats.avg_swap s = None) /\
  (pools = [] ->
     stats.min_pool_latency s = stats.Inf /\
     stats.max_pool_latency s = 0 /\ stats.avg_pool s = None).
Proof using.
  intros Hk s swaps pools.
  destruct (updates_extrema calls stats.init Hk) as (E1 & E2 & E3 & E4).
  destruct (updates_globals calls stats.init Hk) as (N1 & N2 & _ & _).
  fold s swaps pools in E1, E2, E3, E4, N1, N2.
  simpl in E1, E2, E3, E4, N1, N2.
  split; [|split; [|split]].
  - intros Hne. rewrite E1, E2. apply extrema_of_fold. exact Hne.
  - intros Hne. rewrite E3, E4. apply extrema_of_fold. exact Hne.
  - intros He. unfold stats.avg_swap. rewrite E1, E2, N1, He.
    repeat split.
  - intros He. unfold stats.avg_pool. rewrite E3, E4, N2, He.
    repeat split.
Qed.

Lemma count_type_total (cs : list (string * Q)) :
  Forall (fun c => fst c = "swap" \/ fst c = "pool") cs ->
  (count_type "swap" cs + count_type "pool" cs)%Z = Z.of_nat (length cs).
Proof using.
  induction 1 as [|[ty l] cs Hty _ IH]; [reflexivity|].
  cbn [count_type length fst]. rewrite Nat2Z.inj_succ.
  simpl in Hty. destruct Hty as [-> | ->]; simpl String.eqb; lia.
Qed.

(** X3: what [print_summary] shows after calls of the two event types on
    a fresh [Statistics]: the swap section is left out exactly when no
    swap was recorded, likewise the pool section; a chain has a line
    exactly when it was passed to a call, and the line shows the number
    of its events and the mean of its latencies. *)
Theorem X3_summary_sections (calls : list (string * string * Q))
    (chain : string) :
  Forall known_type calls ->
  let shown := stats.print_summary (updates calls stats.init) in
  (stats.sum_swaps shown = None <-> latencies_of "swap" calls = []) /\
  (stats.sum_pools shown = None <-> latencies_of "pool" calls = []) /\
  stats.sum_chains shown !! chain =
    match calls_on chain calls with
    | [] => None
    | cs =>
        Some (Z.of_nat (length cs),
              py_sum (map snd cs) / inject_Z (Z.of_nat (length cs)))
    end.
Proof using.
  intros Hk shown. subst shown.
  destruct (updates_globals calls stats.init Hk) as (N1 & N2 & _ & _).
  simpl in N1, N2.
  split; [|split].
  - unfold stats.print_summary, stats.avg_swap. simpl. rewrite N1.
    destruct (latencies_of "swap" calls); simpl; split; congruence.
  - unfold stats.print_summary, stats.avg_pool. simpl. rewrite N2.
    destruct (latencies_of "pool" calls); simpl; split; congruence.
  - unfold stats.print_summary. cbn [stats.sum_chains].
    rewrite lookup_omap, by_chain_fresh by exact Hk.
    pose proof (calls_on_known chain calls Hk) as K.
    destruct (calls_on chain calls) as [|c cs]; [reflexivity|].
    cbn [mbind option_bind]. unfold stats.chain_line, stats.chain_total.
    cbn [bucket_of stats.cs_swap_count stats.cs_pool_count
         stats.cs_total_latency].
    rewrite (count_type_total _ K). reflexivity.
Qed.

(** X4: whatever the event types passed, failed calls included, the
    counts of the buckets of [by_chain] keep adding up to the global
    counts: the empty bucket a failed call leaves adds nothing. *)
Theorem X4_counts_reconstruct_any_calls
    (calls : list (string * string * Q)) :
  counts_reconstruct (updates calls stats.init).
Proof using.
  apply updates_counts_reconstruct. apply counts_reconstruct_init.
Qed.

(** ** The gauges *)

(** What [record_latency] sets and what it leaves. *)
Lemma record_latency_sets (a c : string) (l : Q) (g : metrics.Gauges) :
  initialised g -> in_range l ->
  let g' := metrics.record_latency a c l g in
  swap_gauge g' c = Some l /\
  combined_gauge g' a c = Some l /\
  (forall c', c' <> c -> swap_gauge g' c' = swap_gauge g c') /\
  (forall a' c', (a', c') <> (a, c) ->
     combined_gauge g' a' c' = combined_gauge g a' c') /\
  (forall a' c', pool_gauge g' a' c' = pool_gauge g a' c') /\
  initialised g'.
Proof using.
  intros ([ms Hs] & [mp Hp] & [ma Ha]) Hl g'. subst g'.
  destruct (in_range_sink_stores a c l g Hl) as [-> _].
  unfold swap_gauge, combined_gauge, pool_gauge, initialised,
    metrics.set_swap_gauges.
  cbn [metrics._swap_latency metrics._pool_discovery_latency
       metrics._all_aggregator_latency].
  rewrite Hs, Hp, Ha. cbn [metrics.gauge_set].
  split; [apply lookup_insert_eq|]. split; [apply lookup_insert_eq|].
  split; [intros c' Hne; apply lookup_insert_ne; congruence|].
  split; [intros a' c' Hne; apply lookup_insert_ne; congruence|].
  split; [reflexivity|]. repeat split; eexists; reflexivity.
Qed.

(** X5: [record_latency] on initialised gauges and a latency in
    [0, 120000] sets the swap gauge of the chain and the combined gauge
    of (aggregator, chain) to that latency, whatever they held; the other
    label tuples of both gauges and the whole pool-discovery gauge stay
    as they were. *)
Theorem X5_record_latency_sets (a c : string) (l : Q) (g : metrics.Gauges) :
  initialised g -> in_range l ->
  let g' := metrics.record_latency a c l g in
  swap_gauge g' c = Some l /\
  combined_gauge g' a c = Some l /\
  (forall c', c' <> c -> swap_gauge g' c' = swap_gauge g c') /\
  (forall a' c', (a', c') <> (a, c) ->
     combined_gauge g' a' c' = combined_gauge g a' c') /\
  (forall a' c', pool_gauge g' a' c' = pool_gauge g a' c') /\
  initialised g'.
Proof using.
  exact (record_latency_sets a c l g).
Qed.

(** X6: [record_pool_discovery_latency] on initialised gauges and a
    latency in [0, 120000] sets the pool-discovery gauge and the combined
    gauge of (aggregator, chain) to that latency; the other label tuples
    and the whole swap gauge stay as they were.  On the combined gauge
    the later of a swap and a pool record wins. *)
Theorem X6_record_pool_sets (a c : string) (l : Q) (g : metrics.Gauges) :
  initialised g -> in_range l ->
  let g' := metrics.record_pool_discovery_latency a c l g in
  pool_gauge g' a c = Some l /\
  combined_gauge g' a c = Some l /\
  (forall a' c', (a', c') <> (a, c) ->
     pool_gauge g' a' c' = pool_gauge g a' c' /\
     combined_gauge g' a' c' = combined_gauge g a' c') /\
  (forall c', swap_gauge g' c' = swap_gauge g c') /\
  initialised g' /\
  (forall l0, in_range l0 ->
     combined_gauge (metrics.record_latency a c l0 g') a c = Some l0 /\
     combined_gauge
       (metrics.record_pool_discovery_latency a c l
          (metrics.record_latency a c l0 g)) a c = Some l).
Proof using.
  intros Hg Hl g'.
  assert (G : forall g0, initialised g0 ->
     let g1 := metrics.record_pool_discovery_latency a c l g0 in
     pool_gauge g1 a c = Some l /\
     combined_gauge g1 a c = Some l /\
     (forall a' c', (a', c') <> (a, c) ->
        pool_gauge g1 a' c' = pool_gauge g0 a' c' /\
        combined_gauge g1 a' c' = combined_gauge g0 a' c') /\
     (forall c', swap_gauge g1 c' = swap_gauge g0 c') /\
     initialised g1).
  { intros g0 ([ms Hs] & [mp Hp] & [ma Ha]) g1. subst g1.
    destruct (in_range_sink_stores a c l g0 Hl) as [_ ->].
    unfold swap_gauge, combined_gauge, pool_gauge, initialised,
      metrics.set_pool_gauges.
    cbn [metrics._swap_latency metrics._pool_discovery_latency
         metrics._all_aggregator_latency].
    rewrite Hs, Hp, Ha. cbn [metrics.gauge_set].
    split; [apply lookup_insert_eq|]. split; [apply lookup_insert_eq|].
    split; [intros a' c' Hne; split; apply lookup_insert_ne; congruence|].
    split; [reflexivity|]. repeat split; eexists; reflexivity. }
  destruct (G g Hg) as (G1 & G2 & G3 & G4 & G5). fold g' in G1, G2, G3, G4, G5.
  repeat (split; [assumption|]).
  intros l0 Hl0. split.
  - apply (record_latency_sets a c l0 g' G5 Hl0).
  - apply G. apply (record_latency_sets a c l0 g Hg Hl0).
Qed.

(** X7: a gauge that is [None] stays [None]: before [init_metrics] the
    two record functions change nothing, whatever the latency. *)
Theorem X7_uninitialised_gauges (a c : string) (l : Q) (g : metrics.Gauges) :
  let g1 := metrics.record_latency a c l g in
  let g2 := metrics.record_pool_discovery_latency a c l g in
  (metrics._swap_latency g = None ->
     metrics._swap_latency g1 = None /\ metrics._swap_latency g2 = None) /\
  (metrics._pool_discovery_latency g = None ->
     metrics._pool_discovery_latency g1 = None /\
     metrics._pool_discovery_latency g2 = None) /\
  (metrics._all_aggregator_latency g = None ->
     metrics._all_aggregator_latency g1 = None /\
     metrics._all_aggregator_latency g2 = None) /\
  metrics.record_latency a c l metrics.unset = metrics.unset /\
  metrics.record_pool_discovery_latency a c l metrics.unset = metrics.unset.
Proof using.
  unfold metrics.record_latency, metrics.record_pool_discovery_latency,
    metrics.set_swap_gauges, metrics.set_pool_gauges.
  destruct (Qltb l 0 || Qltb 120000 l); cbn;
    repeat split; try assumption;
    match goal with H : _ = None |- _ => rewrite H; reflexivity end.
Qed.

(** ** The colour classes of a latency *)

Lemma py_int_lt (l : Q) (k : Z) :
  (0 < k)%Z -> Qltb l (inject_Z k) = true <-> (py_int l < k)%Z.
Proof using.
  intros Hk. rewrite Qltb_true. destruct l as [p q].
  unfold Qlt, py_int. simpl. rewrite Z.mul_1_r.
  pose proof (Pos2Z.is_pos q) as Hq.
  destruct (Z_lt_le_dec p 0) as [Hneg|Hpos].
  - assert (p ÷ Z.pos q <= 0)%Z.
    { rewrite <- (Z.opp_involutive p), Z.quot_opp_l by lia.
      assert (0 <= (- p) ÷ Z.pos q)%Z by (apply Z.quot_pos; lia). lia. }
    split; intros _; nia.
  - rewrite Z.quot_div_nonneg by lia. split; intros H.
    + apply Z.div_lt_upper_bound; lia.
    + destruct (Z_lt_le_dec p (k * Z.pos q)) as [Hlt|Hge]; [exact Hlt|].
      exfalso. assert (k <= p / Z.pos q)%Z
        by (apply Z.div_le_lower_bound; lia). lia.
Qed.

(** X8: the colour class [format_latency_color] prints agrees with the
    whole milliseconds it prints next to it: Excellent below 100, Good
    from 100 below 300, Medium from 300 below 1000, Slow from 1000. *)
Theorem X8_label_agrees_with_shown (l : Q) :
  let shown := fst (utils.format_latency_color l) in
  let class := snd (utils.format_latency_color l) in
  shown = py_int l /\
  (class = utils.Excellent <-> (shown < 100)%Z) /\
  (class = utils.Good <-> (100 <= shown < 300)%Z) /\
  (class = utils.Medium <-> (300 <= shown < 1000)%Z) /\
  (class = utils.Slow <-> (1000 <= shown)%Z).
Proof using.
  cbn zeta. unfold utils.format_latency_color.
  pose proof (py_int_lt l 100 eq_refl) as H1.
  pose proof (py_int_lt l 300 eq_refl) as H2.
  pose proof (py_int_lt l 1000 eq_refl) as H3.
  change (inject_Z 100) with 100 in H1.
  change (inject_Z 300) with 300 in H2.
  change (inject_Z 1000) with 1000 in H3.
  destruct (Qltb l 100) eqn:E1; [|destruct (Qltb l 300) eqn:E2;
    [|destruct (Qltb l 1000) eqn:E3]]; cbn [fst snd];
  repeat split; try discriminate; try lia; intros;
    try (exfalso; intuition lia); intuition (try lia; try discriminate).
Qed.

(** ** The decoders on well-formed records *)








Lemma step_not_dict (receive_time : Q) (debug : bool) (x : value)
    (w : World) :
  (forall d, x <> VDict d) ->
  swap_step receive_time debug x w = Raised AttributeError w /\
  pool_event_step receive_time debug x w = Raised AttributeError w.
Proof.
  intros H. destruct x; try (split; reflexivity).
  exfalso. exact (H d eq_refl).
Qed.

(** X12: a payload that is not a list.  A falsy payload (null, false, 0,
    the empty string, list or object) is ignored; a non-empty object or
    string raises [AttributeError], a non-zero number or [true] raises
    [TypeError], and a batch whose first element is not an object raises
    [AttributeError]; in each case nothing was recorded. *)
Theorem X12_payload_not_a_batch (receive_time : Q) (debug : bool)
    (w : World) :
  let swap data := handle_swap_trade data receive_time debug w in
  let pool data := handle_new_pool data receive_time debug w in
  (forall data, truthy data = false ->
     swap data = Ok tt w /\ pool data = Ok tt w) /\
  (forall k v d,
     swap (VDict ((k, v) :: d)) = Raised AttributeError w /\
     pool (VDict ((k, v) :: d)) = Raised AttributeError w) /\
  (forall c s,
     swap (VStr (String c s)) = Raised AttributeError w /\
     pool (VStr (String c s)) = Raised AttributeError w) /\
  (forall q, truthy (VNum q) = true ->
     swap (VNum q) = Raised TypeError w /\
     pool (VNum q) = Raised TypeError w) /\
  (swap (VBool true) = Raised TypeError w /\
   pool (VBool true) = Raised TypeError w) /\
  (forall x rest, (forall d, x <> VDict d) ->
     swap (VList (x :: rest)) = Raised AttributeError w /\
     pool (VList (x :: rest)) = Raised AttributeError w).
Proof.
  cbn zeta. unfold handle_swap_trade, handle_new_pool.
  split; [|split; [|split; [|split; [|split]]]].
  - intros data ->. split; reflexivity.
  - intros k v d. split; reflexivity.
  - intros c s. split; reflexivity.
  - intros q ->. split; reflexivity.
  - split; reflexivity.
  - intros x rest Hx. cbn [truthy negb iter].
    destruct (step_not_dict receive_time debug x w Hx) as [E1 E2].
    rewrite !(bind_ok (ret (x :: rest)) _ w w _ eq_refl).
    cbn [for_each].
    rewrite (bind_raised _ _ _ _ _ E1), (bind_raised _ _ _ _ _ E2).
    split; reflexivity.
Qed.

(** X13: the nested list of a pool item whose chain field is a string.
    Without a pool address on the item: no ['p'] key or an empty list
    does nothing, a null ['p'] raises [TypeError] at the loop.  With a
    pool address and a falsy ['p'] (absent, null, empty) the item itself
    is decoded as the one entry, its own open-time as the default. *)
Theorem X13_nested_list_edges (receive_time : Q) (debug : bool)
    (d : list (string * value)) (c : string) (w : World) :
  chain_raw_of d = VStr c ->
  (dict_has "pa" d = false ->
     (dict_get "p" d = None \/ dict_get "p" d = Some (VList []) ->
        pool_event_step receive_time debug (VDict d) w = Ok tt w) /\
     (dict_get "p" d = Some VNone ->
        pool_event_step receive_time debug (VDict d) w
        = Raised TypeError w)) /\
  (dict_has "pa" d = true ->
   truthy (dict_get_default "p" (VList []) d) = false ->
   pool_event_step receive_time debug (VDict d) w =
   bind (pool_step receive_time debug (utils.normalize c)
           (dict_get_default "ot" VNone d) (VDict d))
     (fun _ => ret tt) w).
Proof.
  intros Hc. unfold chain_raw_of in Hc. unfold pool_event_step.
  rewrite Hc. cbn [utils.get_chain_name lift].
  rewrite (bind_ok (ret (utils.normalize c)) _ w w _ eq_refl).
  split.
  - intros Hpa. rewrite Hpa, andb_false_r. split.
    + intros [Hp|Hp]; unfold dict_get_default; rewrite Hp; reflexivity.
    + intros Hp. unfold dict_get_default. rewrite Hp. reflexivity.
  - intros Hpa Hp. rewrite Hpa, Hp. reflexivity.
Qed.

(** ** What a run of the decoders and of the loops keeps *)

Section Keeps.

Context (R : World -> World -> Prop).
Hypothesis R_refl : forall w, R w w.
Hypothesis R_trans : forall w1 w2 w3, R w1 w2 -> R w2 w3 -> R w1 w3.
Hypothesis R_log :
  forall w e,
    R w (mkWorld (gauges w) (stats_obj w) (ticks w) (trace w ++ [e])).
Hypothesis R_tick :
  forall w, R w (mkWorld (gauges w) (stats_obj w) (S (ticks w)) (trace w)).

Lemma keeps_ret {A} (a : A) : keeps R (ret a).
Proof. intros w. apply R_refl. Qed.

Lemma keeps_raise {A} (e : exn) : keeps R (@raise A e).
Proof. intros w. apply R_refl. Qed.

Lemma keeps_bind {A B} (m : M A) (k : A -> M B) :
  keeps R m -> (forall a, keeps R (k a)) -> keeps R (bind m k).
Proof.
  intros Hm Hk w. unfold bind. specialize (Hm w).
  destruct (m w) as [a w1|e w1]; simpl in Hm.
  - eapply R_trans; [exact Hm|apply Hk].
  - exact Hm.
Qed.

Lemma keeps_emit (e : Event) : keeps R (emit e).
Proof. intros w. apply R_log. Qed.

Lemma keeps_print (l : line) : keeps R (print l).
Proof. apply keeps_emit. Qed.

Lemma keeps_print_summary : keeps R print_summary.
Proof. intros w. apply R_log. Qed.

Lemma keeps_lift {A} (r : exn + A) : keeps R (lift r).
Proof. destruct r; [apply keeps_raise|apply keeps_ret]. Qed.

Lemma keeps_when (b : bool) (m : M unit) : keeps R m -> keeps R (when b m).
Proof. intros H. destruct b; [exact H|apply keeps_ret]. Qed.

Lemma keeps_for_each {A} (body : A -> M unit) (xs : list A) :
  (forall x, keeps R (body x)) -> keeps R (for_each body xs).
Proof.
  intros Hb. induction xs as [|x xs IH]; simpl.
  - apply keeps_ret.
  - apply keeps_bind; [apply Hb|intros _; exact IH].
Qed.

Lemma keeps_py_get (k : string) (dflt v : value) : keeps R (py_get k dflt v).
Proof. destruct v; first [apply keeps_raise|apply keeps_ret]. Qed.

Lemma keeps_startswith (p : string) (a : value) : keeps R (startswith p a).
Proof. destruct a; first [apply keeps_raise|apply keeps_ret]. Qed.

Lemma keeps_short8 (a : value) : keeps R (short8 a).
Proof.
  destruct a; simpl; try apply keeps_raise; try apply keeps_ret.
  destruct (8 <? length d)%nat; [apply keeps_raise|apply keeps_ret].
Qed.

Lemma keeps_iter (v : value) : keeps R (iter v).
Proof. destruct v; first [apply keeps_raise|apply keeps_ret]. Qed.

Lemma keeps_time_time : keeps R time_time.
Proof. intros w. apply R_tick. Qed.

Lemma keeps_calculate_latency (ts : value) : keeps R (calculate_latency ts).
Proof.
  unfold calculate_latency.
  apply keeps_bind.
  - destruct (truthy ts); [|apply keeps_ret].
    apply keeps_bind; [apply keeps_time_time|intros; apply keeps_ret].
  - intros o. apply keeps_bind; [apply keeps_emit|intros; apply keeps_ret].
Qed.

Ltac keeps_step :=
  first
    [ apply keeps_raise
    | apply keeps_print
    | apply keeps_lift
    | apply keeps_py_get
    | apply keeps_startswith
    | apply keeps_short8
    | apply keeps_iter
    | apply keeps_calculate_latency
    | apply keeps_ret
    | apply keeps_when
    | solve [auto]
    | apply keeps_bind; [|intros ?]
    | match goal with
      | |- keeps _ (if ?b then _ else _) => destruct b
      | |- keeps _ (match ?o with Some _ => _ | None => _ end) =>
          destruct o
      | |- keeps _ (match ?p with (_, _) => _ end) => destruct p
      end ].

Section Swap.

Hypothesis R_record : forall a c l, keeps R (record_latency a c l).
Hypothesis R_update : forall c l, keeps R (stats_update "swap" c l).

Lemma keeps_swap_step (receive_time : Q) (debug : bool) (trade : value) :
  keeps R (swap_step receive_time debug trade).
Proof.
  destruct trade; try apply keeps_raise.
  unfold swap_step. repeat keeps_step.
Qed.

Lemma keeps_handle_swap_trade (data : value) (receive_time : Q)
    (debug : bool) :
  keeps R (handle_swap_trade data receive_time debug).
Proof.
  unfold handle_swap_trade. destruct (negb (truthy data)).
  - apply keeps_ret.
  - apply keeps_bind; [apply keeps_iter|]. intros trades.
    apply keeps_for_each. intros trade. apply keeps_swap_step.
Qed.

End Swap.

Section Pool.

Hypothesis R_record :
  forall a c l, keeps R (record_pool_discovery_latency a c l).
Hypothesis R_update : forall c l, keeps R (stats_update "pool" c l).

Lemma keeps_pool_step (receive_time : Q) (debug : bool) (chain : string)
    (open_time pool : value) :
  keeps R (pool_step receive_time debug chain open_time pool).
Proof.
  destruct pool; try apply keeps_raise.
  unfold pool_step. repeat keeps_step.
Qed.

Lemma keeps_handle_new_pool (data : value) (receive_time : Q)
    (debug : bool) :
  keeps R (handle_new_pool data receive_time debug).
Proof.
  unfold handle_new_pool. destruct (negb (truthy data)).
  - apply keeps_ret.
  - apply keeps_bind; [apply keeps_iter|]. intros events.
    apply keeps_for_each. intros ev.
    destruct ev; try apply keeps_raise. unfold pool_event_step.
    apply keeps_bind; [apply keeps_lift|]. intros chain.
    apply keeps_bind; [apply keeps_iter|]. intros entries.
    apply keeps_for_each. intros pool. apply keeps_pool_step.
Qed.

End Pool.

Section Loops.

Hypothesis R_record_swap : forall a c l, keeps R (record_latency a c l).
Hypothesis R_update_swap : forall c l, keeps R (stats_update "swap" c l).
Hypothesis R_record_pool :
  forall a c l, keeps R (record_pool_discovery_latency a c l).
Hypothesis R_update_pool : forall c l, keeps R (stats_update "pool" c l).

Lemma keeps_listen_step (message_count : Z) (debug : bool) (m : message) :
  keeps R (listen_step message_count debug m).
Proof.
  unfold listen_step.
  apply keeps_bind; [apply keeps_time_time|]. intros receive_time.
  destruct m as [|e|data];
    [apply keeps_when; apply keeps_print|apply keeps_raise|].
  apply keeps_bind; [apply keeps_py_get|]. intros channel.
  apply keeps_bind; [apply keeps_py_get|]. intros payload.
  destruct (negb (truthy channel)); [apply keeps_when; apply keeps_print|].
  destruct (is_str "ack" channel); [apply keeps_print|].
  apply keeps_bind.
  - destruct (is_str "new_pair_update" channel);
      [apply keeps_handle_swap_trade; assumption|].
    destruct (is_str "new_pool_info" channel);
      [apply keeps_handle_new_pool; assumption|].
    apply keeps_ret.
  - intros _. apply keeps_when. apply keeps_print_summary.
Qed.

Lemma keeps_listen_loop (debug : bool) (frames : list message)
    (message_count : Z) :
  keeps R (listen_loop message_count debug frames).
Proof.
  revert message_count. induction frames as [|m frames IH];
    intros message_count; simpl.
  - apply keeps_ret.
  - apply keeps_bind; [apply keeps_listen_step|]. intros _. apply IH.
Qed.

Lemma keeps_listen_to_gmgn (debug : bool) (frames : list message)
    (closed_with_error : bool) (w : World) :
  R w (listen_to_gmgn debug frames closed_with_error w).
Proof.
  unfold listen_to_gmgn.
  pose proof (keeps_listen_loop debug frames 0 w) as H.
  destruct (listen_loop 0 debug frames w) as [[] w1|e w1]; simpl in H.
  - destruct closed_with_error; [|exact H].
    eapply R_trans; [exact H|apply (keeps_print ConnectionClosedLine)].
  - eapply R_trans; [exact H|apply (keeps_print (HandlerErrorLine e))].
Qed.

Lemma keeps_shutdown (m : Monitor) : R (world m) (world (shutdown m)).
Proof.
  unfold shutdown. cbn [world].
  apply (keeps_bind print_summary (fun _ => print Stopped));
    [apply keeps_print_summary|intros _; apply keeps_print].
Qed.

Lemma keeps_run_loop (debug : bool) (turns : list turn) (m : Monitor) :
  R (world m) (world (run_loop debug turns m)).
Proof.
  revert m. induction turns as [|t turns IH]; intros m; simpl.
  - apply R_refl.
  - set (w0 := world_of (print Connecting (world m))).
    assert (H0 : R (world m) w0) by apply (keeps_print Connecting).
    set (m1 := match what t with
               | Fails => _
               | Listens frames closed_with_error => _
               end).
    assert (H1 : R (world m) (world m1)).
    { subst m1. destruct (what t) as [|frames ce]; cbn [world].
      - eapply R_trans; [exact H0|apply (keeps_print ConnectionErrorLine)].
      - eapply R_trans; [exact H0|apply keeps_listen_to_gmgn]. }
    destruct (stop_after_try t).
    + eapply R_trans; [exact H1|apply keeps_shutdown].
    + match goal with
      | |- context [run_loop debug turns ?m2] =>
          assert (H2 : R (world m) (world m2))
            by (eapply R_trans;
                [exact H1|apply (keeps_print (Reconnecting _))]);
          destruct (stop_after_sleep t);
          [eapply R_trans; [exact H2|apply keeps_shutdown]
          |eapply R_trans; [exact H2|apply IH]]
      end.
Qed.

End Loops.

End Keeps.

Lemma same_pool_side_record (a c : string) (l : Q) :
  keeps same_pool_side (record_latency a c l).
Proof.
  intros w. unfold same_pool_side, pool_side. cbn [record_latency world_of
    gauges stats_obj]. unfold metrics.record_latency.
  destruct (Qltb l 0 || Qltb 120000 l); reflexivity.
Qed.

Lemma same_pool_side_update (c : string) (l : Q) :
  keeps same_pool_side (stats_update "swap" c l).
Proof.
  intros w. rewrite stats_update_known by (left; reflexivity).
  unfold same_pool_side, pool_side. cbn [world_of gauges stats_obj].
  rewrite update_known by (left; reflexivity). reflexivity.
Qed.

Lemma same_swap_side_record (a c : string) (l : Q) :
  keeps same_swap_side (record_pool_discovery_latency a c l).
Proof.
  intros w. unfold same_swap_side, swap_side.
  cbn [record_pool_discovery_latency world_of gauges stats_obj].
  unfold metrics.record_pool_discovery_latency.
  destruct (Qltb l 0 || Qltb 120000 l); reflexivity.
Qed.

Lemma same_swap_side_update (c : string) (l : Q) :
  keeps same_swap_side (stats_update "pool" c l).
Proof.
  intros w. rewrite stats_update_known by (right; reflexivity).
  unfold same_swap_side, swap_side. cbn [world_of gauges stats_obj].
  rewrite update_known by (right; reflexivity). reflexivity.
Qed.

(** X14: the swap decoder never touches the pool side of the shared
    state (the pool-discovery gauge, the pool count, sum, minimum and
    maximum), and the pool decoder never touches the swap side, whatever
    the batch and whether or not the decoder raises. *)
Theorem X14_decoders_frame (data : value) (receive_time : Q) (debug : bool)
    (w : World) :
  pool_side (world_of (handle_swap_trade data receive_time debug w))
    = pool_side w /\
  swap_side (world_of (handle_new_pool data receive_time debug w))
    = swap_side w.
Proof.
  split.
  - apply (keeps_handle_swap_trade same_pool_side); try reflexivity.
    + unfold same_pool_side. intros w1 w2 w3 H1 H2. congruence.
    + apply same_pool_side_record.
    + apply same_pool_side_update.
  - apply (keeps_handle_new_pool same_swap_side); try reflexivity.
    + unfold same_swap_side. intros w1 w2 w3 H1 H2. congruence.
    + apply same_swap_side_record.
    + apply same_swap_side_update.
Qed.

Lemma grows_refl (w : World) : grows w w.
Proof.
  unfold grows. repeat split; try lia; try tauto.
  exists []. symmetry. apply app_nil_r.
Qed.

Lemma grows_trans (w1 w2 w3 : World) :
  grows w1 w2 -> grows w2 w3 -> grows w1 w3.
Proof.
  intros (A1 & A2 & A3 & (e1 & A4) & A5 & A6 & A7 & A8)
         (B1 & B2 & B3 & (e2 & B4) & B5 & B6 & B7 & B8).
  unfold grows. repeat split; try lia; auto.
  exists (e1 ++ e2)%list. rewrite B4, A4. symmetry. apply app_assoc.
Qed.

Lemma grows_log (w : World) (e : Event) :
  grows w (mkWorld (gauges w) (stats_obj w) (ticks w) (trace w ++ [e])).
Proof.
  unfold grows. cbn. repeat split; try lia; try tauto. exists [e].
  reflexivity.
Qed.

Lemma grows_tick (w : World) :
  grows w (mkWorld (gauges w) (stats_obj w) (S (ticks w)) (trace w)).
Proof.
  unfold grows. cbn. repeat split; try lia; try tauto. exists [].
  symmetry. apply app_nil_r.
Qed.

Lemma gauge_set_keeps_labels {K} `{Countable K} (k k' : K) (x : Q)
    (g : option (gmap K Q)) :
  is_Some (match g with Some m => m !! k' | None => None end) ->
  is_Some (match metrics.gauge_set k x g with
           | Some m => m !! k'
           | None => None
           end).
Proof.
  destruct g as [m|]; cbn; [|tauto]. intros Hk.
  destruct (decide (k = k')) as [->|Hne].
  - rewrite lookup_insert_eq. eexists. reflexivity.
  - rewrite lookup_insert_ne by exact Hne. exact Hk.
Qed.

Lemma grows_gauges (g g' : metrics.Gauges) (w : World) (e : Event) :
  (forall c, is_Some (swap_gauge g c) -> is_Some (swap_gauge g' c)) ->
  (forall a c, is_Some (pool_gauge g a c) -> is_Some (pool_gauge g' a c)) ->
  (forall a c, is_Some (combined_gauge g a c) ->
               is_Some (combined_gauge g' a c)) ->
  gauges w = g ->
  grows w (mkWorld g' (stats_obj w) (ticks w) (trace w ++ [e])).
Proof.
  intros H1 H2 H3 <-. unfold grows. cbn.
  repeat split; try lia; try tauto; auto. exists [e]. reflexivity.
Qed.

Lemma grows_record_swap (a c : string) (l : Q) :
  keeps grows (record_latency a c l).
Proof.
  intros w. cbn [record_latency world_of].
  apply (grows_gauges (gauges w)); [| | |reflexivity];
    unfold metrics.record_latency, metrics.set_swap_gauges,
      swap_gauge, pool_gauge, combined_gauge;
    destruct (Qltb l 0 || Qltb 120000 l); cbn; intros; auto;
    apply gauge_set_keeps_labels; assumption.
Qed.

Lemma grows_record_pool (a c : string) (l : Q) :
  keeps grows (record_pool_discovery_latency a c l).
Proof.
  intros w. cbn [record_pool_discovery_latency world_of].
  apply (grows_gauges (gauges w)); [| | |reflexivity];
    unfold metrics.record_pool_discovery_latency, metrics.set_pool_gauges,
      swap_gauge, pool_gauge, combined_gauge;
    destruct (Qltb l 0 || Qltb 120000 l); cbn; intros; auto;
    apply gauge_set_keeps_labels; assumption.
Qed.

Lemma grows_update (event_type c : string) (l : Q) :
  event_type = "swap" \/ event_type = "pool" ->
  keeps grows (stats_update event_type c l).
Proof.
  intros Hty w. rewrite stats_update_known by exact Hty.
  rewrite update_known by exact Hty.
  unfold grows. cbn [world_of gauges stats_obj ticks trace snd].
  assert (K : forall chain,
            is_Some (stats.by_chain (stats_obj w) !! chain) ->
            is_Some
              (<[c := bumped event_type l
                        (default stats.new_bucket
                           (stats.by_chain (stats_obj w) !! c))]>
                 (stats.by_chain (stats_obj w)) !! chain)).
  { intros chain Hc. destruct (decide (c = chain)) as [->|Hne].
    - rewrite lookup_insert_eq. eexists. reflexivity.
    - rewrite lookup_insert_ne by exact Hne. exact Hc. }
  destruct Hty as [-> | ->]; cbn;
    (repeat split; try lia; try tauto; auto;
     eexists; reflexivity).
Qed.

(** X15: the listening loop and the reconnect loop take nothing back:
    over any frames and any turns the swap and pool counts and the number
    of clock readings do not decrease, the log is only extended, every
    chain keeps its bucket and every gauge its label tuples; the
    statistics are not reset by a reconnect. *)
Theorem X15_loops_grow (debug : bool) (frames : list message)
    (closed_with_error : bool) (turns : list turn) (w : World)
    (m : Monitor) :
  grows w (listen_to_gmgn debug frames closed_with_error w) /\
  grows (world m) (world (run_loop debug turns m)).
Proof.
  split.
  - apply (keeps_listen_to_gmgn grows grows_refl grows_trans grows_log
             grows_tick grows_record_swap
             (fun c l => grows_update "swap" c l (or_introl eq_refl))
             grows_record_pool
             (fun c l => grows_update "pool" c l (or_intror eq_refl))).
  - apply (keeps_run_loop grows grows_refl grows_trans grows_log
             grows_tick grows_record_swap
             (fun c l => grows_update "swap" c l (or_introl eq_refl))
             grows_record_pool
             (fun c l => grows_update "pool" c l (or_intror eq_refl))).
Qed.

(** ** The listening loop: composition and frames not dispatched *)

Lemma bind_assoc {A B C} (m : M A) (f : A -> M B) (g : B -> M C)
    (w : World) :
  bind (bind m f) g w = bind m (fun a => bind (f a) g) w.
Proof. unfold bind. destruct (m w); reflexivity. Qed.

Lemma listen_loop_app (debug : bool) (frames1 frames2 : list message)
    (message_count : Z) (w : World) :
  listen_loop message_count debug (frames1 ++ frames2)%list w =
  bind (listen_loop message_count debug frames1)
    (fun _ =>
       listen_loop (message_count + Z.of_nat (length frames1)) debug
         frames2) w.
Proof.
  revert message_count w.
  induction frames1 as [|m frames1 IH]; intros c w.
  - cbn [app length listen_loop Z.of_nat]. rewrite Z.add_0_r. reflexivity.
  - cbn [app length listen_loop]. rewrite bind_assoc.
    rewrite Nat2Z.inj_succ.
    replace (c + Z.succ (Z.of_nat (length frames1)))%Z
      with (c + 1 + Z.of_nat (length frames1))%Z by lia.
    destruct (listen_step (c + 1) debug m w) as [[] w1|e w1] eqn:E.
    + rewrite !(bind_ok _ _ _ _ _ E). apply IH.
    + rewrite !(bind_raised _ _ _ _ _ E). reflexivity.
Qed.

(** X16: the listening loop over two runs of frames is the loop over the
    first, then, if it returned, the loop over the second with the
    counter advanced by the number of frames of the first.  Once a frame
    has raised, the frames behind it are never looked at: the loop and
    [listen_to_gmgn] end as they do without them. *)
Theorem X16_listen_loop_composes (debug : bool)
    (frames1 frames2 : list message) (message_count : Z) (w : World) :
  (forall w1,
     listen_loop message_count debug frames1 w = Ok tt w1 ->
     listen_loop message_count debug (frames1 ++ frames2)%list w =
     listen_loop (message_count + Z.of_nat (length frames1)) debug
       frames2 w1) /\
  (forall e w1,
     listen_loop message_count debug frames1 w = Raised e w1 ->
     listen_loop message_count debug (frames1 ++ frames2)%list w
     = Raised e w1) /\
  (forall e w1 closed closed',
     listen_loop 0 debug frames1 w = Raised e w1 ->
     listen_to_gmgn debug (frames1 ++ frames2)%list closed w =
     listen_to_gmgn debug frames1 closed' w).
Proof.
  split; [|split].
  - intros w1 H. rewrite listen_loop_app, (bind_ok _ _ _ _ _ H).
    reflexivity.
  - intros e w1 H. rewrite listen_loop_app, (bind_raised _ _ _ _ _ H).
    reflexivity.
  - intros e w1 closed closed' H. unfold listen_to_gmgn.
    rewrite listen_loop_app, (bind_raised _ _ _ _ _ H), H. reflexivity.
Qed.

(** X17: frames that are not handed to a decoder.  A frame on which
    [json.loads] raises [JSONDecodeError], a frame without a truthy
    channel and an ack are passed over: the loop goes on, gauges and
    statistics are as they were, one clock reading was made and no
    summary rendered.  A frame with another channel than the two decoded
    ones leaves gauges and statistics alone too.  A frame that decodes to
    something else than an object raises [AttributeError], and a frame on
    which [json.loads] raises another exception raises that exception:
    both leave the loop, one clock reading made and nothing else
    changed. *)
Theorem X17_frames_not_dispatched (message_count : Z) (debug : bool)
    (m : message) (w : World) :
  ((m = BadJson \/ exists d, m = Json (VDict d)) ->
   dispatched m = false ->
   exists w',
     listen_step message_count debug m w = Ok tt w' /\
     gauges w' = gauges w /\ stats_obj w' = stats_obj w /\
     ticks w' = S (ticks w) /\
     (reaches_check m = false ->
      summaries (trace w') = summaries (trace w))) /\
  (forall v, m = Json v -> (forall d, v <> VDict d) ->
     listen_step message_count debug m w =
     Raised AttributeError
       (mkWorld (gauges w) (stats_obj w) (S (ticks w)) (trace w))) /\
  (forall e frames,
     m = Unloadable e ->
     listen_step message_count debug m w =
       Raised e (mkWorld (gauges w) (stats_obj w) (S (ticks w)) (trace w))
     /\
     listen_loop (message_count - 1) debug (m :: frames) w =
       Raised e (mkWorld (gauges w) (stats_obj w) (S (ticks w)) (trace w))).
Proof.
  split; [|split].
  - intros Hm Hd. unfold listen_step.
    erewrite (bind_ok time_time) by reflexivity.
    destruct Hm as [->|[d ->]].
    + destruct debug; eexists; (split; [reflexivity|]); cbn;
        repeat split; intros; rewrite ?summaries_app; simpl; lia.
    + cbn [py_get]. do 2 (erewrite (bind_ok (ret _)) by reflexivity).
      cbn [dispatched] in Hd. cbn [reaches_check].
      set (channel := dict_get_default "channel" VNone d) in *.
      apply orb_false_iff in Hd as [Hd1 Hd2]. rewrite Hd1, Hd2.
      destruct (truthy channel); cbn [negb andb].
      * destruct (is_str "ack" channel); cbn [negb].
        -- eexists. split; [reflexivity|]. cbn.
           repeat split. intros _. rewrite summaries_app. simpl. lia.
        -- erewrite (bind_ok (ret _)) by reflexivity.
           destruct (message_count mod 50 =? 0)%Z; eexists;
             (split; [reflexivity|]); cbn; repeat split; discriminate.
      * destruct debug; eexists; (split; [reflexivity|]); cbn;
          repeat split; intros; rewrite ?summaries_app; simpl; lia.
  - intros v -> Hv. unfold listen_step.
    erewrite (bind_ok time_time) by reflexivity.
    destruct v; try reflexivity. exfalso. exact (Hv d eq_refl).
  - intros e frames ->. split; [reflexivity|].
    cbn [listen_loop]. replace (message_count - 1 + 1)%Z with message_count
      by lia.
    reflexivity.
Qed.

(** ** The reconnect loop: delays and shutdown *)

Lemma valid_delay_next (d : Z) :
  valid_delay d -> valid_delay (Z.min (d * 2) max_reconnect_delay).
Proof using.
  unfold valid_delay, max_reconnect_delay.
  intros [->|[->|[->|[->| ->]]]]; cbn; tauto.
Qed.

Lemma run_loop_delays (debug : bool) (turns : list turn) (m : Monitor) :
  valid_delay (reconnect_delay m) -> Forall valid_delay (slept m) ->
  valid_delay (reconnect_delay (run_loop debug turns m)) /\
  Forall valid_delay (slept (run_loop debug turns m)) /\
  (length (slept (run_loop debug turns m))
   <= length (slept m) + length turns)%nat.
Proof.
  revert m. induction turns as [|t turns IH]; intros m Hd Hs.
  - cbn [run_loop length]. repeat split; [exact Hd|exact Hs|lia].
  - cbn [run_loop length].
    set (m1 := match what t with
               | Fails => _
               | Listens frames closed_with_error => _
               end).
    assert (H1 : valid_delay (reconnect_delay m1) /\ slept m1 = slept m).
    { subst m1. destruct (what t); cbn; split; try reflexivity;
        [exact Hd|left; reflexivity]. }
    destruct H1 as [Hd1 Hs1].
    destruct (stop_after_try t).
    + cbn. rewrite Hs1. repeat split; [exact Hd1|exact Hs|lia].
    + match goal with
      | |- context [run_loop debug turns ?m2] =>
          assert (Hd2 : valid_delay (reconnect_delay m2))
            by (apply valid_delay_next; exact Hd1);
          assert (Hs2 : Forall valid_delay (slept m2))
            by (cbn [slept]; rewrite Hs1;
                apply Forall_app; split;
                [exact Hs|constructor; [exact Hd1|constructor]]);
          assert (Hl2 : length (slept m2) = S (length (slept m)))
            by (cbn [slept]; rewrite Hs1, length_app; simpl; lia);
          destruct (stop_after_sleep t);
          [cbn [shutdown reconnect_delay slept] in Hd2, Hs2, Hl2 |- *
          |destruct (IH m2 Hd2 Hs2) as (I1 & I2 & I3)]
      end.
      * repeat split; [assumption|assumption|]. rewrite Hl2. lia.
      * repeat split; [assumption|assumption|].
        etransitivity; [exact I3|]. rewrite Hl2. lia.
Qed.

(** X18: whatever the turns, the monitor only ever sleeps 5, 10, 20, 40
    or 60 seconds, the delay it holds is one of these, and it sleeps at
    most once per turn. *)
Theorem X18_delays (debug : bool) (g : metrics.Gauges) (stop : bool)
    (turns : list turn) :
  let r := run_gmgn_monitor debug g stop turns in
  valid_delay (reconnect_delay r) /\
  Forall valid_delay (slept r) /\
  (length (slept r) <= length turns)%nat.
Proof.
  cbn zeta. unfold run_gmgn_monitor. destruct stop.
  - cbn. repeat split; [left; reflexivity|constructor|lia].
  - apply (run_loop_delays debug turns
             (mkMonitor 5 [] (mkWorld g stats.init 0 []) false)).
    + left. reflexivity.
    + constructor.
Qed.

Lemma shutdown_world (m : Monitor) :
  world (shutdown m) =
  mkWorld (gauges (world m)) (stats_obj (world m)) (ticks (world m))
    ((trace (world m)
      ++ [CallPrintSummary (stats.print_summary (stats_obj (world m)))])
     ++ [Print Stopped]).
Proof. reflexivity. Qed.

Lemma run_loop_stop_turn (debug : bool) (t : turn) (post : list turn)
    (m : Monitor) :
  stops t ->
  run_loop debug (t :: post) m = run_loop debug [t] m /\
  exists m', run_loop debug [t] m = shutdown m'.
Proof.
  intros Hs. cbn [run_loop].
  destruct (stop_after_try t) eqn:E1.
  - split; [reflexivity|]. eexists. reflexivity.
  - destruct Hs as [Hs|Hs]; [congruence|]. rewrite Hs.
    split; [reflexivity|]. eexists. reflexivity.
Qed.

(** X19: shutdown.  When the stop event is seen at a turn, after turns
    without it, the turns behind are never run, the monitor ends
    stopped, and the last things it does are to render one summary, of
    the statistics as they are then, and to print the stop line.  When
    the stop event is set before the first turn, nothing is connected or
    slept and the summary is that of the empty statistics. *)
Theorem X19_shutdown (debug : bool) (pre : list turn) (t : turn)
    (post : list turn) (m : Monitor) (g : metrics.Gauges) :
  Forall no_stop pre -> stops t ->
  let r := run_loop debug (pre ++ t :: post)%list m in
  r = run_loop debug (pre ++ [t])%list m /\
  stopped r = true /\
  (exists tr,
     trace (world r) =
       (tr ++ [CallPrintSummary (stats.print_summary (stats_obj (world r)));
               Print Stopped])%list /\
     summaries (trace (world r)) = S (summaries tr)) /\
  (let r0 := run_gmgn_monitor debug g true (pre ++ t :: post)%list in
   stopped r0 = true /\ slept r0 = [] /\
   trace (world r0) =
     [CallPrintSummary (stats.print_summary stats.init); Print Stopped]).
Proof.
  intros Hpre Hs r. subst r.
  rewrite !run_loop_app by exact Hpre.
  destruct (run_loop_stop_turn debug t post (run_loop debug pre m) Hs)
    as [E (m' & Em)].
  rewrite E, Em.
  split; [reflexivity|]. split; [reflexivity|]. split.
  - exists (trace (world m')). rewrite shutdown_world. cbn [trace stats_obj].
    split; [rewrite <- app_assoc; reflexivity|].
    rewrite !summaries_app. simpl. lia.
  - cbn. repeat split.
Qed.

(** ** The subscription requests *)

Lemma substring_take_length (n : nat) (s : string) :
  String.length (substring 0 n s) = Nat.min n (String.length s).
Proof using.
  revert s. induction n as [|n IH]; intros [|c s]; simpl; try reflexivity.
  rewrite IH. reflexivity.
Qed.

Lemma subscriptions_lookup (uuids : nat -> string) (chains : list string) :
  forall k i chain,
    chains !! i = Some chain ->
    subscriptions uuids k chains !! (2 * i)%nat =
      Some (create_subscription (uuids (k + 2 * i)%nat)
              "new_pair_update" chain) /\
    subscriptions uuids k chains !! (2 * i + 1)%nat =
      Some (create_subscription (uuids (k + 2 * i + 1)%nat)
              "new_pool_info" chain).
Proof using.
  induction chains as [|c chains IH]; intros k i chain H.
  - discriminate H.
  - destruct i as [|i].
    + injection H as <-.
      replace (k + 2 * 0)%nat with k by lia.
      replace (k + 1)%nat with (S k) by lia.
      split; reflexivity.
    + replace (2 * S i)%nat with (S (S (2 * i))) by lia.
      replace (S (S (2 * i)) + 1)%nat with (S (S (2 * i + 1))) by lia.
      replace (k + S (S (2 * i)))%nat with (S (S k) + 2 * i)%nat by lia.
      replace (k + S (S (2 * i + 1)))%nat
        with (S (S k) + 2 * i + 1)%nat by lia.
      exact (IH (S (S k)) i chain H).
Qed.

Lemma substring_take_prefix (n : nat) (s : string) :
  String.prefix (substring 0 n s) s = true.
Proof using.
  revert s. induction n as [|n IH]; intros [|c s]; simpl; try reflexivity.
  destruct (ascii_dec c c) as [_|Hne]; [apply IH|congruence].
Qed.

Lemma create_subscription_request (h channel chain : string) :
  request_for h channel chain (create_subscription h channel chain).
Proof using.
  exists [ ("action", VStr "subscribe"); ("channel", VStr channel);
           ("f", VStr "w"); ("id", VStr (substring 0 16 h));
           ("data", VList [VDict [("chain", VStr chain)]]);
           ("access_token", VNone); ("retry", VNone) ],
    (substring 0 16 h).
  repeat split;
    [apply substring_take_prefix|apply substring_take_length].
Qed.

(** X20: the reconnect loop sends two subscription requests for each
    configured chain, the swap channel then the pool channel, chain after
    chain, each with a uuid of its own.  A request is the action
    ["subscribe"] for its channel in the format ["w"], its data the one
    chain, and its identifier the first 16 characters of the uuid's
    hex. *)
Theorem X20_subscriptions (uuids : nat -> string) (k : nat)
    (chains : list string) :
  length (subscriptions uuids k chains) = (2 * length chains)%nat /\
  (forall i chain,
     chains !! i = Some chain ->
     (exists r,
        subscriptions uuids k chains !! (2 * i)%nat = Some r /\
        request_for (uuids (k + 2 * i)%nat) "new_pair_update" chain r) /\
     (exists r,
        subscriptions uuids k chains !! (2 * i + 1)%nat = Some r /\
        request_for (uuids (k + 2 * i + 1)%nat) "new_pool_info" chain r)).
Proof using.
  split.
  - revert k. induction chains as [|c chains IH]; intros k; simpl.
    + reflexivity.
    + rewrite IH. lia.
  - intros i chain H.
    destruct (subscriptions_lookup uuids chains k i chain H) as [E1 E2].
    split; eexists; (split; [eassumption|]);
      apply create_subscription_request.
Qed.

(** ** The chain list of the configuration *)

Lemma split_comma_nonempty (s : string) : config.split_comma s <> [].
Proof using.
  destruct s as [|c s]; simpl; [discriminate|].
  destruct (Ascii.eqb c ","); [discriminate|].
  destruct (config.split_comma s); discriminate.
Qed.

Lemma split_comma_no_comma (s : string) :
  Forall (fun c => has_comma c = false) (config.split_comma s).
Proof using.
  induction s as [|c s IH]; simpl.
  - constructor; [reflexivity|constructor].
  - destruct (Ascii.eqb c ",") eqn:E.
    + constructor; [reflexivity|exact IH].
    + destruct (config.split_comma s) as [|x xs].
      * constructor; [simpl; rewrite E; reflexivity|constructor].
      * inversion IH as [|? ? Hx Hxs]; subst.
        constructor; [simpl; rewrite E; exact Hx|exact Hxs].
Qed.

Lemma lstrip_no_comma (s : string) :
  has_comma s = false -> has_comma (config.lstrip s) = false.
Proof using.
  induction s as [|c s IH]; simpl; [reflexivity|].
  intros H. apply orb_false_iff in H as [Hc Hs].
  destruct (config.is_space c); [apply IH; exact Hs|].
  simpl. rewrite Hc, Hs. reflexivity.
Qed.

Lemma rstrip_no_comma (s : string) :
  has_comma s = false -> has_comma (config.rstrip s) = false.
Proof using.
  induction s as [|c s IH]; simpl; [reflexivity|].
  intros H. apply orb_false_iff in H as [Hc Hs]. specialize (IH Hs).
  destruct (config.rstrip s) as [|c' r].
  - destruct (config.is_space c); simpl; [reflexivity|].
    rewrite Hc. reflexivity.
  - simpl in *. rewrite Hc, IH. reflexivity.
Qed.

Lemma rstrip_idempotent (s : string) :
  config.rstrip (config.rstrip s) = config.rstrip s.
Proof using.
  induction s as [|c s IH]; simpl; [reflexivity|].
  destruct (config.rstrip s) as [|c' r] eqn:E.
  - destruct (config.is_space c) eqn:Ec; simpl; [reflexivity|].
    rewrite Ec. reflexivity.
  - cbn [config.rstrip]. cbn [config.rstrip] in IH. rewrite IH.
    reflexivity.
Qed.

Lemma lstrip_idempotent (s : string) :
  config.lstrip (config.lstrip s) = config.lstrip s.
Proof using.
  induction s as [|c s IH]; simpl; [reflexivity|].
  destruct (config.is_space c) eqn:Ec; [exact IH|].
  simpl. rewrite Ec. reflexivity.
Qed.

Lemma lstrip_rstrip (s : string) :
  config.lstrip s = s -> config.lstrip (config.rstrip s) = config.rstrip s.
Proof using.
  destruct s as [|c s]; [reflexivity|]. simpl.
  destruct (config.is_space c) eqn:Ec.
  - intros H. exfalso.
    assert (L : forall t, (String.length (config.lstrip t)
                           <= String.length t)%nat).
    { induction t as [|a t IHt]; simpl; [lia|].
      destruct (config.is_space a); simpl; lia. }
    pose proof (L s) as Hl. rewrite H in Hl. simpl in Hl. lia.
  - intros _. destruct (config.rstrip s); simpl; rewrite Ec; reflexivity.
Qed.

Lemma strip_idempotent (s : string) :
  config.strip (config.strip s) = config.strip s.
Proof using.
  unfold config.strip.
  rewrite (lstrip_rstrip (config.lstrip s)) by apply lstrip_idempotent.
  apply rstrip_idempotent.
Qed.

Lemma stripped_nonempty_clean (parts : list string) :
  Forall (fun c => has_comma c = false) parts ->
  Forall clean_chain (config.stripped_nonempty parts).
Proof using.
  induction 1 as [|c parts Hc _ IH]; simpl; [constructor|].
  destruct (String.eqb_spec (config.strip c) "") as [E|E]; simpl;
    [exact IH|].
  constructor; [|exact IH].
  split; [exact E|]. split; [apply strip_idempotent|].
  unfold config.strip. apply rstrip_no_comma, lstrip_no_comma. exact Hc.
Qed.

(** X21: every chain code [Config.load] keeps is clean: it is not empty,
    has no white space around it and no comma in it, whatever the value
    of CHAINS. *)
Theorem X21_chains_clean (chains_str : string) :
  Forall clean_chain (config.parse_chains chains_str).
Proof using.
  apply stripped_nonempty_clean. apply split_comma_no_comma.
Qed.

Lemma split_comma_single (x : string) :
  has_comma x = false -> config.split_comma x = [x].
Proof using.
  induction x as [|c x IH]; simpl; [reflexivity|].
  intros H. apply orb_false_iff in H as [Hc Hx].
  rewrite Hc, (IH Hx). reflexivity.
Qed.

Lemma split_comma_cons (x rest : string) :
  has_comma x = false ->
  config.split_comma (x ++ String "," rest) = x :: config.split_comma rest.
Proof using.
  induction x as [|c x IH]; intros H.
  - reflexivity.
  - simpl in H. apply orb_false_iff in H as [Hc Hx].
    change (String c x ++ String "," rest)
      with (String c (x ++ String "," rest)).
    cbn [config.split_comma]. rewrite Hc, (IH Hx). reflexivity.
Qed.

Lemma split_join (parts : list string) :
  parts <> [] ->
  Forall (fun c => has_comma c = false) parts ->
  config.split_comma (join_comma parts) = parts.
Proof using.
  intros Hne H. induction H as [|x parts Hx Hall IH]; [congruence|].
  destruct parts as [|y parts].
  - simpl. apply split_comma_single. exact Hx.
  - unfold join_comma. cbn [String.concat].
    change ("," ++ ?s) with (String "," s).
    rewrite split_comma_cons by exact Hx.
    f_equal. apply IH. discriminate.
Qed.

Lemma stripped_nonempty_id (l : list string) :
  Forall clean_chain l -> config.stripped_nonempty l = l.
Proof using.
  induction 1 as [|c l (Hne & Hs & _) _ IH]; simpl; [reflexivity|].
  rewrite Hs, IH. apply String.eqb_neq in Hne. rewrite Hne. reflexivity.
Qed.

(** X22: the chain list round-trips through CHAINS.  Splitting undoes
    joining with commas for parts that hold no comma, so the chains kept
    for a joined value are the stripped non-empty parts; clean chain
    codes joined with commas are read back as they are. *)
Theorem X22_chains_round_trip (parts : list string) :
  Forall (fun c => has_comma c = false) parts ->
  config.parse_chains (join_comma parts) = config.stripped_nonempty parts /\
  (Forall clean_chain parts ->
   config.parse_chains (join_comma parts) = parts).
Proof using.
  intros H.
  assert (G : config.parse_chains (join_comma parts)
              = config.stripped_nonempty parts).
  { unfold config.parse_chains. destruct parts as [|x parts].
    - reflexivity.
    - rewrite split_join by (discriminate || exact H). reflexivity. }
  split; [exact G|]. intros Hc. rewrite G. apply stripped_nonempty_id.
  exact Hc.
Qed.

(** ** [extract_timestamp] *)

Lemma truthy_get_has (k : string) (d : list (string * value)) :
  truthy (dict_get_default k VNone d) = true -> dict_has k d = true.
Proof using.
  unfold dict_get_default, dict_has.
  destruct (dict_get k d); [reflexivity|discriminate].
Qed.

(** X23: [extract_timestamp] on a batch looks at its first record only.
    For a record with a truthy ['t'] it returns that timestamp.  For a
    pool item without one it returns the item's own open-time when that is truthy, even
    where the first entry has an open-time of its own, which is the one
    the pool decoder uses; when the item has no open-time it returns
    what the pool decoder uses for the first entry. *)
Theorem X23_extract_timestamp_and_decoders
    (d e : list (string * value)) (rest rest' prest : list value) :
  let t := dict_get_default "t" VNone d in
  let batch_ot := dict_get_default "ot" VNone d in
  utils.extract_timestamp (VList (VDict d :: rest)) =
    utils.extract_timestamp (VList (VDict d :: rest')) /\
  (truthy t = true ->
     utils.extract_timestamp (VList (VDict d :: rest)) = inr t) /\
  (truthy t = false -> truthy batch_ot = true ->
     utils.extract_timestamp (VList (VDict d :: rest)) = inr batch_ot /\
     (forall own, dict_get "ot" e = Some own ->
        entry_open_time d e = own)) /\
  (truthy t = false -> dict_get "ot" d = None ->
   dict_get "p" d = Some (VList (VDict e :: prest)) ->
     utils.extract_timestamp (VList (VDict d :: rest)) =
       inr (entry_open_time d e)).
Proof using.
  cbn zeta. split; [reflexivity|]. split; [|split].
  - intros Ht. unfold utils.extract_timestamp. cbn [truthy negb].
    rewrite (truthy_get_has _ _ Ht), Ht. reflexivity.
  - intros Ht Hot. split.
    + unfold utils.extract_timestamp. cbn [truthy negb].
      rewrite Ht, andb_false_r, (truthy_get_has _ _ Hot), Hot. reflexivity.
    + intros own H. unfold entry_open_time. rewrite H. reflexivity.
  - intros Ht Hot Hp. unfold utils.extract_timestamp. cbn [truthy negb].
    rewrite Ht, andb_false_r. unfold dict_has at 1. rewrite Hot.
    cbn [andb]. rewrite Hp. unfold utils.entry_ot, entry_open_time,
      dict_get_default. rewrite Hot.
    destruct (dict_get "ot" e); reflexivity.
Qed.

(** X24: [extract_timestamp] raises nothing but [TypeError], and only
    for a batch whose first record has no truthy timestamp of its own
    and a nested list that starts with something else than an object;
    there it does raise when that first entry is null, a bool or a
    number. *)
Theorem X24_extract_timestamp_raises (data : value) :
  (forall e, utils.extract_timestamp data = inl e ->
     e = TypeError /\
     exists d rest pool prest,
       data = VList (VDict d :: rest) /\
       dict_get "p" d = Some (VList (pool :: prest)) /\
       (forall pd, pool <> VDict pd)) /\
  (forall d rest pool prest,
     data = VList (VDict d :: rest) ->
     truthy (dict_get_default "t" VNone d) = false ->
     truthy (dict_get_default "ot" VNone d) = false ->
     dict_get "p" d = Some (VList (pool :: prest)) ->
     (pool = VNone \/ (exists b, pool = VBool b) \/ exists q, pool = VNum q) ->
     utils.extract_timestamp data = inl TypeError).
Proof using.
  split.
  - intros e. unfold utils.extract_timestamp.
    destruct (negb (truthy data)); [discriminate|].
    destruct data as [| | | |l|d]; try discriminate.
    + destruct l as [|item rest]; [discriminate|].
      destruct item as [| | | | |d]; try discriminate.
      destruct (dict_has "t" d && truthy (dict_get_default "t" VNone d));
        [discriminate|].
      destruct (dict_has "ot" d
                && truthy (dict_get_default "ot" VNone d));
        [discriminate|].
      destruct (dict_get "p" d) as [p|] eqn:Hp; [|discriminate].
      destruct p as [| | | |pl|]; try discriminate.
      destruct pl as [|pool prest]; [discriminate|].
      intros H. assert (He : e = TypeError /\ forall pd, pool <> VDict pd).
      { unfold utils.entry_ot in H.
        destruct pool as [| | |s|l'|pd]; try (injection H as <-);
          try (split; [reflexivity|discriminate]).
        - destruct (index 0 "ot" s); [|discriminate].
          injection H as <-. split; [reflexivity|discriminate].
        - destruct (existsb _ l'); [|discriminate].
          injection H as <-. split; [reflexivity|discriminate].
        - destruct (dict_get "ot" pd); discriminate. }
      destruct He as [-> Hn]. split; [reflexivity|].
      exists d, rest, pool, prest. repeat split; assumption.
    + destruct (dict_get "t" d); [discriminate|].
      destruct (dict_get "ot" d); discriminate.
  - intros d rest pool prest -> Ht Hot Hp Hpool.
    unfold utils.extract_timestamp. cbn [truthy negb].
    rewrite Ht, Hot, !andb_false_r, Hp.
    destruct Hpool as [->|[[b ->]|[q ->]]]; reflexivity.
Qed.

End Monitor.

(** * The properties at concrete inputs *)

(** ** The two end-to-end scenarios of the specification *)

Example swap_scenario :
  let w := world_of (handle_swap_trade clock0 float0 (VList [trade_foo])
                       1000 false w0) in
  trace w =
    [ CallCalculateLatency (VNum 999.95) (Some ((1000 - 999.95) * 1000));
      CallRecordLatency "gmgn" "bnb" ((1000 - 999.95) * 1000);
      CallStatsUpdate "swap" "bnb" ((1000 - 999.95) * 1000);
      Print (SwapRich 1000 "bnb" (VStr "FOO") (VStr "0xabc123")
               (Finite 0.0042) (Finite 150000) (Finite 5000) 3 1
               (VNum 999.95) (50%Z, utils.Excellent)) ] /\
  stats.swap_count (stats_obj w) = 1%Z /\
  stats.cs_swap_count <$> (stats.by_chain (stats_obj w) !! "bnb")
    = Some 1%Z /\
  (metrics._swap_latency (gauges w) ≫= (fun m => m !! "bnb"))
    = Some ((1000 - 999.95) * 1000).
Proof. vm_compute. repeat split. Qed.

Example pool_scenario :
  let w := world_of (handle_new_pool clock0 float0
                       (VList [VDict pool_wrapped]) 1000 false w0) in
  (metrics._pool_discovery_latency (gauges w)
     ≫= (fun m => m !! ("gmgn", "solana")))
    = Some ((1000 - 998) * 1000) /\
  stats.pool_count (stats_obj w) = 1%Z.
Proof. vm_compute. repeat split. Qed.

(** ** Null fields in a swap batch *)

(** C3 at a batch whose first record has a null chain: the decoder
    raises [AttributeError] out of [get_chain_name] before anything is
    recorded, and the sibling record, which is decoded when it comes
    alone, is not reached; in the listening loop the exception ends the
    loop, so the frames behind it are not decoded either.  A null address
    raises [TypeError] below the calls of the sink and of the
    aggregator. *)
Theorem C3_null_field_aborts_batch :
  handle_swap_trade clock0 float0 (VList [trade_null_chain; trade_foo])
    1000 false w0 = Raised AttributeError w0 /\
  stats.swap_count
    (stats_obj (world_of (handle_swap_trade clock0 float0
                            (VList [trade_foo]) 1000 false w0))) = 1%Z /\
  (let w := listen_to_gmgn clock0 float0 false
              [swap_frame [trade_null_chain]; swap_frame [trade_foo]]
              false w0 in
   trace w = [Print (HandlerErrorLine AttributeError)] /\
   stats.swap_count (stats_obj w) = 0%Z) /\
  (exists w,
     handle_swap_trade clock0 float0
       (VList [trade_null_address; trade_foo]) 1000 false w0
     = Raised TypeError w /\
     stats.swap_count (stats_obj w) = 1%Z).
Proof.
  split; [vm_compute; reflexivity|].
  split; [vm_compute; reflexivity|].
  split; [vm_compute; split; reflexivity|].
  eexists. split; [vm_compute; reflexivity|]. vm_compute. reflexivity.
Qed.

(** ** A NaN timestamp *)

(** C2 at a timestamp that is a NaN, which [json.loads] accepts: the
    timestamp is truthy and the latency computed from it is a NaN, which
    is neither below 0 nor above 120000, so [calculate_latency] returns
    it; the guard of the sinks lets it through as well, the gauges are
    set to it and the aggregator adds it to its sum.  The value was never
    in [0, 120000].  The guards do not diverge: on doubles too, what
    [calculate_latency] returns is what the sinks let through. *)
Theorem C2_nan_passes_the_filter :
  binary64.calculate_latency binary64.now0 PrimFloat.nan
    = Some PrimFloat.nan /\
  binary64.in_range PrimFloat.nan = false /\
  (forall now t l a c g,
     binary64.calculate_latency now t = Some l ->
     binary64.record_latency a c l g =
       binary64.mkGauges
         (binary64.gauge_set c l (binary64._swap_latency g))
         (binary64._pool_discovery_latency g)
         (binary64.gauge_set (a, c) l (binary64._all_aggregator_latency g))
     /\
     binary64.record_pool_discovery_latency a c l g =
       binary64.mkGauges
         (binary64._swap_latency g)
         (binary64.gauge_set (a, c) l (binary64._pool_discovery_latency g))
         (binary64.gauge_set (a, c) l
            (binary64._all_aggregator_latency g))) /\
  (let g := binary64.record_latency "gmgn" "bnb" PrimFloat.nan
              (binary64.init_metrics
                 (binary64.mkGauges None None None)) in
   (binary64._swap_latency g ≫= (fun m => m !! "bnb"))
     = Some PrimFloat.nan /\
   (binary64._all_aggregator_latency g ≫= (fun m => m !! ("gmgn", "bnb")))
     = Some PrimFloat.nan) /\
  (let g := binary64.record_pool_discovery_latency "gmgn" "solana"
              PrimFloat.nan
              (binary64.init_metrics
                 (binary64.mkGauges None None None)) in
   (binary64._pool_discovery_latency g
      ≫= (fun m => m !! ("gmgn", "solana"))) = Some PrimFloat.nan) /\
  (let r := binary64.update "swap" "bnb" PrimFloat.nan binary64.init in
   fst r = None /\
   binary64.swap_count (snd r) = 1%Z /\
   binary64.total_swap_latency (snd r) = PrimFloat.nan /\
   binary64.cs_total_latency <$> binary64.lookup "bnb"
                                   (binary64.by_chain (snd r))
     = Some PrimFloat.nan).
Proof.
  split; [reflexivity|]. split; [reflexivity|].
  split; [|repeat split; vm_compute; reflexivity].
  intros now t l a c g. unfold binary64.calculate_latency.
  destruct (binary64.falsy t); [discriminate|].
  match goal with
  | |- (if ?b then _ else _) = _ -> _ => destruct b eqn:E; [discriminate|]
  end.
  intros [= <-].
  unfold binary64.record_latency, binary64.record_pool_discovery_latency.
  rewrite E. split; reflexivity.
Qed.

(** ** Counterexamples to the claims as worded *)

(** C4 as worded counts the frames handed to a decoder: after 49 frames
    that fail to parse, the first swap frame would render nothing.  It is
    the 50th frame received and a summary is rendered. *)
Lemma C4_unparsed_frames_count :
  ~ cadence_as_stated clock0 float0 false frames_49_bad_then_swap w0.
Proof.
  unfold cadence_as_stated. vm_compute. discriminate.
Qed.

(** C6 as worded has the bucket totals add up to the global cumulative
    latency.  On doubles, after swaps of 0.1 and 1.1 ms on one chain and
    0.1 ms on another, the global total is 0.1 + 0.1 + 1.1 = 1.3 and the
    buckets hold 0.1 + 1.1 = 1.2000000000000002 and 0.1, which add up to
    1.3000000000000003. *)
Lemma C6_chain_totals_drift :
  ~ binary64.chains_reconstruct
      (binary64.updates binary64.drift_calls binary64.init).
Proof.
  intros [_ H]. vm_compute in H. discriminate H.
Qed.

(** C8 as worded has an entry without an open-time of its own inherit
    the batch item's.  An entry whose ['ot'] is null, in a batch item
    opened 2 s before the clock reading, is not decoded with the batch
    item's open-time: [calculate_latency] is called on the null and the
    entry is skipped. *)
Lemma C8_null_open_time_not_inherited :
  ~ latency_taken_from clock0
      (open_time_as_stated pool_wrapped_null_ot pool_entry_null_ot)
      "solana" w0
      (pool_event_step clock0 float0 1000 false
         (VDict pool_wrapped_null_ot) w0).
Proof.
  unfold latency_taken_from.
  change (open_time_as_stated pool_wrapped_null_ot pool_entry_null_ot)
    with (VNum 998).
  replace (utils.calculate_latency (clock0 (ticks w0)) (VNum 998))
    with (Some ((1000 - 998) * 1000)) by (vm_compute; reflexivity).
  intros (rest & H). vm_compute in H. discriminate H.
Qed.

(** C9 as worded is idempotent at every input: ["SOL"] is lower-cased to
    ["sol"], which the table maps to ["solana"]. *)
Lemma C9_not_idempotent_at_SOL : ~ normalize_idempotent_at "SOL".
Proof.
  unfold normalize_idempotent_at. vm_compute. discriminate.
Qed.

(** ** The theorems at concrete inputs *)

Lemma C1_witness :
  utils.calculate_latency 1000.05 (VNum 1000)
  = Some ((1000.05 - 1000) * 1000).
Proof.
  apply (C1_calculate_latency 1000.05 1000).
  - unfold Qeq. simpl. lia.
  - split; unfold Qle; simpl; lia.
Defined.

Lemma C4_witness :
  summaries
    (trace (world_of (listen_loop clock0 float0 0 false frames_50_swaps w0)))
  = 1%nat /\
  summaries
    (trace (listen_to_gmgn clock0 float0 false
              frames_49_bad_then_null_chain false w0))
  = 0%nat.
Proof.
  split.
  - rewrite (proj1 (C4_summary_cadence clock0 float0 false frames_50_swaps
                      false w0)).
    vm_compute. reflexivity.
  - rewrite (proj1 (proj2 (C4_summary_cadence clock0 float0 false
                             frames_49_bad_then_null_chain false w0))).
    vm_compute. reflexivity.
Defined.

Lemma C5_witness :
  slept (run_gmgn_monitor clock0 float0 false
           (metrics.init_metrics metrics.unset) false
           ([failure; failure; failure]
            ++ listening [swap_frame [trade_foo]] true
            :: repeat failure 6)%list)
  = [5; 10; 20; 5; 10; 20; 40; 60; 60; 60]%Z.
Proof.
  apply (C5_backoff_sequence clock0 float0 false
           (metrics.init_metrics metrics.unset)
           [failure; failure; failure] [swap_frame [trade_foo]] true 6).
  repeat constructor.
Defined.

Lemma C6_witness :
  stats.avg_swap (updates update_calls stats.init)
  = Some (py_sum [50; 150; 100] / inject_Z 3).
Proof.
  apply (C6_running_mean_and_chain_totals update_calls).
  - unfold update_calls, known_type.
    repeat (constructor;
            [first [left; reflexivity|right; reflexivity]|]).
    constructor.
  - discriminate.
Defined.

Lemma C7_witness :
  exists w',
    handle_new_pool clock0 float0 (VList [VDict pool_wrapped]) 1000 false w0
      = Ok tt w' /\
    handle_new_pool clock0 float0 (VList [VDict pool_bare]) 1000 false w0
      = Ok tt w' /\
    pool_gauge (gauges w') "gmgn" "solana" = Some ((1000 - 998) * 1000) /\
    stats.pool_count (stats_obj w') = 1%Z.
Proof.
  destruct (C7_pool_shapes_agree clock0 float0 1000 false pool_wrapped
              pool_entry pool_bare [] [] w0) as [_ H].
  { unfold same_pool. repeat split; reflexivity. }
  destruct (H "sol"
              [ ("s", VStr "BAR"); ("n", VStr "Bar Token"); ("p", VNum 0);
                ("mc", VNum 0); ("v1h", VNum 0); ("hc", VNum 0) ]
              "Addr123456789" ((1000 - 998) * 1000)
              (Finite 0, Finite 0, 0%Z, Finite 12.5) w0)
    as (w' & E1 & E2 & _ & G & S); try reflexivity.
  exists w'. split; [exact E1|]. split; [exact E2|].
  rewrite G, S. split; reflexivity.
Defined.

Lemma C8_witness :
  latency_taken_from clock0 (VNum 999) "solana" w0
    (pool_step clock0 float0 1000 false "solana" (VNum 998)
       (VDict pool_entry_own) w0) /\
  latency_taken_from clock0 (VNum 998) "solana" w0
    (pool_step clock0 float0 1000 false "solana" (VNum 998)
       (VDict pool_entry) w0).
Proof.
  split.
  - apply (C8_open_time_inherit_override clock0 float0 1000 false
             [("c", VStr "sol"); ("ot", VNum 998);
              ("p", VList [VDict pool_entry_own])]
             pool_entry_own "sol" [VDict pool_entry_own] w0);
      try reflexivity.
    + left. reflexivity.
    + eexists. reflexivity.
  - apply (C8_open_time_inherit_override clock0 float0 1000 false
             pool_wrapped pool_entry "sol" [VDict pool_entry] w0);
      try reflexivity.
    + left. reflexivity.
    + eexists. reflexivity.
Defined.

Lemma C9_witness : normalize_idempotent_at "Solana".
Proof.
  apply (C9_normalize_total_idempotent "Solana").
  left. eexists. reflexivity.
Defined.

Lemma C10_witness :
  fst (stats.update "total" "bnb" 50 stats.init) = Some KeyError.
Proof.
  apply (C10_update_frame "total" "bnb" 50 stats.init); discriminate.
Defined.

(** ** Further properties at concrete inputs *)

Lemma X1_witness :
  stats.by_chain (updates update_calls stats.init) !! "bnb"
  = Some (stats.mkChainStats 2 0 (py_sum [50; 100])).
Proof.
  apply (X1_bucket_contents update_calls "bnb").
  unfold update_calls, known_type.
  repeat (constructor; [first [left; reflexivity|right; reflexivity]|]).
  constructor.
Defined.

Lemma X2_witness :
  extrema_ok [50; 150; 100]
    (stats.min_swap_latency (updates update_calls stats.init))
    (stats.max_swap_latency (updates update_calls stats.init)).
Proof.
  apply (X2_extrema_kept update_calls).
  - unfold update_calls, known_type.
    repeat (constructor; [first [left; reflexivity|right; reflexivity]|]).
    constructor.
  - discriminate.
Defined.

Lemma X3_witness :
  stats.sum_chains (stats.print_summary (updates update_calls stats.init))
    !! "bnb"
  = Some (2%Z, py_sum [50; 100] / inject_Z 2).
Proof.
  apply (X3_summary_sections update_calls "bnb").
  unfold update_calls, known_type.
  repeat (constructor; [first [left; reflexivity|right; reflexivity]|]).
  constructor.
Defined.

Lemma X5_witness :
  swap_gauge
    (metrics.record_latency "gmgn" "bnb" 50
       (metrics.init_metrics metrics.unset)) "bnb" = Some 50.
Proof.
  apply (X5_record_latency_sets "gmgn" "bnb" 50
           (metrics.init_metrics metrics.unset)).
  - repeat split; eexists; reflexivity.
  - split; unfold Qle; simpl; lia.
Defined.

Lemma X6_witness :
  pool_gauge
    (metrics.record_pool_discovery_latency "gmgn" "solana" 2000
       (metrics.init_metrics metrics.unset)) "gmgn" "solana" = Some 2000.
Proof.
  apply (X6_record_pool_sets "gmgn" "solana" 2000
           (metrics.init_metrics metrics.unset)).
  - repeat split; eexists; reflexivity.
  - split; unfold Qle; simpl; lia.
Defined.

Lemma X7_witness :
  metrics._swap_latency
    (metrics.record_latency "gmgn" "bnb" 50 metrics.unset) = None.
Proof.
  apply (X7_uninitialised_gauges "gmgn" "bnb" 50 metrics.unset).
  reflexivity.
Defined.




Lemma X12_witness :
  handle_new_pool clock0 float0 (VList [VNum 1; VDict pool_wrapped]) 1000
    false w0 = Raised AttributeError w0.
Proof.
  apply (X12_payload_not_a_batch clock0 float0 1000 false w0).
  intros d. discriminate.
Defined.

Lemma X13_witness :
  pool_event_step clock0 float0 1000 false
    (VDict [("c", VStr "sol"); ("p", VNone)]) w0 = Raised TypeError w0.
Proof.
  apply (X13_nested_list_edges clock0 float0 1000 false
           [("c", VStr "sol"); ("p", VNone)] "sol" w0); reflexivity.
Defined.

Lemma X16_witness :
  listen_to_gmgn clock0 float0 false
    ([swap_frame [trade_null_chain]] ++ [swap_frame [trade_foo]])%list
    true w0
  = listen_to_gmgn clock0 float0 false [swap_frame [trade_null_chain]]
      false w0.
Proof.
  eapply (X16_listen_loop_composes clock0 float0 false
            [swap_frame [trade_null_chain]] [swap_frame [trade_foo]] 0 w0).
  vm_compute. reflexivity.
Defined.

Lemma X17_witness :
  exists w',
    listen_step clock0 float0 50 false
      (Json (VDict [("channel", VStr "ack")])) w0 = Ok tt w' /\
    stats_obj w' = stats_obj w0.
Proof.
  destruct (X17_frames_not_dispatched clock0 float0 50 false
              (Json (VDict [("channel", VStr "ack")])) w0) as [H _].
  destruct H as (w' & E & _ & S & _).
  - right. eexists. reflexivity.
  - reflexivity.
  - exists w'. split; [exact E|exact S].
Defined.

Lemma X19_witness :
  stopped
    (run_loop clock0 float0 false
       ([failure] ++ mkTurn Fails true false :: [failure])%list
       (mkMonitor 5 [] w0 false)) = true.
Proof.
  apply (X19_shutdown clock0 float0 false [failure]
           (mkTurn Fails true false) [failure] (mkMonitor 5 [] w0 false)
           (metrics.init_metrics metrics.unset)).
  - repeat constructor.
  - left. reflexivity.
Defined.

Lemma X22_witness :
  config.parse_chains (join_comma [" sol "; ""; "bsc"; "base"])
  = ["sol"; "bsc"; "base"].
Proof.
  apply (X22_chains_round_trip [" sol "; ""; "bsc"; "base"]).
  repeat constructor.
Defined.

Lemma X20_witness :
  exists r,
    subscriptions (fun _ => "0123456789abcdef0123456789abcdef") 4
      ["sol"; "bsc"] !! 3%nat = Some r /\
    request_for "0123456789abcdef0123456789abcdef" "new_pool_info" "bsc" r.
Proof.
  apply (proj2 (X20_subscriptions
           (fun _ => "0123456789abcdef0123456789abcdef") 4
           ["sol"; "bsc"]) 1%nat "bsc").
  reflexivity.
Defined.

Lemma X23_witness :
  utils.extract_timestamp (VList [trade_foo]) = inr (VNum 999.95).
Proof.
  apply (X23_extract_timestamp_and_decoders
           [ ("s", VStr "FOO"); ("a", VStr "0xabc123def456");
             ("p", VStr "0.0042"); ("mc", VNum 150000);
             ("v1h", VNum 5000); ("b1h", VNum 3); ("s1h", VNum 1);
             ("c", VStr "bsc"); ("t", VNum 999.95) ] [] [] [] []).
  reflexivity.
Defined.

Lemma X24_witness :
  utils.extract_timestamp
    (VList [VDict [("c", VStr "sol"); ("p", VList [VNone])]])
  = inl TypeError.
Proof.
  apply (X24_extract_timestamp_raises
           (VList [VDict [("c", VStr "sol"); ("p", VList [VNone])]]))
    with (d := [("c", VStr "sol"); ("p", VList [VNone])]) (rest := [])
         (pool := VNone) (prest := []);
    try reflexivity.
  left. reflexivity.
Defined.
